(** * debootstrap.py: a shallow embedding and its checked properties

    The development follows the layout of [debootstrap.py]: Python string
    helpers, the [posixpath] functions the program calls, [tarfile.TarInfo],
    and then each component ([packages_dict], [fetch_http],
    [download_cached], [_gpg_verify], [unpack_ar], [Filesystem],
    [mutate_file] / [output_filter]).  Definitions come first, theorems
    after. *)

From Stdlib Require Import ZArith Ascii String List Lia Wellfounded.
From stdpp Require Import base option gmap strings list sorting.

Local Open Scope Z_scope.
Local Open Scope stdpp_scope.

(** ** Python [str] / [bytes] helpers

    Both [str] and [bytes] values are modelled as [string] (a list of 8-bit
    characters); text is assumed to be ASCII so that [encode] / [decode] are
    the identity. *)
Module Py.

(** The exceptions the modelled code can end with. *)
Inductive exn :=
| KeyError (key : string)
| RuntimeError (arg : string)
| HTTPStatus (status : Z) (* RuntimeError(r.status) *)
| ValueError
| TypeError
| AssertionError
| AttributeError
| OSError
| TarError.

(** A call either returns a value or raises. *)
Inductive result (A : Type) :=
| Return (a : A)
| Raise (e : exn).
Arguments Return {A} a.
Arguments Raise {A} e.

Definition slash : ascii := "/"%char.
Definition dot : ascii := "."%char.
Definition newline : ascii := "010"%char.

Definition is_empty (s : string) : bool :=
  match s with EmptyString => true | _ => false end.

(** [s.startswith(p)] *)
Fixpoint startswith (p s : string) : bool :=
  match p, s with
  | EmptyString, _ => true
  | String a p', String b s' => if decide (a = b) then startswith p' s' else false
  | String _ _, EmptyString => false
  end.

(** last character of [s], if any *)
Fixpoint last_char (s : string) : option ascii :=
  match s with
  | EmptyString => None
  | String c EmptyString => Some c
  | String _ s' => last_char s'
  end.

(** [s.endswith(c)] for a one-character [c] *)
Definition endswith_char (c : ascii) (s : string) : bool :=
  match last_char s with
  | Some d => bool_decide (c = d)
  | None => false
  end.

(** [c in s] for a one-character [c] *)
Fixpoint contains (c : ascii) (s : string) : bool :=
  match s with
  | EmptyString => false
  | String d s' => if decide (c = d) then true else contains c s'
  end.

(** [s.split(c)] for a one-character separator: never the empty list. *)
Fixpoint split (c : ascii) (s : string) : list string :=
  match s with
  | EmptyString => [EmptyString]
  | String d s' =>
      if decide (d = c) then EmptyString :: split c s'
      else match split c s' with
           | [] => [String d EmptyString]
           | h :: t => String d h :: t
           end
  end.

(** [sep.join(l)] *)
Fixpoint join (sep : string) (l : list string) : string :=
  match l with
  | [] => EmptyString
  | [x] => x
  | x :: l' => x +:+ sep +:+ join sep l'
  end.

(** ["".join(l)] *)
Definition concat (l : list string) : string := foldr String.append EmptyString l.

(** [s.lstrip(chars)]: drops every leading character that occurs in [chars]. *)
Fixpoint lstrip (chars : string) (s : string) : string :=
  match s with
  | EmptyString => EmptyString
  | String c s' => if contains c chars then lstrip chars s' else s
  end.

(** [s.rstrip(chars)] *)
Fixpoint rstrip (chars : string) (s : string) : string :=
  match s with
  | EmptyString => EmptyString
  | String c s' =>
      match rstrip chars s' with
      | EmptyString => if contains c chars then EmptyString else String c EmptyString
      | r => String c r
      end
  end.

(** [c * n] for a one-character [c] *)
Fixpoint repeat_char (c : ascii) (n : nat) : string :=
  match n with
  | O => EmptyString
  | S n' => String c (repeat_char c n')
  end.

(** [len(s)] *)
Definition len (s : string) : Z := Z.of_nat (String.length s).

(** [s[n:]] *)
Fixpoint drop (n : nat) (s : string) : string :=
  match n, s with
  | O, _ => s
  | S n', String _ s' => drop n' s'
  | S _, EmptyString => EmptyString
  end.

(** [s[:n]] *)
Fixpoint take (n : nat) (s : string) : string :=
  match n, s with
  | O, _ => EmptyString
  | S n', String c s' => String c (take n' s')
  | S _, EmptyString => EmptyString
  end.

(** [fh.read(n)] on a stream whose unread bytes are [fh]: the bytes read and
    the bytes left; a negative [n] reads to the end. *)
Definition read (n : Z) (fh : string) : string * string :=
  if n <? 0 then (fh, EmptyString)
  else (take (Z.to_nat n) fh, drop (Z.to_nat n) fh).

(** [s.count(c)] for a one-character [c] *)
Fixpoint count (c : ascii) (s : string) : nat :=
  match s with
  | EmptyString => O
  | String d s' => if decide (c = d) then S (count c s') else count c s'
  end.

(** [s] followed by a line feed *)
Definition line (s : string) : string := s +:+ String newline EmptyString.

(** [s[:-1]] *)
Fixpoint drop_last (s : string) : string :=
  match s with
  | EmptyString => EmptyString
  | String _ EmptyString => EmptyString
  | String c s' => String c (drop_last s')
  end.

(** ASCII whitespace, as [bytes.split()], [bytes.strip()] and [int()] see
    it: tab, line feed, vertical tab, form feed, carriage return, space. *)
Definition is_space (c : ascii) : bool := Ascii.is_space c.

Fixpoint lstrip_space (s : string) : string :=
  match s with
  | EmptyString => EmptyString
  | String c s' => if is_space c then lstrip_space s' else s
  end.

Fixpoint rstrip_space (s : string) : string :=
  match s with
  | EmptyString => EmptyString
  | String c s' =>
      match rstrip_space s' with
      | EmptyString => if is_space c then EmptyString else String c EmptyString
      | r => String c r
      end
  end.

(** the maximal whitespace-free prefix of [s], and what follows it *)
Fixpoint span_word (s : string) : string * string :=
  match s with
  | EmptyString => (EmptyString, EmptyString)
  | String c s' =>
      if is_space c then (EmptyString, s)
      else let '(w, r) := span_word s' in (String c w, r)
  end.

(** [s.split(maxsplit=1)]: at most two pieces; the second keeps its trailing
    whitespace. *)
Definition split_ws1 (s : string) : list string :=
  match lstrip_space s with
  | EmptyString => []
  | t => let '(w, r) := span_word t in
         match lstrip_space r with
         | EmptyString => [w]
         | r' => [w; r']
         end
  end.

End Py.

(** ** [posixpath]: the three functions [Filesystem.resolve] and
    [Filesystem._build_path] call ([os.path] on the platforms the program
    runs on). *)
Module PosixPath.

(** [posixpath.join(a, b)] with one tail argument *)
Definition join (a b : string) : string :=
  if Py.startswith "/" b then b
  else if Py.is_empty a || Py.endswith_char Py.slash a then a +:+ b
  else a +:+ "/" +:+ b.

(** [p[:p.rfind("/") + 1]] *)
Fixpoint head_part (p : string) : string :=
  match p with
  | EmptyString => EmptyString
  | String c p' =>
      if Py.contains Py.slash p' then String c (head_part p')
      else if decide (c = Py.slash) then "/" else EmptyString
  end.

(** [posixpath.dirname(p)] *)
Definition dirname (p : string) : string :=
  let head := head_part p in
  if negb (Py.is_empty head)
     && negb (bool_decide (head = Py.repeat_char Py.slash (String.length head)))
  then Py.rstrip "/" head
  else head.

(** The component stack of [normpath]; [new_comps] is kept reversed (its head
    is Python's [new_comps[-1]]). *)
Fixpoint normpath_comps (initial_slashes : nat) (comps : list string)
  (new_comps : list string) : list string :=
  match comps with
  | [] => new_comps
  | comp :: comps' =>
      if bool_decide (comp = "") || bool_decide (comp = ".")
      then normpath_comps initial_slashes comps' new_comps
      else if negb (bool_decide (comp = ".."))
              || (bool_decide (initial_slashes = O) && bool_decide (new_comps = []))
              || match new_comps with
                 | top :: _ => bool_decide (top = "..")
                 | [] => false
                 end
      then normpath_comps initial_slashes comps' (comp :: new_comps)
      else match new_comps with
           | _ :: rest => normpath_comps initial_slashes comps' rest
           | [] => normpath_comps initial_slashes comps' new_comps
           end
  end.

(** [posixpath.normpath(path)] *)
Definition normpath (path : string) : string :=
  if Py.is_empty path then "."
  else
    let initial_slashes :=
      if Py.startswith "/" path
      then if Py.startswith "//" path && negb (Py.startswith "///" path)
           then 2%nat else 1%nat
      else 0%nat in
    let comps := Py.split Py.slash path in
    let new_comps := rev (normpath_comps initial_slashes comps []) in
    let path' := Py.repeat_char Py.slash initial_slashes +:+ Py.join "/" new_comps in
    if Py.is_empty path' then "." else path'.

End PosixPath.

(** ** [tarfile.TarInfo] *)
Module Tar.

Record TarInfo := mkTarInfo {
  name : string;
  mode : Z;
  uid : Z;
  gid : Z;
  size : Z;
  mtime : Z;
  type : ascii;
  linkname : string;
  uname : string;
  gname : string;
  devmajor : Z;
  devminor : Z;
  pax_headers : gmap string string;
}.

Definition REGTYPE : ascii := "0"%char.
Definition AREGTYPE : ascii := "000"%char.
Definition LNKTYPE : ascii := "1"%char.
Definition SYMTYPE : ascii := "2"%char.
Definition CHRTYPE : ascii := "3"%char.
Definition BLKTYPE : ascii := "4"%char.
Definition DIRTYPE : ascii := "5"%char.
Definition FIFOTYPE : ascii := "6"%char.
Definition CONTTYPE : ascii := "7"%char.
Definition GNUTYPE_SPARSE : ascii := "S"%char.

(** [TarInfo(name)]: the constructor's defaults. *)
Definition new (n : string) : TarInfo :=
  {| name := n; mode := 420 (* 0o644 *); uid := 0; gid := 0; size := 0;
     mtime := 0; type := REGTYPE; linkname := ""; uname := ""; gname := "";
     devmajor := 0; devminor := 0; pax_headers := ∅ |}.

Definition set_name (n : string) (ti : TarInfo) : TarInfo :=
  {| name := n; mode := mode ti; uid := uid ti; gid := gid ti; size := size ti;
     mtime := mtime ti; type := type ti; linkname := linkname ti;
     uname := uname ti; gname := gname ti; devmajor := devmajor ti;
     devminor := devminor ti; pax_headers := pax_headers ti |}.

Definition set_mode (m : Z) (ti : TarInfo) : TarInfo :=
  {| name := name ti; mode := m; uid := uid ti; gid := gid ti; size := size ti;
     mtime := mtime ti; type := type ti; linkname := linkname ti;
     uname := uname ti; gname := gname ti; devmajor := devmajor ti;
     devminor := devminor ti; pax_headers := pax_headers ti |}.

Definition set_size (s : Z) (ti : TarInfo) : TarInfo :=
  {| name := name ti; mode := mode ti; uid := uid ti; gid := gid ti; size := s;
     mtime := mtime ti; type := type ti; linkname := linkname ti;
     uname := uname ti; gname := gname ti; devmajor := devmajor ti;
     devminor := devminor ti; pax_headers := pax_headers ti |}.

Definition set_mtime (t : Z) (ti : TarInfo) : TarInfo :=
  {| name := name ti; mode := mode ti; uid := uid ti; gid := gid ti; size := size ti;
     mtime := t; type := type ti; linkname := linkname ti;
     uname := uname ti; gname := gname ti; devmajor := devmajor ti;
     devminor := devminor ti; pax_headers := pax_headers ti |}.

Definition set_type (t : ascii) (ti : TarInfo) : TarInfo :=
  {| name := name ti; mode := mode ti; uid := uid ti; gid := gid ti; size := size ti;
     mtime := mtime ti; type := t; linkname := linkname ti;
     uname := uname ti; gname := gname ti; devmajor := devmajor ti;
     devminor := devminor ti; pax_headers := pax_headers ti |}.

Definition set_linkname (l : string) (ti : TarInfo) : TarInfo :=
  {| name := name ti; mode := mode ti; uid := uid ti; gid := gid ti; size := size ti;
     mtime := mtime ti; type := type ti; linkname := l;
     uname := uname ti; gname := gname ti; devmajor := devmajor ti;
     devminor := devminor ti; pax_headers := pax_headers ti |}.

Definition set_owner_names (u g : string) (ti : TarInfo) : TarInfo :=
  {| name := name ti; mode := mode ti; uid := uid ti; gid := gid ti; size := size ti;
     mtime := mtime ti; type := type ti; linkname := linkname ti;
     uname := u; gname := g; devmajor := devmajor ti;
     devminor := devminor ti; pax_headers := pax_headers ti |}.

Definition set_dev (major minor : Z) (ti : TarInfo) : TarInfo :=
  {| name := name ti; mode := mode ti; uid := uid ti; gid := gid ti; size := size ti;
     mtime := mtime ti; type := type ti; linkname := linkname ti;
     uname := uname ti; gname := gname ti; devmajor := major;
     devminor := minor; pax_headers := pax_headers ti |}.

(** [ti.issym()], [ti.isreg()], [ti.isdir()] *)
Definition issym (ti : TarInfo) : bool := bool_decide (type ti = SYMTYPE).
Definition isreg (ti : TarInfo) : bool :=
  bool_decide (type ti = REGTYPE) || bool_decide (type ti = AREGTYPE)
  || bool_decide (type ti = CONTTYPE) || bool_decide (type ti = GNUTYPE_SPARSE).
Definition isdir (ti : TarInfo) : bool := bool_decide (type ti = DIRTYPE).

End Tar.

(** ** [class Filesystem] *)
Module Fs.

(** [self._files]: canonical name -> (TarInfo, file object or None). *)
Abbreviation files := (gmap string (Tar.TarInfo * option string)).

(** How a method call ends: it returns [None] or raises. *)
Abbreviation Returned := (Py.Return tt).

(** [Filesystem.resolve].  The recursion follows one symlink per call; [fuel]
    bounds the number of links followed and [None] means the bound was
    reached. *)
Fixpoint resolve (fuel : nat) (fs : files) (name : string) : option string :=
  match fs !! name with
  | None => Some name
  | Some (info, fh) =>
      if negb (Tar.issym info) then Some name
      else
        let dirname := PosixPath.dirname name in
        let target := PosixPath.normpath (PosixPath.join dirname (Tar.linkname info)) in
        match fuel with
        | O => None
        | S fuel' => resolve fuel' fs target
        end
  end.

(** The [while components:] loop of [_build_path]; [components] is listed in
    the order in which [pop()] hands the pieces out. *)
Fixpoint build_path_loop (fuel : nat) (fs : files) (ret : string)
  (components : list string) : option string :=
  match components with
  | [] => Some ret
  | c :: components' =>
      match resolve fuel fs (PosixPath.join ret c) with
      | Some ret' => build_path_loop fuel fs ret' components'
      | None => None
      end
  end.

(** [Filesystem._build_path] *)
Definition _build_path (fuel : nat) (fs : files) (name : string) : option string :=
  build_path_loop fuel fs "" (Py.split Py.slash name).

(** [extract_useful] *)
Definition extract_useful (ti : Tar.TarInfo) :=
  (Tar.name ti, Tar.mode ti, Tar.uid ti, Tar.gid ti, Tar.size ti, Tar.type ti,
   Tar.uname ti, Tar.gname ti, Tar.pax_headers ti).

(** [Filesystem.add]: [None] when [_build_path] does not return within
    [fuel]; otherwise the new [_files] and how the call ended. *)
Definition add (fuel : nat) (fs : files) (ti : Tar.TarInfo) (fileobj : option string)
  : option (files * Py.result unit) :=
  match _build_path fuel fs (Tar.name ti) with
  | None => None
  | Some n =>
      let ti := Tar.set_owner_names "" "" (Tar.set_name n ti) in
      match fs !! n with
      | Some (existing, fh) =>
          let existing := Tar.set_mtime (Z.max (Tar.mtime existing) (Tar.mtime ti)) existing in
          let fs := <[n := (existing, fh)]> fs in
          if bool_decide (extract_useful ti = extract_useful existing)
          then Some (fs, Returned)
          else Some (fs, Py.Raise (Py.RuntimeError n))
      | None =>
          if Py.is_empty n then Some (fs, Returned)
          else Some (<[n := (ti, fileobj)]> fs, Returned)
      end
  end.

(** [Filesystem.mkdir] *)
Definition mkdir (fuel : nat) (fs : files) (name : string) :=
  add fuel fs (Tar.set_mode 493 (* 0o755 *) (Tar.set_type Tar.DIRTYPE (Tar.new name))) None.

(** [Filesystem.symlink] *)
Definition symlink (fuel : nat) (fs : files) (name target : string) :=
  add fuel fs (Tar.set_linkname target (Tar.set_type Tar.SYMTYPE (Tar.new name))) None.

(** [Filesystem.file] *)
Definition file (fuel : nat) (fs : files) (name contents : string) (mode : option Z) :=
  let ti := Tar.set_size (Py.len contents) (Tar.new name) in
  let ti := match mode with Some m => Tar.set_mode m ti | None => ti end in
  add fuel fs ti (Some contents).

(** [Filesystem.mknod] *)
Definition mknod (fuel : nat) (fs : files) (name : string) (major minor : Z) :=
  add fuel fs (Tar.set_dev major minor (Tar.set_type Tar.CHRTYPE (Tar.new name))) None.

(** The five operations the class exposes. *)
Inductive op :=
| Mkdir (name : string)
| Symlink (name target : string)
| File (name contents : string) (mode : option Z)
| Mknod (name : string) (major minor : Z)
| Add (ti : Tar.TarInfo) (fileobj : option string).

Definition run (fuel : nat) (fs : files) (o : op) : option (files * Py.result unit) :=
  match o with
  | Mkdir n => mkdir fuel fs n
  | Symlink n t => symlink fuel fs n t
  | File n c m => file fuel fs n c m
  | Mknod n ma mi => mknod fuel fs n ma mi
  | Add ti fh => add fuel fs ti fh
  end.

(** States of a [Filesystem()] after a sequence of calls that all returned. *)
Inductive reachable : files → Prop :=
| reachable_init : reachable ∅
| reachable_step fs fs' fuel o :
    reachable fs → run fuel fs o = Some (fs', Returned) → reachable fs'.

(** [P] is a path prefix of [N]: [N] itself or a leading run of its
    [/]-separated components. *)
Definition path_prefix (P N : string) : Prop :=
  P = N ∨ ∃ rest, N = P +:+ "/" +:+ rest.

Definition proper_path_prefix (P N : string) : Prop :=
  ∃ rest, N = P +:+ "/" +:+ rest.

(** [name] is a key of [fs] that holds a symlink entry. *)
Definition is_symlink (fs : files) (name : string) : Prop :=
  ∃ info fh, fs !! name = Some (info, fh) ∧ Tar.issym info = true.

(** One step of [resolve]: the name a symlink at [name] redirects to. *)
Definition link_target (fs : files) (name : string) : option string :=
  match fs !! name with
  | Some (info, _) =>
      if Tar.issym info
      then Some (PosixPath.normpath (PosixPath.join (PosixPath.dirname name) (Tar.linkname info)))
      else None
  | None => None
  end.

(** [follows fs target name]: [resolve] on [name] calls itself on [target]. *)
Definition follows (fs : files) (target name : string) : Prop :=
  link_target fs name = Some target.

(** The stored symlinks are acyclic: no name starts an endless chain of
    redirections. *)
Definition acyclic (fs : files) : Prop := well_founded (follows fs).

(** Every symlink redirects to a name none of whose proper path prefixes is a
    symlink (as the pre-seeded [bin -> usr/bin] links do). *)
Definition targets_canonical (fs : files) : Prop :=
  ∀ name target, link_target fs name = Some target →
    ∀ P, proper_path_prefix P target → ¬ is_symlink fs P.

(** No stored key runs through a symlink. *)
Definition keys_canonical (fs : files) : Prop :=
  ∀ N P, is_Some (fs !! N) → proper_path_prefix P N → ¬ is_symlink fs P.

(** The proper path prefixes of [s], and executable forms of the predicates
    above for checking a given state. *)
Fixpoint proper_prefixes (s : string) : list string :=
  match s with
  | EmptyString => []
  | String c s' =>
      (if decide (c = Py.slash) then [EmptyString] else [])
      ++ map (String c) (proper_prefixes s')
  end.

Definition is_symlinkb (fs : files) (name : string) : bool :=
  match fs !! name with
  | Some (info, _) => Tar.issym info
  | None => false
  end.

Definition targets_canonicalb (fs : files) : bool :=
  forallb (λ kv : string * (Tar.TarInfo * option string),
    match link_target fs (fst kv) with
    | Some target => forallb (λ P, negb (is_symlinkb fs P)) (proper_prefixes target)
    | None => true
    end) (map_to_list fs).

(** No symlink that [fs'] has and [fs] has not is a proper path prefix of a
    key of [fs]. *)
Definition no_new_link_above_keys (fs fs' : files) : Prop :=
  ∀ L N, is_symlink fs' L → ¬ is_symlink fs L → is_Some (fs !! N) →
         ¬ proper_path_prefix L N.

Definition no_new_link_above_keysb (fs fs' : files) : bool :=
  forallb (λ kv : string * (Tar.TarInfo * option string),
    forallb (λ L, negb (is_symlinkb fs' L && negb (is_symlinkb fs L)))
      (proper_prefixes (fst kv))) (map_to_list fs).

(** States reached by calls that all returned, where every symlink was added
    before any key below its name and redirects to a canonical target. *)
Inductive orderly : files → Prop :=
| orderly_init : orderly ∅
| orderly_step fs fs' fuel o :
    orderly fs →
    run fuel fs o = Some (fs', Returned) →
    targets_canonical fs' →
    no_new_link_above_keys fs fs' →
    orderly fs'.

(** The calls [create_filesystem] makes before it unpacks any package:
    the [init] script, then each [usr/<name>] directory with the symlink
    [<name> -> usr/<name>]. *)
Definition preseed (second_stage : string) : list op :=
  File "init" second_stage (Some 493 (* 0o755 *))
  :: flat_map (λ name, [Mkdir ("usr/" +:+ name); Symlink name ("usr/" +:+ name)])
       ["bin"; "sbin"; "lib"; "lib32"; "lib64"; "libx32"].

(** Runs [ops] in order, stopping with [None] at a call that does not
    return or that leaves the conditions of [orderly]. *)
Fixpoint run_orderly (fuel : nat) (fs : files) (ops : list op) : option files :=
  match ops with
  | [] => Some fs
  | o :: ops' =>
      match run fuel fs o with
      | Some (fs', Py.Return _) =>
          if targets_canonicalb fs' && no_new_link_above_keysb fs fs'
          then run_orderly fuel fs' ops'
          else None
      | _ => None
      end
  end.

(** Every stored entry is named by its key and carries no owner names, and
    the empty name is not a key. *)
Definition entries_named (fs : files) : Prop :=
  fs !! "" = None
  ∧ ∀ n info fh, fs !! n = Some (info, fh) →
      Tar.name info = n ∧ Tar.uname info = "" ∧ Tar.gname info = "".

(** Every entry of [fs] is still stored in [fs'], with the same file object
    and the same attributes, except for an mtime that is no older. *)
Definition kept (fs fs' : files) : Prop :=
  ∀ n info fh, fs !! n = Some (info, fh) →
    ∃ t, Tar.mtime info ≤ t ∧ fs' !! n = Some (Tar.set_mtime t info, fh).

End Fs.

(** ** Package index parser: [FIELDS], [FIELDS_MATCHER], [packages_dict] *)
Module Index.

Definition FIELDS : list string :=
  ["Package"; "Filename"; "Version"; "Priority"; "SHA256"; "Depends"; "Pre-Depends"].

(** [s] with the prefix [p] removed, when [s] starts with [p] *)
Fixpoint strip_prefix (p s : string) : option string :=
  match p, s with
  | EmptyString, _ => Some s
  | String a p', String b s' => if decide (a = b) then strip_prefix p' s' else None
  | String _ _, EmptyString => None
  end.

(** What the tail of the pattern (the greedy dot-star group, then the dollar
    anchor) captures on [s]: the dot matches anything but a newline, and the
    anchor matches at the end or before a final newline. *)
Fixpoint dot_star_eol (s : string) : option string :=
  match s with
  | EmptyString => Some EmptyString
  | String c s' =>
      if decide (c = Py.newline)
      then if Py.is_empty s' then Some EmptyString else None
      else match dot_star_eol s' with
           | Some v => Some (String c v)
           | None => None
           end
  end.

(** [FIELDS_MATCHER.match(line)] for the pattern built from [fields], as the
    pair [(match.group(1), match.group(2))]: a field name, a colon and a
    space, then the dot-star group; alternatives are tried in order. *)
Fixpoint match_fields (fields : list string) (line : string) : option (string * string) :=
  match fields with
  | [] => None
  | f :: fields' =>
      match strip_prefix (f +:+ ": ") line with
      | Some rest =>
          match dot_star_eol rest with
          | Some v => Some (f, v)
          | None => match_fields fields' line
          end
      | None => match_fields fields' line
      end
  end.

Definition FIELDS_MATCHER (line : string) : option (string * string) :=
  match_fields FIELDS line.

(** A stanza under construction, and the finished index. *)
Abbreviation package := (gmap string string).
Abbreviation index := (gmap string (gmap string string)).

(** [ret[package["Package"]] = package] *)
Definition store (ret : index) (pkg : package) : Py.result index :=
  match pkg !! "Package" with
  | Some n => Py.Return (<[n := pkg]> ret)
  | None => Py.Raise (Py.KeyError "Package")
  end.

(** The line that separates stanzas. *)
Definition blank : string := String Py.newline "".

(** One turn of [for line in packages:]: at a blank line the stanza under
    construction is stored and a new one begun; then the line is matched. *)
Definition loop_body (ret : index) (pkg : package) (line : string)
  : Py.result (index * package) :=
  let flushed :=
    if bool_decide (line = blank) && bool_decide (pkg ≠ ∅)
    then match store ret pkg with
         | Py.Return ret' => Py.Return (ret', (∅ : package))
         | Py.Raise e => Py.Raise e
         end
    else Py.Return (ret, pkg) in
  match flushed with
  | Py.Raise e => Py.Raise e
  | Py.Return (ret, pkg) =>
      match FIELDS_MATCHER line with
      | Some (key, value) => Py.Return (ret, <[key := value]> pkg)
      | None => Py.Return (ret, pkg)
      end
  end.

(** The [for line in packages:] loop of [packages_dict] and what follows it. *)
Fixpoint packages_loop (ret : index) (pkg : package) (lines : list string)
  : Py.result index :=
  match lines with
  | [] => if bool_decide (pkg ≠ ∅) then store ret pkg else Py.Return ret
  | line :: lines' =>
      match loop_body ret pkg line with
      | Py.Return (ret', pkg') => packages_loop ret' pkg' lines'
      | Py.Raise e => Py.Raise e
      end
  end.

(** [ret] and [package] when the loop has gone over [lines]. *)
Fixpoint state_after (ret : index) (pkg : package) (lines : list string)
  : Py.result (index * package) :=
  match lines with
  | [] => Py.Return (ret, pkg)
  | line :: lines' =>
      match loop_body ret pkg line with
      | Py.Return (ret', pkg') => state_after ret' pkg' lines'
      | Py.Raise e => Py.Raise e
      end
  end.

(** [packages_dict(packages)]; [packages] is the list of lines the text file
    iterates over. *)
Definition packages_dict (packages : list string) : Py.result index :=
  packages_loop ∅ ∅ packages.

(** The record of a stanza: the stanza under construction after its lines. *)
Definition feed (pkg : package) (lines : list string) : package :=
  foldl (λ pkg line,
    match FIELDS_MATCHER line with
    | Some (key, value) => <[key := value]> pkg
    | None => pkg
    end) pkg lines.

(** The lines of an index text given as its stanzas: the stanzas in order,
    with one blank line between a stanza and the next. *)
Fixpoint lines_of (stanzas : list (list string)) : list string :=
  match stanzas with
  | [] => []
  | stanza :: rest =>
      match rest with
      | [] => stanza
      | _ :: _ => stanza ++ blank :: lines_of rest
      end
  end.

End Index.

(** ** HTTP fetcher: [fetch_http] *)
Module Http.

(** What the program reads of an [HTTPResponse]: the status,
    [urlparse(r.headers["Location"])] as (netloc, path) when the header is
    there, [int(http2time(r.headers["Date"]))] when that header parses, and
    the body [r.read()] returns. *)
Record response := mkResponse {
  status : Z;
  location : option (string * string);
  date : option Z;
  body : string;
}.

(** How one [conn.getresponse()] ends. *)
Inductive reply :=
| RemoteDisconnected
| Response (r : response).

(** One [conn.request("GET", path, **kwargs)]. *)
Record request := mkRequest {
  req_netloc : string;
  req_path : string;
  req_headers : list (string * string);
}.

(** [threadlocals.conns] (the hosts that have a connection object), and a
    log of the [HTTPConnection(netloc)] constructions and of the requests
    sent, oldest first. *)
Record client := mkClient {
  conns : gset string;
  opened : list string;
  requests : list request;
}.

Definition new_client : client :=
  {| conns := ∅; opened := []; requests := [] |}.

(** [conn = conns[netloc]], building the connection on [KeyError]. *)
Definition get_conn (c : client) (netloc : string) : client :=
  if bool_decide (netloc ∈ conns c) then c
  else {| conns := {[netloc]} ∪ conns c; opened := opened c ++ [netloc];
          requests := requests c |}.

Definition send (c : client) (rq : request) : client :=
  {| conns := conns c; opened := opened c; requests := requests c ++ [rq] |}.

(** The [while True:] loop of [fetch_http].  [net] scripts the replies of
    the successive [getresponse()] calls; [None] means the script ran out
    while the loop was still going round. *)
Fixpoint fetch_loop (net : list reply) (c : client) (netloc path : string)
  (headers : list (string * string)) : option (response * list reply * client) :=
  match net with
  | [] => None
  | rep :: net' =>
      let c := send (get_conn c netloc) (mkRequest netloc path headers) in
      match rep with
      | RemoteDisconnected => fetch_loop net' c netloc path headers
      | Response r => Some (r, net', c)
      end
  end.

(** [fetch_http(netloc, path, follow_redirects, **kwargs)];
    [follow_redirects] counts down from its default 1.  A 302 without a
    [Location] header ends in the [TypeError] that [HTTPConnection] raises
    on the empty netloc [urlparse(None)] yields. *)
Fixpoint fetch_http (follow_redirects : nat) (net : list reply) (c : client)
  (netloc path : string) (headers : list (string * string))
  : option (Py.result response * list reply * client) :=
  match fetch_loop net c netloc path headers with
  | None => None
  | Some (r, net', c') =>
      if bool_decide (status r = 302)
      then match follow_redirects with
           | S n =>
               match location r with
               | Some (netloc', path') => fetch_http n net' c' netloc' path' headers
               | None => Some (Py.Raise Py.TypeError, net', c')
               end
           | O => Some (Py.Return r, net', c')
           end
      else Some (Py.Return r, net', c')
  end.


End Http.

(** ** Disk cache: [download_cached] *)
Module Cache.

(** A file under [CACHE_PATH]: its bytes and its mtime. *)
Record file := mkFile { data : string; st_mtime : Z }.

Abbreviation disk := (gmap string file).

(** The system calls [download_cached] makes that change the disk;
    [destination.write_bytes(ret)] is [open(destination, "wb")], which
    creates or truncates the file, followed by the write. *)
Inductive syscall :=
| Mkdir_parents (dir : string)
| Open_wb (path : string)
| Write (path : string) (bytes : string)
| Utime (path : string) (t : Z).

(** The disk after one call, at clock time [now]. *)
Definition apply (now : Z) (d : disk) (s : syscall) : disk :=
  match s with
  | Mkdir_parents _ => d
  | Open_wb p => <[p := mkFile "" now]> d
  | Write p b =>
      match d !! p with
      | Some f => <[p := mkFile (data f +:+ b) now]> d
      | None => d
      end
  | Utime p t =>
      match d !! p with
      | Some f => <[p := mkFile (data f) t]> d
      | None => d
      end
  end.

(** The disk states another process can see while the calls run: the one
    before the first call and the one after each call. *)
Fixpoint observable (now : Z) (d : disk) (calls : list syscall) : list disk :=
  match calls with
  | [] => [d]
  | s :: calls' => d :: observable now (apply now d s) calls'
  end.

Definition final (now : Z) (d : disk) (calls : list syscall) : disk :=
  foldl (apply now) d calls.

(** [CACHE_PATH / (netloc + path)] *)
Definition destination (netloc path : string) : string :=
  "debs/" +:+ netloc +:+ path.

Section download_cached.

(** [wsgiref.handlers.format_date_time] *)
Variable format_date_time : Z → string.

(** [download_cached(netloc, path)] on the disk [d]: the value returned or
    the exception raised, the system calls made in order, and what is left
    of the network script and of the client. *)
Definition download_cached (net : list Http.reply) (c : Http.client) (d : disk)
  (netloc path : string)
  : option (Py.result string * list syscall * list Http.reply * Http.client) :=
  let dest := destination netloc path in
  let headers :=
    match d !! dest with
    | Some f => [("If-Modified-Since", format_date_time (st_mtime f))]
    | None => []
    end in
  match Http.fetch_http 1 net c netloc path headers with
  | None => None
  | Some (Py.Raise e, net', c') => Some (Py.Raise e, [], net', c')
  | Some (Py.Return r, net', c') =>
      if bool_decide (Http.status r = 304)
      then match d !! dest with
           | Some f => Some (Py.Return (data f), [], net', c')
           | None => Some (Py.Raise Py.OSError, [], net', c')
           end
      else if bool_decide (Http.status r ≠ 200)
      then Some (Py.Raise (Py.HTTPStatus (Http.status r)), [], net', c')
      else
        let ret := Http.body r in
        let written :=
          [Mkdir_parents (PosixPath.dirname dest); Open_wb dest; Write dest ret] in
        match Http.date r with
        | None => Some (Py.Raise Py.TypeError, written, net', c')
        | Some mtime => Some (Py.Return ret, written ++ [Utime dest mtime], net', c')
        end
  end.

End download_cached.

End Cache.

(** ** Signature verifier: the status parser of [_gpg_verify], [gpg_verify] *)
Module Gpg.

Definition GNUPG_PREFIX : string := "[GNUPG:] ".

(** The per-signature accumulator [ret]. *)
Abbreviation acc := (gmap string string).

(** [good_to_return()] *)
Definition good_to_return (ret : acc) : bool :=
  bool_decide (is_Some (ret !! "GOODSIG")) && bool_decide (is_Some (ret !! "VALIDSIG")).

(** [line[len(GNUPG_PREFIX):-1]] *)
Definition opcode_text (line : string) : string :=
  Py.drop_last (Py.drop (String.length GNUPG_PREFIX) line).

(** What one turn of [for line in p.stdout:] does with the accumulator. *)
Inductive turn :=
| Continue (ret : acc)
| Stop (r : Py.result (option acc)).

Definition body (ret : acc) (line : string) : turn :=
  if negb (Py.startswith GNUPG_PREFIX line) then Continue ret
  else
    let op := opcode_text line in
    if bool_decide (op = "NEWSIG")
    then if good_to_return ret then Stop (Py.Return (Some ret)) else Continue ∅
    else match Py.split_ws1 op with
         | [opcode; rest] => Continue (<[opcode := rest]> ret)
         | _ => Stop (Py.Raise Py.ValueError)
         end.

(** The loop over the child's status lines, then the check after it. *)
Fixpoint verify_loop (ret : acc) (lines : list string) : Py.result (option acc) :=
  match lines with
  | [] => if good_to_return ret then Py.Return (Some ret) else Py.Return None
  | line :: lines' =>
      match body ret line with
      | Continue ret' => verify_loop ret' lines'
      | Stop r => r
      end
  end.

(** [_gpg_verify], from [ret = dict()] on; [stdout] lists the lines the
    verifier wrote. *)
Definition _gpg_verify (stdout : list string) : Py.result (option acc) :=
  verify_loop ∅ stdout.

(** [gpg_verify]: the accumulator it goes on to print, or the exception. *)
Definition gpg_verify (stdout : list string) : Py.result acc :=
  match _gpg_verify stdout with
  | Py.Return (Some sig_info) => Py.Return sig_info
  | Py.Return None => Py.Raise (Py.RuntimeError "gpg validation failed")
  | Py.Raise e => Py.Raise e
  end.

(** A line on which the parser takes its [NEWSIG] branch. *)
Definition is_newsig (line : string) : Prop :=
  Py.startswith GNUPG_PREFIX line = true ∧ opcode_text line = "NEWSIG".

(** What follows describes the parser's run in the words of its
    specification, without the loop: the status a line reports, the
    accumulator after a list of lines, and the lines at which a run ends. *)

(** The opcode and the argument of a status line.  A line without the
    prefix reports nothing, and so does a line whose text after the prefix
    is not an opcode followed by an argument. *)
Definition status (line : string) : option (string * string) :=
  if Py.startswith GNUPG_PREFIX line
  then match Py.split_ws1 (opcode_text line) with
       | [opcode; rest] => Some (opcode, rest)
       | _ => None
       end
  else None.






End Gpg.

(** ** Archive unpacker: [unpack_ar] and what it calls *)
Module Unpack.

(** *** [parse_control_data] *)

(** The ASCII line boundaries of [str.splitlines]. *)
Definition is_linebreak (c : ascii) : bool :=
  match c with
  | "010" | "011" | "012" | "013" | "028" | "029" | "030" => true
  | _ => false
  end%char.

(** [data.splitlines(True)]: line ends are kept, and a carriage return
    followed by a line feed ends one line. *)
Fixpoint splitlines (s : string) : list string :=
  match s with
  | EmptyString => []
  | String c s' =>
      let rest := splitlines s' in
      if is_linebreak c
      then match rest with
           | h :: t =>
               if bool_decide (c = "013"%char) && Py.startswith (String Py.newline "") s'
               then String c h :: t
               else String c EmptyString :: rest
           | [] => [String c EmptyString]
           end
      else match s', rest with
           | String _ _, h :: t => String c h :: t
           | _, _ => [String c EmptyString]
           end
  end.

(** [line.split(": ", 1)] when it has two parts *)
Fixpoint split_colon_space (s : string) : option (string * string) :=
  match s with
  | EmptyString => None
  | String c s' =>
      match (if bool_decide (c = ":"%char) then Index.strip_prefix " " s' else None) with
      | Some v => Some (EmptyString, v)
      | None =>
          match split_colon_space s' with
          | Some (k, v) => Some (String c k, v)
          | None => None
          end
      end
  end.

(** ASCII whitespace as [str.rstrip()] sees it. *)
Definition is_str_space (c : ascii) : bool :=
  match c with
  | "009" | "010" | "011" | "012" | "013" | "028" | "029" | "030" | "031" | " " => true
  | _ => false
  end%char.

Fixpoint rstrip (s : string) : string :=
  match s with
  | EmptyString => EmptyString
  | String c s' =>
      match rstrip s' with
      | EmptyString => if is_str_space c then EmptyString else String c EmptyString
      | r => String c r
      end
  end.

Definition WANTED_LINES : list string := ["Package"; "Architecture"; "Multi-Arch"].

(** [_get_dpkg_name] *)
Definition _get_dpkg_name (control : gmap string string) : Py.result string :=
  if bool_decide (control !! "Multi-Arch" = Some "same")
  then match control !! "Package", control !! "Architecture" with
       | Some p, Some a => Py.Return (p +:+ ":" +:+ a)
       | None, _ => Py.Raise (Py.KeyError "Package")
       | _, None => Py.Raise (Py.KeyError "Architecture")
       end
  else match control !! "Package" with
       | Some p => Py.Return p
       | None => Py.Raise (Py.KeyError "Package")
       end.

(** The [for idx, line in enumerate(lines):] loop. *)
Fixpoint wanted (parsed : gmap string string) (lines : list string) : gmap string string :=
  match lines with
  | [] => parsed
  | line :: lines' =>
      match split_colon_space line with
      | Some (k, v) =>
          if bool_decide (k ∈ WANTED_LINES)
          then wanted (<[k := rstrip v]> parsed) lines'
          else wanted parsed lines'
      | None => wanted parsed lines'
      end
  end.

(** [parse_control_data]: the info-file prefix and the new control text. *)
Definition parse_control_data (data : string) : Py.result (string * string) :=
  let lines := splitlines data in
  let parsed := wanted ∅ lines in
  let lines := lines ++ ["Status: install ok unpacked" +:+ String Py.newline ""] in
  match _get_dpkg_name parsed with
  | Py.Return name =>
      Py.Return ("var/lib/dpkg/info/" +:+ name +:+ ".", Py.concat lines)
  | Py.Raise e => Py.Raise e
  end.

(** *** The members of a tar archive *)

(** A member as the loops see it: the [TarInfo] and what
    [tf.extractfile(member)] reads ([None] when it returns no file object). *)
Abbreviation member := (Tar.TarInfo * option string)%type.

(** A [dict] with string keys, in insertion order: assigning to a key that
    is there keeps its place. *)
Fixpoint dict_set {V : Type} (k : string) (v : V) (d : list (string * V)) : list (string * V) :=
  match d with
  | [] => [(k, v)]
  | (k', v') :: d' =>
      if bool_decide (k = k') then (k, v) :: d' else (k', v') :: dict_set k v d'
  end.

Fixpoint dict_get {V : Type} (k : string) (d : list (string * V)) : option V :=
  match d with
  | [] => None
  | (k', v') :: d' => if bool_decide (k = k') then Some v' else dict_get k d'
  end.

(** [transform_name] *)
Definition transform_name (name : string) : string :=
  if Py.is_empty name then "/." +:+ String Py.newline ""
  else "/" +:+ name +:+ String Py.newline "".

(** [_dpkg_info_files]: everything the generator yields. *)
Definition _dpkg_info_files (prefix control_data : string) (tf : list member) : list member :=
  (Tar.set_size (Py.len control_data) (Tar.new (prefix +:+ "control")), Some control_data)
  :: flat_map (λ m : member,
       let '(mem, file_contents) := m in
       if negb (Tar.isreg mem) then []
       else
         let name := Py.lstrip "./" (Tar.name mem) in
         if bool_decide (name = "control") then []
         else [(Tar.set_name (prefix +:+ name) mem, file_contents)]) tf.

(** [int(b, 10)] on [bytes]: surrounding whitespace, a sign, and single
    underscores between digits are accepted. *)
Definition digit (c : ascii) : option Z := Z.of_nat <$> Ascii.is_nat c.

Fixpoint digits (acc : Z) (after_digit : bool) (s : string) : option Z :=
  match s with
  | EmptyString => if after_digit then Some acc else None
  | String c s' =>
      match digit c with
      | Some d => digits (acc * 10 + d) true s'
      | None =>
          if bool_decide (c = "_"%char) && after_digit && negb (Py.is_empty s')
          then digits acc false s'
          else None
      end
  end.

Definition int10 (b : string) : Py.result Z :=
  let t := Py.rstrip_space (Py.lstrip_space b) in
  let signed :=
    match t with
    | String "-" t' => option_map Z.opp (digits 0 false t')
    | String "+" t' => digits 0 false t'
    | _ => digits 0 false t
    end in
  match signed with
  | Some n => Py.Return n
  | None => Py.Raise Py.ValueError
  end.

(** What a generator did before it stopped: the items it yielded, and the
    exception when it stopped by raising. *)
Record generated := mkGenerated {
  yielded : list member;
  raised : option Py.exn;
}.

Section unpack_ar.

(** [tarfile.open(fileobj=BytesIO(contents))], iterated: the members in
    archive order, or the exception the library raises on the bytes. *)
Variable tarfile_open : string → Py.result (list member).

(** [extract_whole_tar] *)
Definition extract_whole_tar (contents : string) : Py.result (list (string * member)) :=
  match tarfile_open contents with
  | Py.Return tf =>
      Py.Return (foldl (λ ret m, dict_set (Tar.name (fst m)) m ret) [] tf)
  | Py.Raise e => Py.Raise e
  end.

(** [handle_control_tar]: the prefix and the items of the generator it
    returns. *)
Definition handle_control_tar (contents : string) : Py.result (string * list member) :=
  match extract_whole_tar contents with
  | Py.Raise e => Py.Raise e
  | Py.Return data =>
      match dict_get "./control" data with
      | None => Py.Raise (Py.KeyError "./control")
      | Some (_, None) => Py.Raise Py.AttributeError
      | Some (_, Some control_data) =>
          match parse_control_data control_data with
          | Py.Raise e => Py.Raise e
          | Py.Return (prefix, new_control_data) =>
              Py.Return (prefix, _dpkg_info_files prefix new_control_data (map snd data))
          end
      end
  end.

(** The body of [for member in tf:] for a [data.tar] member: the item
    yielded and the line appended to [files]. *)
Definition data_member (m : member) : Py.result (member * string) :=
  let '(mem, extracted) := m in
  let contents :=
    if Tar.isreg mem
    then match extracted with
         | Some b => Py.Return (Some b)
         | None => Py.Raise Py.AttributeError
         end
    else Py.Return None in
  match contents with
  | Py.Raise e => Py.Raise e
  | Py.Return contents =>
      let mem := Tar.set_name (Py.lstrip "./" (Tar.name mem)) mem in
      Py.Return ((mem, contents), transform_name (Tar.name mem))
  end.

(** The [for member in tf:] loop: items yielded, lines appended, and the
    exception if one stopped it. *)
Fixpoint data_members (tf : list member) : list member * list string * option Py.exn :=
  match tf with
  | [] => ([], [], None)
  | m :: tf' =>
      match data_member m with
      | Py.Raise e => ([], [], Some e)
      | Py.Return (item, line) =>
          let '(items, lines, e) := data_members tf' in
          (item :: items, line :: lines, e)
      end
  end.

(** The [while True:] loop of [unpack_ar] and the code after it.  Every turn
    reads at least one byte of [fh]; [fuel] bounds the turns. *)
Fixpoint unpack_loop (fuel : nat) (fh : string) (prefix : option string)
  (files : list string) (out : list member) : option generated :=
  match fuel with
  | O => None
  | S fuel' =>
      let '(header, fh) := Py.read 60 fh in
      if Py.is_empty header
      then
        match prefix with
        | None => Some (mkGenerated out (Some (Py.RuntimeError "Missing control file?")))
        | Some prefix =>
            let files_manifest := Py.concat files in
            let info := Tar.set_size (Py.len files_manifest) (Tar.new (prefix +:+ "list")) in
            Some (mkGenerated (out ++ [(info, Some files_manifest)]) None)
        end
      else
        let name := Py.take 16 header in
        match int10 (Py.take 10 (Py.drop 48 header)) with
        | Py.Raise e => Some (mkGenerated out (Some e))
        | Py.Return size =>
            if negb (bool_decide (Py.drop 58 header = String "096" (String "010" "")))
            then Some (mkGenerated out (Some Py.AssertionError))
            else
              let '(file_contents, fh) := Py.read size fh in
              let '(_, fh) := Py.read (size `mod` 2) fh in
              let after_data :=
                if Py.startswith "data.tar" name
                then match tarfile_open file_contents with
                     | Py.Raise e => (out, files, Some e)
                     | Py.Return tf =>
                         let '(items, lines, e) := data_members tf in
                         (out ++ items, files ++ lines, e)
                     end
                else (out, files, None) in
              match after_data with
              | (out, _, Some e) => Some (mkGenerated out (Some e))
              | (out, files, None) =>
                  if Py.startswith "control.tar" name
                  then match handle_control_tar file_contents with
                       | Py.Raise e => Some (mkGenerated out (Some e))
                       | Py.Return (prefix', dpkg_files) =>
                           unpack_loop fuel' fh (Some prefix') files (out ++ dpkg_files)
                       end
                  else unpack_loop fuel' fh prefix files out
              end
        end
  end.

(** [unpack_ar(fh)] *)
Definition unpack_ar (fh : string) : option generated :=
  let '(magic, fh) := Py.read 8 fh in
  if negb (bool_decide (magic = "!<arch>" +:+ String Py.newline ""))
  then Some (mkGenerated [] (Some Py.AssertionError))
  else unpack_loop (S (String.length fh)) fh None [] [].

End unpack_ar.

(** [listed items lines]: [lines] is the manifest of [items].  Every item
    is a dpkg info file, named under [var/lib/dpkg/info/], or has its line
    in the manifest, which is [transform_name] of its name; the lines stand
    in the order of the items, and the manifest has no other line. *)
Inductive listed : list member → list string → Prop :=
| listed_nil : listed [] []
| listed_line m items lines :
    listed items lines →
    listed (m :: items) (transform_name (Tar.name (fst m)) :: lines)
| listed_info m items lines :
    Py.startswith "var/lib/dpkg/info/" (Tar.name (fst m)) = true →
    listed items lines →
    listed (m :: items) lines.

End Unpack.

(** ** Output filter: [roundup_block], [mutate_file], [output_filter] *)
Module Filter.

Definition BLOCKSIZE : Z := 512.

(** [roundup_block] *)
Definition roundup_block (size : Z) : Z :=
  let blocks := Z.shiftr (size + 511) 9 in
  Z.shiftl blocks 9.

(** [mutate_file(fs, ti)]: the value returned and [ti] as the call leaves
    it. *)
Definition mutate_file (fs : Fs.files) (ti : Tar.TarInfo) : bool * Tar.TarInfo :=
  if bool_decide (Tar.name ti = ".dockerenv") then (false, ti)
  else if bool_decide (Tar.name ti = "etc/resolv.conf") then (false, ti)
  else
    match fs !! Tar.name ti with
    | Some original_entry =>
        let original_mtime := Tar.mtime (fst original_entry) in
        if bool_decide (original_mtime ≠ Tar.mtime ti)
        then (true, Tar.set_mtime original_mtime ti)
        else (true, ti)
    | None => (true, Tar.set_mtime 0 ti)
    end.

(** How [TarInfo.frombuf] ends. *)
Inductive header :=
| Header (ti : Tar.TarInfo)
| EOFHeaderError
| HeaderError.

(** The number of bytes [tarfile.copyfileobj(src, dst, length)] asks for:
    [blocks] reads of [bufsize] bytes, then one of [remainder] bytes. *)
Definition copy_length (length : Z) : Z :=
  let bufsize := 16 * 1024 in
  let blocks := length `div` bufsize in
  let remainder := length `mod` bufsize in
  Z.max 0 blocks * bufsize + remainder.

(** [tarfile.copyfileobj(in_fh, destination, length)]: the bytes copied and
    the bytes left, or nothing when the stream is too short ([OSError]). *)
Definition copyfileobj (in_fh : string) (length : Z) : option (string * string) :=
  let n := copy_length length in
  if bool_decide (n ≤ Py.len in_fh) then Some (Py.read n in_fh) else None.

(** The mtime the model stores for [name], or 0. *)
Definition stored_mtime (fs : Fs.files) (name : string) : Z :=
  match fs !! name with
  | Some (original, _) => Tar.mtime original
  | None => 0
  end.

(** The two names the filter drops. *)
Definition dropped (name : string) : bool :=
  bool_decide (name = ".dockerenv") || bool_decide (name = "etc/resolv.conf").

(** One archive member as it stands in the input stream: the header block,
    the [TarInfo] it decodes to, and the body blocks. *)
Record entry := mkEntry { hdr : string; info : Tar.TarInfo; body : string }.

(** A block of 512 zero bytes. *)
Definition is_zero_block (b : string) : Prop :=
  Py.len b = 512 ∧ Py.count "000"%char b = 512%nat.

(** The member as bytes of the stream. *)
Definition wire (e : entry) : string := hdr e +:+ body e.

Section output_filter.

(** The field decoder of [TarInfo.frombuf] on a full block that is not all
    zero, and [TarInfo.tobuf]. *)
Variable decode : string → option Tar.TarInfo.
Variable tobuf : Tar.TarInfo → string.

(** [TarInfo.frombuf(buf, ...)]: its three length and zero-block checks,
    then the decoder. *)
Definition frombuf (buf : string) : header :=
  if Py.is_empty buf then HeaderError
  else if bool_decide (Py.len buf ≠ BLOCKSIZE) then HeaderError
  else if bool_decide (Py.count "000"%char buf = Z.to_nat BLOCKSIZE) then EOFHeaderError
  else match decode buf with
       | Some ti => Header ti
       | None => HeaderError
       end.

(** The [while True:] loop: what has been written to [out_fh] when the
    end-of-archive block is met.  Every turn reads a full block; [fuel]
    bounds the turns. *)
Fixpoint filter_loop (fuel : nat) (fs : Fs.files) (in_fh out : string)
  : option (Py.result string) :=
  match fuel with
  | O => None
  | S fuel' =>
      let '(buf, in_fh) := Py.read BLOCKSIZE in_fh in
      match frombuf buf with
      | EOFHeaderError => Some (Py.Return out)
      | HeaderError => Some (Py.Raise Py.TarError)
      | Header ti =>
          let len_to_read := roundup_block (Tar.size ti) in
          let '(keep, ti) := mutate_file fs ti in
          match copyfileobj in_fh len_to_read with
          | None => Some (Py.Raise Py.OSError)
          | Some (body, in_fh) =>
              filter_loop fuel' fs in_fh (if keep then out +:+ tobuf ti +:+ body else out)
          end
      end
  end.

(** The synthesized [etc/resolv.conf] entry. *)
Definition resolv_conf : Tar.TarInfo :=
  Tar.set_linkname "/run/systemd/resolve/stub-resolv.conf"
    (Tar.set_type Tar.SYMTYPE (Tar.new "etc/resolv.conf")).

(** [output_filter(fs, in_fh, out_fh)]: the bytes written to [out_fh]. *)
Definition output_filter (fs : Fs.files) (in_fh : string) : option (Py.result string) :=
  match filter_loop (S (String.length in_fh)) fs in_fh "" with
  | Some (Py.Return out) =>
      Some (Py.Return (out +:+ tobuf resolv_conf
                       +:+ Py.repeat_char "000"%char (Z.to_nat (BLOCKSIZE * 2))))
  | r => r
  end.

(** The header block is a full block that is not all zero and decodes to
    [info e], and the body fills the blocks its size calls for. *)
Definition well_formed (e : entry) : Prop :=
  Py.len (hdr e) = 512
  ∧ Py.count "000"%char (hdr e) ≠ 512%nat
  ∧ decode (hdr e) = Some (info e)
  ∧ Py.len (body e) = roundup_block (Tar.size (info e)).

(** What the filter writes for a member. *)
Definition emitted (fs : Fs.files) (e : entry) : string :=
  if dropped (Tar.name (info e)) then ""
  else tobuf (Tar.set_mtime (stored_mtime fs (Tar.name (info e))) (info e)) +:+ body e.

End output_filter.

End Filter.

(** ** More [str] / [bytes] methods *)
Module PyText.

(** [s.split()] with no argument: the maximal runs of characters that are no
    whitespace, [sp] being the whitespace test of the type ([bytes] or
    [str]). *)
Fixpoint split_ws (sp : ascii → bool) (s : string) : list string :=
  match s with
  | EmptyString => []
  | String c s' =>
      if sp c then split_ws sp s'
      else match s' with
           | EmptyString => [String c EmptyString]
           | String d _ =>
               if sp d then String c EmptyString :: split_ws sp s'
               else match split_ws sp s' with
                    | h :: t => String c h :: t
                    | [] => [String c EmptyString]
                    end
           end
  end.

(** [s.lstrip()] and [s.strip()] on [str]. *)
Fixpoint lstrip (s : string) : string :=
  match s with
  | EmptyString => EmptyString
  | String c s' => if Unpack.is_str_space c then lstrip s' else s
  end.

Definition strip (s : string) : string := Unpack.rstrip (lstrip s).

(** Iterating over [BytesIO(s)]: the lines of [s], each with its line feed;
    the last one may lack it. *)
Fixpoint readlines (s : string) : list string :=
  match s with
  | EmptyString => []
  | String c s' =>
      let rest := readlines s' in
      if decide (c = Py.newline) then String c EmptyString :: rest
      else match s', rest with
           | String _ _, h :: t => String c h :: t
           | _, _ => [String c EmptyString]
           end
  end.

(** [s.endswith(suffix)] *)
Fixpoint endswith (suffix s : string) : bool :=
  bool_decide (s = suffix)
  || match s with
     | EmptyString => false
     | String _ s' => endswith suffix s'
     end.

(** What follows the first occurrence of [sep] in [s], if there is one. *)
Fixpoint after_first (sep s : string) : option string :=
  match Index.strip_prefix sep s with
  | Some rest => Some rest
  | None =>
      match s with
      | EmptyString => None
      | String _ s' => after_first sep s'
      end
  end.

(** [p] holds of every character of [s]. *)
Fixpoint all_chars (p : ascii → bool) (s : string) : bool :=
  match s with
  | EmptyString => true
  | String c s' => p c && all_chars p s'
  end.

(** The order of [sorted] on strings: by character code, a proper prefix
    first. *)
Definition str_le (a b : string) : Prop := String.leb a b = true.

#[global] Instance str_le_dec : RelDecision str_le :=
  λ a b, decide (String.leb a b = true).

End PyText.

(** ** Dependency resolver: [get_dependencies], [get_needed_packages] *)
Module Resolver.

(** The exceptions this part of the program can end with. *)
Inductive exn :=
| IndexError
| KeyError (key : string).

Inductive outcome (A : Type) :=
| Returned (a : A)
| Raised (e : exn).
Arguments Returned {A} a.
Arguments Raised {A} e.

(** The [for dep in deps:] loop of [get_dependencies]. *)
Fixpoint deps_loop (ret : list string) (deps : list string) : outcome (list string) :=
  match deps with
  | [] => Returned ret
  | dep :: deps' =>
      if Py.is_empty dep then deps_loop ret deps'
      else match PyText.split_ws Unpack.is_str_space (PyText.strip dep) with
           | [] => Raised IndexError
           | first :: _ => deps_loop (ret ++ [first]) deps'
           end
  end.

(** [get_dependencies(info)] *)
Definition get_dependencies (info : Index.package) : outcome (list string) :=
  let deps :=
    Py.split ","%char (default "" (info !! "Depends"))
    ++ Py.split ","%char (default "" (info !! "Pre-Depends")) in
  deps_loop [] deps.

(** A clause of a dependency field as an index writes it: blanks, a package
    name, and then nothing or a blank followed by a version constraint or by
    alternatives. *)
Record clause := mkClause { lead : string; name : string; rest : string }.


Definition well_formed (c : clause) : bool :=
  PyText.all_chars Unpack.is_str_space (lead c)
  && negb (Py.is_empty (name c))
  && PyText.all_chars (λ ch, negb (Unpack.is_str_space ch) && negb (bool_decide (ch = ","%char)))
       (name c)
  && PyText.all_chars (λ ch, negb (bool_decide (ch = ","%char))) (rest c)
  && match rest c with
     | EmptyString => true
     | String ch _ => Unpack.is_str_space ch
     end.



(** The two sets of [get_needed_packages]. *)
Record state := mkState {
  required : gset string;
  unprocessed : gset string;
}.

(** The [for dep in get_dependencies(info):] loop. *)
Definition add_deps (required unprocessed : gset string) (deps : list string)
  : gset string :=
  foldl (λ unprocessed dep,
    if bool_decide (dep ∈ required) then unprocessed
    else if bool_decide (dep ∈ unprocessed) then unprocessed
    else {[dep]} ∪ unprocessed) unprocessed deps.

(** [unprocessed] as the loop finds it: the packages of priority
    [required], then the five names added by hand.  A record without a
    [Priority] field ends the comprehension with [KeyError]. *)
Definition initial (packages_info : Index.index) : outcome (gset string) :=
  if bool_decide (map_Forall (λ _ v, is_Some ((v : Index.package) !! "Priority")) packages_info)
  then Returned
         (dom (filter (λ kv, (kv.2 : Index.package) !! "Priority" = Some "required") packages_info)
          ∪ list_to_set ["apt"; "gpgv"; "systemd"; "linux-image-virtual"; "udev"])
  else Raised (KeyError "Priority").

(** [[packages_info[name] for name in required]] *)
Fixpoint records (packages_info : Index.index) (names : list string)
  : outcome (list Index.package) :=
  match names with
  | [] => Returned []
  | name :: names' =>
      match packages_info !! name with
      | None => Raised (KeyError name)
      | Some info =>
          match records packages_info names' with
          | Returned ret => Returned (info :: ret)
          | Raised e => Raised e
          end
      end
  end.

Section get_needed_packages.

(** [unprocessed.pop()] hands out an element of the set's choosing: [pop st]
    is that element in the state [st].  [random.shuffle] reorders the
    result. *)
Variable pop : state → string.
Variable shuffle : list Index.package → list Index.package.

(** One turn of [while unprocessed:]. *)
Definition body (packages_info : Index.index) (st : state) : outcome state :=
  let name := pop st in
  let unprocessed := unprocessed st ∖ {[name]} in
  match packages_info !! name with
  | None => Returned (mkState (required st) unprocessed)
  | Some info =>
      let required := {[name]} ∪ required st in
      match get_dependencies info with
      | Raised e => Raised e
      | Returned deps => Returned (mkState required (add_deps required unprocessed deps))
      end
  end.

(** The [while unprocessed:] loop: [required] when it ends; [fuel] bounds
    the turns. *)
Fixpoint loop (fuel : nat) (packages_info : Index.index) (st : state)
  : option (outcome (gset string)) :=
  if bool_decide (unprocessed st = ∅) then Some (Returned (required st))
  else match fuel with
       | O => None
       | S fuel' =>
           match body packages_info st with
           | Raised e => Some (Raised e)
           | Returned st' => loop fuel' packages_info st'
           end
       end.

(** [get_needed_packages(packages_info)] *)
Definition get_needed_packages (fuel : nat) (packages_info : Index.index)
  : option (outcome (list Index.package)) :=
  match initial packages_info with
  | Raised e => Some (Raised e)
  | Returned unprocessed =>
      match loop fuel packages_info (mkState ∅ unprocessed) with
      | None => None
      | Some (Raised e) => Some (Raised e)
      | Some (Returned required) =>
          match records packages_info (elements required) with
          | Raised e => Some (Raised e)
          | Returned ret => Some (Returned (shuffle ret))
          end
      end
  end.

End get_needed_packages.

(** [b] is a package of the index that [a], another one, names first in a
    clause of its [Depends] or [Pre-Depends]. *)
Definition depends_on (packages_info : Index.index) (a b : string) : Prop :=
  ∃ info deps, packages_info !! a = Some info
    ∧ get_dependencies info = Returned deps ∧ b ∈ deps ∧ is_Some (packages_info !! b).

(** The packages of the index that a chain of dependencies links to one of
    the [seeds]. *)
Definition needed (packages_info : Index.index) (seeds : gset string) (x : string) : Prop :=
  ∃ s, s ∈ seeds ∧ is_Some (packages_info !! s) ∧ rtc (depends_on packages_info) s x.

(** The names the loop starts from: the packages of priority [required] and
    the five added by hand. *)
Definition is_seed (packages_info : Index.index) (s : string) : Prop :=
  (∃ info, packages_info !! s = Some info ∧ info !! "Priority" = Some "required")
  ∨ s ∈ ["apt"; "gpgv"; "systemd"; "linux-image-virtual"; "udev"].

(** What the loop keeps true of its two sets. *)
Definition invariant (packages_info : Index.index) (seeds : gset string) (st : state) : Prop :=
  (∀ x, x ∈ required st → needed packages_info seeds x)
  ∧ (∀ u, u ∈ unprocessed st → is_Some (packages_info !! u) → needed packages_info seeds u)
  ∧ (∀ s, s ∈ seeds → is_Some (packages_info !! s) → s ∈ required st ∨ s ∈ unprocessed st)
  ∧ (∀ a b, a ∈ required st → depends_on packages_info a b →
       b ∈ required st ∨ b ∈ unprocessed st).

(** The element a set hands out first when listed. *)
Definition pop_first (st : state) : string := default "" (head (elements (unprocessed st))).

End Resolver.

(** ** Release manifest and checked downloads: [get_sha256sums],
    [get_release_fetcher], [_get_packages] *)
Module Release.

Definition SHA256_line : string := "SHA256:" +:+ String Py.newline "".

(** The first [for line in release_file:] loop: the lines left for the
    second one. *)
Fixpoint skip_to_section (lines : list string) : list string :=
  match lines with
  | [] => []
  | line :: lines' =>
      if bool_decide (line = SHA256_line) then lines' else skip_to_section lines'
  end.

(** The second loop; a line that does not split into three pieces ends it
    with [ValueError]. *)
Fixpoint read_section (checksums : gmap string string) (lines : list string)
  : Py.result (gmap string string) :=
  match lines with
  | [] => Py.Return checksums
  | line :: lines' =>
      if negb (Py.startswith " " line) then Py.Return checksums
      else match PyText.split_ws Py.is_space line with
           | [checksum; _; filename] => read_section (<[filename := checksum]> checksums) lines'
           | _ => Py.Raise Py.ValueError
           end
  end.

(** [get_sha256sums(release_file)] *)
Definition get_sha256sums (release_file : string) : Py.result (gmap string string) :=
  read_section ∅ (skip_to_section (PyText.readlines release_file)).

(** [RuntimeError(expected_checksum, actual_checksum)], besides the
    exceptions of the calls made. *)
Inductive exn :=
| Mismatch (expected actual : string)
| Other (e : Py.exn).

Inductive outcome (A : Type) :=
| Returned (a : A)
| Raised (e : exn).
Arguments Returned {A} a.
Arguments Raised {A} e.

(** What the downloads act on: the replies still to come, the HTTP client
    and the disk. *)
Record world := mkWorld {
  net : list Http.reply;
  client : Http.client;
  disk : Cache.disk;
}.

Definition PACKAGES_PREFERENCE : list string := [".xz"; ".gz"; ""].

Section get_release_fetcher.

(** [wsgiref.handlers.format_date_time], [sha256(contents).hexdigest()], and
    the status lines the [gpgv] child writes for a keyring, a signature and
    signed contents.  The clock reads [now] whenever a file is written. *)
Variable format_date_time : Z → string.
Variable sha256 : string → string.
Variable gpgv : string → string → string → list string.
Variable now : Z.

(** [download_cached(netloc, path)], with the disk brought up to date. *)
Definition download (w : world) (netloc path : string) : option (Py.result string * world) :=
  match Cache.download_cached format_date_time (net w) (client w) (disk w) netloc path with
  | None => None
  | Some (r, calls, net', c') => Some (r, mkWorld net' c' (Cache.final now (disk w) calls))
  end.

(** [repo_fetch(path)], the closure [get_release_fetcher] returns, over the
    [sha256sums] it captured. *)
Definition repo_fetch (sha256sums : gmap string string) (netloc dist_path : string)
  (w : world) (path : string) : option (outcome string * world) :=
  match sha256sums !! path with
  | None => Some (Raised (Other (Py.KeyError path)), w)
  | Some expected_checksum =>
      match download w netloc (dist_path +:+ path) with
      | None => None
      | Some (Py.Raise e, w') => Some (Raised (Other e), w')
      | Some (Py.Return contents, w') =>
          let actual_checksum := sha256 contents in
          if bool_decide (expected_checksum ≠ actual_checksum)
          then Some (Raised (Mismatch expected_checksum actual_checksum), w')
          else Some (Returned contents, w')
      end
  end.

(** [get_release_fetcher(keyring, netloc, dist_path)] up to the definition
    of the closure: the [sha256sums] the closure captures. *)
Definition get_release_fetcher (keyring netloc dist_path : string) (w : world)
  : option (outcome (gmap string string) * world) :=
  let name := dist_path +:+ "Release" in
  match download w netloc name with
  | None => None
  | Some (Py.Raise e, w) => Some (Raised (Other e), w)
  | Some (Py.Return release, w) =>
      match download w netloc (dist_path +:+ "Release.gpg") with
      | None => None
      | Some (Py.Raise e, w) => Some (Raised (Other e), w)
      | Some (Py.Return release_gpg, w) =>
          match Gpg.gpg_verify (gpgv keyring release_gpg release) with
          | Py.Raise e => Some (Raised (Other e), w)
          | Py.Return _ =>
              match get_sha256sums release with
              | Py.Raise e => Some (Raised (Other e), w)
              | Py.Return sha256sums => Some (Returned sha256sums, w)
              end
          end
      end
  end.

(** The [for pref in PACKAGES_PREFERENCE:] loop of [_get_packages];
    [Returned None] is the function running off its end. *)
Fixpoint prefs_loop (sha256sums : gmap string string) (netloc dist_path architecture : string)
  (w : world) (prefs : list string) : option (outcome (option (string * string)) * world) :=
  match prefs with
  | [] => Some (Returned None, w)
  | pref :: prefs' =>
      match repo_fetch sha256sums netloc dist_path w
              ("main/binary-" +:+ architecture +:+ "/Packages" +:+ pref) with
      | None => None
      | Some (Returned contents, w') => Some (Returned (Some (pref, contents)), w')
      | Some (Raised (Other (Py.KeyError _)), w') =>
          prefs_loop sha256sums netloc dist_path architecture w' prefs'
      | Some (Raised e, w') => Some (Raised e, w')
      end
  end.

(** [_get_packages(architecture, keyring, parsed_archive_url, suite)] *)
Definition _get_packages (architecture keyring netloc archive_path suite : string) (w : world)
  : option (outcome (option (string * string)) * world) :=
  let dist_path := archive_path +:+ "dists/" +:+ suite +:+ "/" in
  match get_release_fetcher keyring netloc dist_path w with
  | None => None
  | Some (Raised e, w) => Some (Raised e, w)
  | Some (Returned sha256sums, w) =>
      prefs_loop sha256sums netloc dist_path architecture w PACKAGES_PREFERENCE
  end.

End get_release_fetcher.

(** One line of the [SHA256:] section as an archive writes it: a space, the
    checksum, the size and the file name, with runs of spaces between
    them. *)
Record entry := mkEntry {
  checksum : string;
  gap1 : string;
  size : string;
  gap2 : string;
  filename : string;
}.


(** A piece [split()] returns whole: not empty and free of whitespace. *)
Definition is_token (s : string) : bool :=
  negb (Py.is_empty s) && PyText.all_chars (λ c, negb (Py.is_space c)) s.

(** A run of spaces, at least one. *)
Definition is_gap (s : string) : bool :=
  negb (Py.is_empty s) && PyText.all_chars (λ c, bool_decide (c = " "%char)) s.

Definition well_formed (e : entry) : bool :=
  is_token (checksum e) && is_gap (gap1 e) && is_token (size e) && is_gap (gap2 e)
  && is_token (filename e).


End Release.

(** ** Image writer: [is_excluded], [write_file], [write_image] *)
Module Image.

(** [LOCALE_MATCHER.match(name)], for the pattern [fnmatch.translate] makes
    of [usr/share/locale/*/LC_MESSAGES/*.mo]: the literal head, then the
    shortest run up to a [/LC_MESSAGES/] (the pattern does not come back on
    that choice), then any run that ends the name with [.mo]. *)
Definition LOCALE_MATCHER (name : string) : bool :=
  match Index.strip_prefix "usr/share/locale/" name with
  | None => false
  | Some rest =>
      match PyText.after_first "/LC_MESSAGES/" rest with
      | None => false
      | Some tail => PyText.endswith ".mo" tail
      end
  end.

(** [is_excluded(name)] *)
Definition is_excluded (name : string) : bool :=
  if Py.startswith "usr/share/doc/" name then true
  else if Py.startswith "usr/share/man/" name then true
  else LOCALE_MATCHER name.

(** [sorted(files)] *)
Definition sorted (fs : Fs.files) : list string :=
  merge_sort PyText.str_le (elements (dom fs : gset string)).

Section write_image.

(** [TarInfo.tobuf] *)
Variable tobuf : Tar.TarInfo → string.

(** [write_file(out_fh, info, fh)]: [out] is what [out_fh] holds before the
    call, the value returned what it holds after. *)
Definition write_file (out : string) (info : Tar.TarInfo) (fh : option string)
  : Py.result string :=
  if negb (Tar.isdir info) && is_excluded (Tar.name info) then Py.Return out
  else
    let out := out +:+ tobuf info in
    let copied :=
      if bool_decide (Tar.size info = 0) then Py.Return ""
      else match fh with
           | None => Py.Raise Py.AttributeError
           | Some contents =>
               match Filter.copyfileobj contents (Tar.size info) with
               | Some (bytes, _) => Py.Return bytes
               | None => Py.Raise Py.OSError
               end
           end in
    match copied with
    | Py.Raise e => Py.Raise e
    | Py.Return bytes =>
        let out := out +:+ bytes in
        let remainder := Tar.size info `mod` Filter.BLOCKSIZE in
        if bool_decide (remainder = 0) then Py.Return out
        else Py.Return (out +:+ Py.repeat_char "000"%char (Z.to_nat (Filter.BLOCKSIZE - remainder)))
    end.

(** The [for name in sorted(files):] loop. *)
Fixpoint write_loop (fs : Fs.files) (out : string) (names : list string) : Py.result string :=
  match names with
  | [] => Py.Return out
  | name :: names' =>
      match fs !! name with
      | None => Py.Raise (Py.KeyError name)
      | Some (info, fh) =>
          match write_file out info fh with
          | Py.Return out' => write_loop fs out' names'
          | Py.Raise e => Py.Raise e
          end
      end
  end.

(** [write_image(fs, out_fh)] on an empty [out_fh] *)
Definition write_image (fs : Fs.files) : Py.result string :=
  write_loop fs "" (sorted fs).

End write_image.

End Image.

(** ** Package download: [copy_file_sha256], [download_file] *)
Module Download.

Section copy_file_sha256.

(** [hexdigest()] of a [sha256()] object that was fed the given bytes. *)
Variable sha256 : string → string.

(** The [while True:] loop of [copy_file_sha256]: the digest returned and
    what [dst] holds.  [hashed] is what the hasher was fed so far; [fuel]
    bounds the turns. *)
Fixpoint copy_loop (fuel : nat) (src hashed dst : string) : option (string * string) :=
  match fuel with
  | O => None
  | S fuel' =>
      let '(buf, src) := Py.read (1024 * 1024) src in
      let hashed := hashed +:+ buf in
      if Py.is_empty buf then Some (sha256 hashed, dst)
      else copy_loop fuel' src hashed (dst +:+ buf)
  end.

(** [copy_file_sha256(src, dst)] for an empty [dst] *)
Definition copy_file_sha256 (fuel : nat) (src : string) : option (string * string) :=
  copy_loop fuel src "" "".

(** [download_file(netloc, url, out_fh)]: the digest and what [out_fh]
    holds. *)
Definition download_file (fuel : nat) (net : list Http.reply) (c : Http.client)
  (netloc url : string)
  : option (Py.result (string * string) * list Http.reply * Http.client) :=
  match Http.fetch_http 1 net c netloc url [] with
  | None => None
  | Some (Py.Raise e, net', c') => Some (Py.Raise e, net', c')
  | Some (Py.Return r, net', c') =>
      if bool_decide (Http.status r ≠ 200)
      then Some (Py.Raise (Py.HTTPStatus (Http.status r)), net', c')
      else match copy_file_sha256 fuel (Http.body r) with
           | None => None
           | Some res => Some (Py.Return res, net', c')
           end
  end.

End copy_file_sha256.

End Download.

(** ** What a fetch sends and which connections it builds *)
Module HttpLog.

Definition is_response (rep : Http.reply) : bool :=
  match rep with
  | Http.Response _ => true
  | Http.RemoteDisconnected => false
  end.

(** The connection objects built so far are those of [conns], one for each
    host. *)
Definition one_connection_per_host (c : Http.client) : Prop :=
  NoDup (Http.opened c) ∧ ∀ host, host ∈ Http.conns c ↔ host ∈ Http.opened c.

End HttpLog.

(** ** Headers that survive the filter *)
Module Codec.

Section codec.

Variable decode : string → option Tar.TarInfo.
Variable tobuf : Tar.TarInfo → string.

(** [tobuf] writes [ti] as one block that is not all zero and that
    [frombuf] reads back as [ti]. *)
Definition round_trips (ti : Tar.TarInfo) : Prop :=
  Py.len (tobuf ti) = 512
  ∧ Py.count "000"%char (tobuf ti) ≠ 512%nat
  ∧ decode (tobuf ti) = Some ti.

End codec.

(** The header the filter writes for a member it keeps. *)
Definition written (fs : Fs.files) (e : Filter.entry) : Tar.TarInfo :=
  Tar.set_mtime (Filter.stored_mtime fs (Tar.name (Filter.info e))) (Filter.info e).

(** The members of the filter's output for the input members [entries]. *)
Definition passed (tobuf : Tar.TarInfo → string) (fs : Fs.files) (entries : list Filter.entry)
  : list Filter.entry :=
  map (λ e, Filter.mkEntry (tobuf (written fs e)) (written fs e) (Filter.body e))
    (filter (λ e, Filter.dropped (Tar.name (Filter.info e)) = false) entries)
  ++ [Filter.mkEntry (tobuf Filter.resolv_conf) Filter.resolv_conf ""].

End Codec.

(** ** The members of a written image *)
Module Archive.

(** The zero bytes [write_file] appends after [size] bytes of contents. *)
Definition padding (size : Z) : string :=
  if bool_decide (size `mod` Filter.BLOCKSIZE = 0) then ""
  else Py.repeat_char "000"%char (Z.to_nat (Filter.BLOCKSIZE - size `mod` Filter.BLOCKSIZE)).

(** An entry [write_file] writes: a directory, or a name that is not
    excluded. *)
Definition kept (m : Tar.TarInfo * option string) : bool :=
  Tar.isdir m.1 || negb (Image.is_excluded (Tar.name m.1)).

(** A stored entry as a member of the archive: the header, then the contents
    padded to a block boundary. *)
Definition member (tobuf : Tar.TarInfo → string) (m : Tar.TarInfo * option string)
  : Filter.entry :=
  Filter.mkEntry (tobuf m.1) m.1 (default "" m.2 +:+ padding (Tar.size m.1)).

Definition members (tobuf : Tar.TarInfo → string) (fs : Fs.files) (names : list string)
  : list Filter.entry :=
  map (member tobuf) (filter (λ m, kept m = true) (omap (λ name, fs !! name) names)).

(** Every stored entry has contents as long as its size field says; an
    entry without a file object has size 0. *)
Definition sized (fs : Fs.files) : Prop :=
  ∀ name info fh, fs !! name = Some (info, fh) → Py.len (default "" fh) = Tar.size info.

End Archive.

(** ** Example data

    Concrete models, streams and archives that the examples among the
    properties below evaluate the code on. *)

(** A model holding one regular file [tool], mode 0o755, mtime 3. *)
Definition one_tool : Fs.files :=
  {[ "tool" := (Tar.set_mtime 3 (Tar.set_mode 493 (Tar.new "tool")), Some "") ]}.

(** The model after [symlink("a", "a")] on a new [Filesystem()]. *)
Definition self_link : Fs.files :=
  {[ "a" := (Tar.set_linkname "a" (Tar.set_type Tar.SYMTYPE (Tar.new "a")), None) ]}.

(** The pre-seeded [bin -> usr/bin] pair, then a file installed as
    [bin/ls]. *)
Definition seeded_1 : Fs.files :=
  {[ "usr/bin" := (Tar.set_mode 493 (Tar.set_type Tar.DIRTYPE (Tar.new "usr/bin")), None) ]}.
Definition seeded_2 : Fs.files :=
  <["bin" := (Tar.set_linkname "usr/bin" (Tar.set_type Tar.SYMTYPE (Tar.new "bin")), None)]>
    seeded_1.
Definition seeded_3 : Fs.files :=
  <["usr/bin/ls" := (Tar.set_mode 493 (Tar.set_size 3 (Tar.new "usr/bin/ls")), Some "ELF")]>
    seeded_2.

(** The model after [file("a/b", "")] and then [symlink("a", "c")]. *)
Definition shadowed_1 : Fs.files :=
  {[ "a/b" := (Tar.new "a/b", Some "") ]}.
Definition shadowed_2 : Fs.files :=
  <["a" := (Tar.set_linkname "c" (Tar.set_type Tar.SYMTYPE (Tar.new "a")), None)]> shadowed_1.

(** A symlink whose target runs through another symlink: [x -> bin/foo]
    under [bin -> usr/bin]. *)
Definition indirect : Fs.files :=
  <["x" := (Tar.set_linkname "bin/foo" (Tar.set_type Tar.SYMTYPE (Tar.new "x")), None)]>
    seeded_2.

(** One stanza of an index, with an Architecture and a Multi-Arch line. *)
Definition apt_stanza : list string :=
  [Py.line "Package: apt"; Py.line "Architecture: amd64"; Py.line "Multi-Arch: foreign";
   Py.line "Version: 2.6.1"; Py.line "Description: commandline package manager"].

(** A 200 response from a mirror. *)
Definition ok_200 : Http.response :=
  {| Http.status := 200; Http.location := None; Http.date := Some 1700000000;
     Http.body := "Origin: Debian" |}.


(** A cache that holds an older copy of the Release file. *)
Definition release_path : string := "debs/deb.debian.org/debian/dists/stable/Release".

Definition stale_cache : Cache.disk :=
  {[ release_path := Cache.mkFile "Origin: Debian (old)" 1600000000 ]}.

(** The status lines of a good signature followed by an expired one. *)
Definition two_signatures : list string :=
  [Py.line "[GNUPG:] NEWSIG";
   Py.line "[GNUPG:] GOODSIG 0E98404D386FA1D9 Debian Archive Automatic Signing Key";
   Py.line "gpgv: Good signature";
   Py.line "[GNUPG:] VALIDSIG 1F89983E0081FDE018F3CC9673A4F27B8DD47936 2023-06-10";
   Py.line "[GNUPG:] NEWSIG";
   Py.line "[GNUPG:] EXPSIG 6ED0E7B82643E131 Debian Archive Automatic Signing Key"].

(** A toy header codec for examples: the name is the block up to its zero
    padding, and a header is written as the name, a colon and a sign for
    the mtime. *)
Definition toy_decode (buf : string) : option Tar.TarInfo :=
  Some (Tar.set_mtime 1700000000 (Tar.new (Py.rstrip (String "000" "") buf))).

Definition toy_tobuf (ti : Tar.TarInfo) : string :=
  Tar.name ti +:+ (if bool_decide (Tar.mtime ti = 0) then ":epoch;" else ":stored;").

Definition padded (name : string) : string :=
  name +:+ Py.repeat_char "000"%char (512 - String.length name).

(** An exported stream: [bin/ls], which the model tracks with mtime 5,
    [.dockerenv], and [etc/machine-id], which it does not track. *)
Definition exported : list Filter.entry :=
  [Filter.mkEntry (padded "bin/ls") (Tar.set_mtime 1700000000 (Tar.new "bin/ls")) "";
   Filter.mkEntry (padded ".dockerenv") (Tar.set_mtime 1700000000 (Tar.new ".dockerenv")) "";
   Filter.mkEntry (padded "etc/machine-id")
     (Tar.set_mtime 1700000000 (Tar.new "etc/machine-id")) ""].

Definition tracked : Fs.files :=
  {[ "bin/ls" := (Tar.set_mtime 5 (Tar.new "bin/ls"), Some "") ]}.

(** A package whose data archive has the root directory, a top-level
    dotfile and a program.  The inner tar archives are two opaque byte
    strings that the library stand-in below opens. *)
Definition pad (n : nat) (s : string) : string :=
  s +:+ Py.repeat_char " "%char (n - String.length s).

Definition ar_member (name size_text contents : string) : string :=
  pad 16 name +:+ pad 12 "0" +:+ pad 6 "0" +:+ pad 6 "0" +:+ pad 8 "100644"
  +:+ pad 10 size_text +:+ String "096" (String "010" "") +:+ contents.

Definition hello_deb : string :=
  Py.line "!<arch>"
  +:+ ar_member "debian-binary" "4" (Py.line "2.0")
  +:+ ar_member "control.tar.xz" "4" "CTRL"
  +:+ ar_member "data.tar.xz" "4" "DATA".

Definition hello_control : string :=
  Py.line "Package: hello" +:+ Py.line "Architecture: amd64".

Definition hello_tarfile_open (contents : string) : Py.result (list Unpack.member) :=
  if bool_decide (contents = "CTRL")
  then Py.Return
         [(Tar.set_type Tar.DIRTYPE (Tar.new "."), None);
          (Tar.set_size (Py.len hello_control) (Tar.new "./control"), Some hello_control)]
  else if bool_decide (contents = "DATA")
  then Py.Return
         [(Tar.set_type Tar.DIRTYPE (Tar.new "."), None);
          (Tar.set_size 3 (Tar.new "./.hidden"), Some "dot");
          (Tar.set_size 3 (Tar.set_mode 493 (Tar.new "./usr/bin/hello")), Some "ELF")]
  else Py.Raise Py.TarError.

(** An index of five packages: [base] is of priority [required] and depends
    on [libc] and on the first of [tool] and [other]; [apt] is there too;
    nothing depends on [extra] or on [other]. *)
Definition toy_index : Index.index :=
  {[ "base" := {[ "Package" := "base"; "Priority" := "required";
                  "Depends" := "libc (>= 2.36), tool | other" ]};
     "libc" := {[ "Package" := "libc"; "Priority" := "optional" ]};
     "tool" := {[ "Package" := "tool"; "Priority" := "optional";
                  "Pre-Depends" := "libc" ]};
     "other" := {[ "Package" := "other"; "Priority" := "optional" ]};
     "extra" := {[ "Package" := "extra"; "Priority" := "optional"; "Depends" := "base" ]};
     "apt" := {[ "Package" := "apt"; "Priority" := "important"; "Depends" := "libc, gpgv" ]} ]}.

(** What [get_needed_packages] returns on it when [pop] hands out the first
    element and [shuffle] leaves the list as it is. *)
Definition toy_needed : list Index.package :=
  match Resolver.get_needed_packages Resolver.pop_first (λ l, l) 16 toy_index with
  | Some (Resolver.Returned ret) => ret
  | _ => []
  end.

(** A stand-in for the digest, and a [gpgv] child that writes the status
    lines of [two_signatures] whatever it is given. *)
Definition toy_sha256 (contents : string) : string := "sha256:" +:+ contents.

Definition toy_gpgv (keyring signature contents : string) : list string := two_signatures.

(** A [Release] file that lists the compressed index only in its [.gz]
    form. *)
Definition toy_release : string :=
  Py.line "Origin: Debian" +:+ Py.line "MD5Sum:"
  +:+ Py.line " 0f343b0931126a20f133d67c2b018a3b 1 main/binary-amd64/Packages.xz"
  +:+ Py.line "SHA256:"
  +:+ Py.line " sha256:PKG 3 main/binary-amd64/Packages.gz"
  +:+ Py.line "SHA512:".

Definition reply_200 (body : string) : Http.reply :=
  Http.Response (Http.mkResponse 200 None (Some 1700000000) body).

(** A mirror that answers the three requests of [_get_packages], an empty
    cache and a new client. *)
Definition toy_world : Release.world :=
  Release.mkWorld [reply_200 toy_release; reply_200 "SIG"; reply_200 "PKG"]
    Http.new_client ∅.

Definition toy_get_packages : option (Release.outcome (option (string * string)) * Release.world) :=
  Release._get_packages (λ _, "Thu, 01 Jan 1970 00:00:00 GMT") toy_sha256 toy_gpgv 1700000123
    "amd64" "debian-archive-keyring" "deb.debian.org" "/debian/" "stable" toy_world.

Definition toy_world_after : Release.world :=
  match toy_get_packages with
  | Some (_, w) => w
  | None => toy_world
  end.
(** A header codec for examples that writes the name and a mark for the
    mtime (one stroke for each second, up to nine) into a zero-padded block,
    and reads back the headers of a given list. *)
Definition block_tobuf (ti : Tar.TarInfo) : string :=
  padded (Tar.name ti +:+ ":"
          +:+ Py.repeat_char "|"%char (Z.to_nat (Z.min (Tar.mtime ti) 9))).

Definition block_decode (known : list Tar.TarInfo) (buf : string) : option Tar.TarInfo :=
  List.find (λ ti, bool_decide (block_tobuf ti = buf)) known.

(** The stream of [exported] as that codec writes it, and the headers it has
    to read back on the way through the filter. *)
Definition exported_blocks : list Filter.entry :=
  map (λ e, Filter.mkEntry (block_tobuf (Filter.info e)) (Filter.info e) (Filter.body e)) exported.

Definition exported_headers : list Tar.TarInfo :=
  map Filter.info exported ++ map (Codec.written tracked) exported ++ [Filter.resolv_conf].
(** A control archive with two maintainer files besides [control]. *)
Definition scripts_tarfile_open (contents : string) : Py.result (list Unpack.member) :=
  Py.Return
    [(Tar.set_type Tar.DIRTYPE (Tar.new "."), None);
     (Tar.set_size (Py.len hello_control) (Tar.new "./control"), Some hello_control);
     (Tar.set_size 10 (Tar.set_mode 493 (Tar.new "./postinst")), Some (Py.line "#!/bin/sh"));
     (Tar.set_size 0 (Tar.new "./md5sums"), Some "")].



(** * Properties *)

(** ** Strings *)
Lemma str_app_nil_l (s : string) : "" +:+ s = s.
Proof. reflexivity. Qed.

Lemma str_app_cons (c : ascii) (s t : string) : String c s +:+ t = String c (s +:+ t).
Proof. reflexivity. Qed.

Lemma str_app_nil_r (s : string) : s +:+ "" = s.
Proof. induction s as [|c s IH]; [done|]. by rewrite str_app_cons, IH. Qed.

Lemma str_app_assoc (s t u : string) : (s +:+ t) +:+ u = s +:+ t +:+ u.
Proof. induction s as [|c s IH]; [done|]. by rewrite !str_app_cons, IH. Qed.

Lemma str_length_app (s t : string) :
  String.length (s +:+ t) = (String.length s + String.length t)%nat.
Proof. induction s as [|c s IH]; [done|]. rewrite str_app_cons. simpl. by rewrite IH. Qed.

Lemma contains_app (c : ascii) (s t : string) :
  Py.contains c (s +:+ t) = Py.contains c s || Py.contains c t.
Proof.
  induction s as [|d s IH]; [done|]. rewrite str_app_cons. simpl.
  by destruct (decide (c = d)).
Qed.

Lemma take_app_length (s t : string) : Py.take (String.length s) (s +:+ t) = s.
Proof. induction s as [|c s IH]; [by destruct t|]. rewrite str_app_cons. simpl. by rewrite IH. Qed.

Lemma drop_app_length (s t : string) : Py.drop (String.length s) (s +:+ t) = t.
Proof. induction s as [|c s IH]; [done|]. by rewrite str_app_cons. Qed.

Lemma read_app (n : Z) (s t : string) :
  Py.len s = n → Py.read n (s +:+ t) = (s, t).
Proof.
  unfold Py.read, Py.len. intros <-.
  destruct (Z.ltb_spec (Z.of_nat (String.length s)) 0); [lia|].
  by rewrite Nat2Z.id, take_app_length, drop_app_length.
Qed.

(** [read] hands out the stream in two pieces. *)
Lemma read_length (n : Z) (fh a b : string) :
  Py.read n fh = (a, b) → (String.length a + String.length b = String.length fh)%nat.
Proof.
  unfold Py.read. destruct (n <? 0); [intros [= <- <-]; simpl; lia|].
  intros [= <- <-]. generalize (Z.to_nat n) as k. intros k. revert k.
  induction fh as [|c fh IH]; intros [|k]; simpl; try done. by rewrite IH.
Qed.

Lemma nonempty_length (s : string) : Py.is_empty s = false → (1 ≤ String.length s)%nat.
Proof. destruct s; simpl; [done|lia]. Qed.

(** Pushes appends below the leading characters in hypothesis [H]. *)
Ltac app_norm H := repeat first [rewrite str_app_nil_l in H | rewrite str_app_cons in H].

(** The pieces [split] returns hold no separator. *)
Lemma split_no_sep (c : ascii) (s : string) :
  Forall (λ piece, Py.contains c piece = false) (Py.split c s).
Proof.
  induction s as [|d s IH]; simpl.
  - by repeat constructor.
  - destruct (decide (d = c)) as [->|Hne].
    + by constructor.
    + destruct (Py.split c s) as [|h t]; simpl.
      * repeat constructor. simpl. by destruct (decide (c = d)) as [->|].
      * inversion IH; subst. constructor; [|done].
        simpl. by destruct (decide (c = d)) as [->|].
Qed.

Lemma split_nonempty (c : ascii) (s : string) : Py.split c s ≠ [].
Proof.
  destruct s as [|d s]; simpl; [done|].
  destruct (decide (d = c)); [done|]. by destruct (Py.split c s).
Qed.

(** A string that ends with [c] is some string followed by [c]. *)
Lemma endswith_char_inv (c : ascii) (s : string) :
  Py.endswith_char c s = true → ∃ s0, s = s0 +:+ String c "".
Proof.
  unfold Py.endswith_char. induction s as [|d s IH]; simpl; [done|].
  destruct s as [|e s].
  - intros ->%bool_decide_eq_true. by exists "".
  - intros H. destruct (IH H) as [s0 ->]. by exists (String d s0).
Qed.

(** ** Virtual filesystem model *)
Section filesystem.

Implicit Types (fs : Fs.files) (ti existing : Tar.TarInfo) (fh fileobj : option string).

(** *** What [add] does, case by case *)

Lemma add_unfold fuel fs ti fileobj n :
  Fs._build_path fuel fs (Tar.name ti) = Some n →
  Fs.add fuel fs ti fileobj =
    let ti' := Tar.set_owner_names "" "" (Tar.set_name n ti) in
    match fs !! n with
    | Some (existing, fh) =>
        let existing' :=
          Tar.set_mtime (Z.max (Tar.mtime existing) (Tar.mtime ti)) existing in
        if bool_decide (Fs.extract_useful ti' = Fs.extract_useful existing')
        then Some (<[n := (existing', fh)]> fs, Fs.Returned)
        else Some (<[n := (existing', fh)]> fs, Py.Raise (Py.RuntimeError n))
    | None =>
        if Py.is_empty n then Some (fs, Fs.Returned)
        else Some (<[n := (ti', fileobj)]> fs, Fs.Returned)
    end.
Proof. intros Hn. unfold Fs.add. rewrite Hn. reflexivity. Qed.

Lemma extract_useful_set_mtime t ti :
  Fs.extract_useful (Tar.set_mtime t ti) = Fs.extract_useful ti.
Proof. reflexivity. Qed.

(** An [add] that returned either merged into a stored entry, dropped the
    empty name, or stored a new entry. *)
Lemma add_returned fuel fs ti fileobj fs' :
  Fs.add fuel fs ti fileobj = Some (fs', Fs.Returned) →
  ∃ n, Fs._build_path fuel fs (Tar.name ti) = Some n ∧
    ((∃ existing fh, fs !! n = Some (existing, fh) ∧
        fs' = <[n := (Tar.set_mtime (Z.max (Tar.mtime existing) (Tar.mtime ti)) existing, fh)]> fs)
     ∨ (fs !! n = None ∧ fs' = fs)
     ∨ (fs !! n = None ∧
        fs' = <[n := (Tar.set_owner_names "" "" (Tar.set_name n ti), fileobj)]> fs)).
Proof.
  unfold Fs.add. destruct (Fs._build_path fuel fs (Tar.name ti)) as [n|]; [|done].
  intros H. exists n. split; [done|].
  destruct (fs !! n) as [[existing fh]|] eqn:Hl.
  - left. exists existing, fh. split; [done|].
    case_bool_decide; by simplify_eq.
  - right. destruct (Py.is_empty n); simplify_eq; auto.
Qed.

(** Each of the five operations is an [add] of some entry. *)
Lemma run_is_add fuel fs o :
  ∃ ti fileobj, Fs.run fuel fs o = Fs.add fuel fs ti fileobj.
Proof. destruct o; simpl; unfold Fs.mkdir, Fs.symlink, Fs.file, Fs.mknod; eauto. Qed.

(** *** Merging into a stored entry *)



(** C9.  When the canonical name [n] is stored with different useful
    attributes, the state [add] leaves behind as it raises holds the stored
    entry with its mtime raised to the maximum of the two mtimes: the error
    path is not a rollback, and the state differs from the one before the
    call whenever the added entry is the newer one. *)
Theorem add_conflict_still_updates_mtime fuel fs ti fileobj n existing fh :
  Fs._build_path fuel fs (Tar.name ti) = Some n →
  fs !! n = Some (existing, fh) →
  Fs.extract_useful (Tar.set_owner_names "" "" (Tar.set_name n ti))
    ≠ Fs.extract_useful existing →
  ∃ fs', Fs.add fuel fs ti fileobj = Some (fs', Py.Raise (Py.RuntimeError n))
    ∧ fs' = <[n := (Tar.set_mtime (Z.max (Tar.mtime existing) (Tar.mtime ti)) existing, fh)]> fs
    ∧ (Tar.mtime existing < Tar.mtime ti → fs' ≠ fs).
Proof.
  intros Hn Hl Hu. rewrite (add_unfold _ _ _ _ _ Hn), Hl. cbv zeta.
  rewrite extract_useful_set_mtime, bool_decide_eq_false_2 by done.
  eexists; split; [reflexivity|]. split; [reflexivity|].
  intros Hlt Heq.
  assert (<[n := (Tar.set_mtime (Z.max (Tar.mtime existing) (Tar.mtime ti)) existing, fh)]> fs !! n
          = Some (existing, fh)) as Hl' by (by rewrite Heq).
  rewrite lookup_insert_eq in Hl'. simplify_eq.
  assert (Tar.mtime (Tar.set_mtime (Z.max (Tar.mtime existing) (Tar.mtime ti)) existing)
          = Tar.mtime existing) as Hm by congruence.
  simpl in Hm. lia.
Qed.

Lemma add_conflict_still_updates_mtime_witness :
  ∃ fs', Fs.add 0 one_tool (Tar.set_mtime 7 (Tar.new "tool")) None
           = Some (fs', Py.Raise (Py.RuntimeError "tool"))
    ∧ fs' = <["tool" := (Tar.set_mtime 7 (Tar.set_mode 493 (Tar.new "tool")), Some "")]> one_tool
    ∧ (3 < 7 → fs' ≠ one_tool).
Proof.
  refine (add_conflict_still_updates_mtime 0 one_tool (Tar.set_mtime 7 (Tar.new "tool")) None
    "tool" (Tar.set_mtime 3 (Tar.set_mode 493 (Tar.new "tool"))) (Some "") _ _ _);
    [reflexivity | reflexivity | discriminate].
Defined.

(** *** Termination of [resolve] *)

(** [resolve] in terms of its one-step redirection. *)
Lemma resolve_unfold fuel fs name :
  Fs.resolve fuel fs name =
    match Fs.link_target fs name with
    | None => Some name
    | Some target =>
        match fuel with
        | O => None
        | S fuel' => Fs.resolve fuel' fs target
        end
    end.
Proof.
  unfold Fs.link_target. destruct fuel; simpl;
    destruct (fs !! name) as [[info fh]|]; try done; by destruct (Tar.issym info).
Qed.

(** More fuel does not change a result. *)
Lemma resolve_mono fuel fuel' fs name r :
  (fuel ≤ fuel')%nat → Fs.resolve fuel fs name = Some r → Fs.resolve fuel' fs name = Some r.
Proof.
  revert fuel' name. induction fuel as [|fuel IH]; intros fuel' name Hle;
    rewrite (resolve_unfold _ fs name), (resolve_unfold fuel' fs name);
    destruct (Fs.link_target fs name) as [target|]; try done.
  destruct fuel' as [|fuel']; [lia|]. apply IH. lia.
Qed.

Lemma build_path_loop_mono fuel fuel' fs ret components r :
  (fuel ≤ fuel')%nat →
  Fs.build_path_loop fuel fs ret components = Some r →
  Fs.build_path_loop fuel' fs ret components = Some r.
Proof.
  intros Hle. revert ret. induction components as [|c components IH]; intros ret; simpl; [done|].
  destruct (Fs.resolve fuel fs (PosixPath.join ret c)) as [ret'|] eqn:Hr; [|done].
  rewrite (resolve_mono _ _ _ _ _ Hle Hr). apply IH.
Qed.

(** A name from which the redirections are well founded is resolved with
    enough fuel. *)
Lemma resolve_acc fs name :
  Acc (Fs.follows fs) name → ∃ fuel r, Fs.resolve fuel fs name = Some r.
Proof.
  induction 1 as [name _ IH].
  destruct (Fs.link_target fs name) as [target|] eqn:Ht.
  - destruct (IH target Ht) as (fuel & r & Hr).
    exists (S fuel), r. by rewrite resolve_unfold, Ht.
  - exists O, name. by rewrite resolve_unfold, Ht.
Qed.

(** Conversely a name that [resolve] resolves starts no endless chain. *)
Lemma resolve_some_acc fuel fs name r :
  Fs.resolve fuel fs name = Some r → Acc (Fs.follows fs) name.
Proof.
  revert name. induction fuel as [|fuel IH]; intros name; rewrite resolve_unfold;
    destruct (Fs.link_target fs name) as [target|] eqn:Ht; intros Hr;
    try discriminate; constructor; intros t Hf; unfold Fs.follows in Hf;
    rewrite Ht in Hf; try discriminate.
  injection Hf as <-. by apply IH.
Qed.

Lemma build_path_loop_terminates fs ret components :
  Fs.acyclic fs → ∃ fuel r, Fs.build_path_loop fuel fs ret components = Some r.
Proof.
  intros Hwf. revert ret. induction components as [|c components IH]; intros ret.
  - by exists O, ret.
  - destruct (resolve_acc fs (PosixPath.join ret c) (Hwf _)) as (f1 & ret' & H1).
    destruct (IH ret') as (f2 & r & H2).
    exists (f1 `max` f2)%nat, r. simpl.
    rewrite (resolve_mono f1 _ _ _ _ (Nat.le_max_l _ _) H1).
    apply (build_path_loop_mono f2); [apply Nat.le_max_r | done].
Qed.

Lemma add_terminates fs ti fileobj :
  Fs.acyclic fs → ∃ fuel r, Fs.add fuel fs ti fileobj = Some r.
Proof.
  intros Hwf.
  destruct (build_path_loop_terminates fs "" (Py.split Py.slash (Tar.name ti)) Hwf)
    as (fuel & n & Hn).
  exists fuel. unfold Fs.add, Fs._build_path. rewrite Hn.
  destruct (fs !! n) as [[existing fh]|].
  - case_bool_decide; eauto.
  - destruct (Py.is_empty n); eauto.
Qed.

Lemma self_link_reachable : Fs.reachable self_link.
Proof.
  apply (Fs.reachable_step ∅ self_link 0 (Fs.Symlink "a" "a")); [constructor|].
  reflexivity.
Qed.

Lemma self_link_loops fuel : Fs.resolve fuel self_link "a" = None.
Proof. induction fuel as [|fuel IH]; [reflexivity|]. rewrite resolve_unfold. exact IH. Qed.

(** C10.  [resolve] returns on every name exactly when the stored symlinks
    are acyclic, and then every [add] returns too; without that
    precondition it need not: [symlink("a", "a")] on a new model returns and
    leaves a state in which [resolve("a")], [_build_path("a")] and every
    [add] of an entry named ["a"] never return, whatever the fuel. *)
Theorem resolve_terminates_iff_acyclic :
  (∀ fs, Fs.acyclic fs ↔ ∀ name, ∃ fuel r, Fs.resolve fuel fs name = Some r)
  ∧ (∀ fs ti fileobj, Fs.acyclic fs → ∃ fuel r, Fs.add fuel fs ti fileobj = Some r)
  ∧ Fs.symlink 0 ∅ "a" "a" = Some (self_link, Fs.Returned)
  ∧ Fs.reachable self_link
  ∧ ∀ fuel,
      Fs.resolve fuel self_link "a" = None
      ∧ Fs._build_path fuel self_link "a" = None
      ∧ ∀ ti fileobj, Tar.name ti = "a" → Fs.add fuel self_link ti fileobj = None.
Proof.
  split; [|split; [|split; [|split]]].
  - intros fs. split.
    + intros Hwf name. apply resolve_acc, Hwf.
    + intros Hall name. destruct (Hall name) as (fuel & r & Hr).
      by apply resolve_some_acc in Hr.
  - intros fs ti fileobj Hwf. by apply add_terminates.
  - reflexivity.
  - apply self_link_reachable.
  - intros fuel.
    assert (Fs._build_path fuel self_link "a" = None) as Hb.
    { unfold Fs._build_path. simpl.
      change (PosixPath.join "" "a") with "a". by rewrite self_link_loops. }
    split; [apply self_link_loops|]. split; [done|].
    intros ti fileobj Hname. unfold Fs.add. by rewrite Hname, Hb.
Qed.

(** *** Path prefixes *)

Lemma startswith_slash_contains (c : string) :
  Py.startswith "/" c = true → Py.contains Py.slash c = true.
Proof.
  destruct c as [|d c]; simpl; [done|].
  destruct (decide ("/"%char = d)) as [<-|]; [|done]. intros _.
  unfold Py.slash. by destruct (decide ("/"%char = "/"%char)).
Qed.

Lemma contains_slash_app (P rest : string) :
  Py.contains Py.slash (P +:+ "/" +:+ rest) = true.
Proof.
  rewrite contains_app. apply orb_true_iff. right.
  rewrite str_app_cons. simpl. unfold Py.slash. by destruct (decide ("/"%char = "/"%char)).
Qed.

Lemma contains_slash_cons (P rest : string) :
  Py.contains Py.slash (P +:+ String "/" rest) = true.
Proof. apply (contains_slash_app P rest). Qed.

(** Where the last separator of a path is, its prefixes end. *)
Lemma last_slash_prefix (X c P rest : string) :
  Py.contains Py.slash c = false →
  X +:+ "/" +:+ c = P +:+ "/" +:+ rest →
  P = X ∨ ∃ r, X = P +:+ "/" +:+ r.
Proof.
  intros Hc. revert X. induction P as [|p P IH]; intros X Heq.
  - destruct X as [|x X]; [by left|]. right.
    app_norm Heq. injection Heq as -> Heq. by exists X.
  - destruct X as [|x X].
    + app_norm Heq. injection Heq as <- Heq.
      rewrite Heq, contains_slash_cons in Hc. discriminate.
    + app_norm Heq. injection Heq as -> Heq.
      destruct (IH X Heq) as [->|[r ->]]; [by left|]. right. by exists r.
Qed.

Lemma proper_path_prefix_ne (P N : string) : Fs.proper_path_prefix P N → P ≠ N.
Proof.
  intros [rest ->] Heq. apply (f_equal String.length) in Heq.
  rewrite !str_length_app in Heq. simpl in Heq. lia.
Qed.

(** The proper prefixes of [join(ret, c)], for a component [c], are prefixes
    of [ret]. *)
Lemma join_proper_prefix (ret c P : string) :
  Py.contains Py.slash c = false →
  Fs.proper_path_prefix P (PosixPath.join ret c) →
  ret ≠ "" ∧ Fs.path_prefix P ret.
Proof.
  intros Hc [rest Heq]. unfold PosixPath.join in Heq.
  destruct (Py.startswith "/" c) eqn:Hs.
  { apply startswith_slash_contains in Hs. congruence. }
  destruct ret as [|x ret].
  { simpl in Heq. rewrite str_app_nil_l in Heq.
    rewrite Heq, contains_slash_app in Hc. discriminate. }
  split; [done|]. simpl in Heq.
  destruct (Py.endswith_char Py.slash (String x ret)) eqn:He.
  - apply endswith_char_inv in He as [ret0 Hret0]. rewrite Hret0 in Heq |- *.
    rewrite str_app_assoc in Heq.
    destruct (last_slash_prefix _ _ _ _ Hc Heq) as [->|[r ->]]; right.
    + by exists "".
    + exists (r +:+ "/"). by rewrite !str_app_assoc.
  - destruct (last_slash_prefix _ _ _ _ Hc Heq) as [->|[r Hr]]; [by left|].
    right. by exists r.
Qed.

Lemma elem_of_proper_prefixes (P s : string) :
  Fs.proper_path_prefix P s → P ∈ Fs.proper_prefixes s.
Proof.
  revert P. induction s as [|c s IH]; intros P [rest Heq].
  - destruct P; discriminate.
  - simpl. apply elem_of_app. destruct P as [|p P].
    + left. rewrite str_app_nil_l, str_app_cons in Heq. injection Heq as -> _.
      unfold Py.slash. destruct (decide ("/"%char = "/"%char)); [|done]. apply list_elem_of_here.
    + right. rewrite str_app_cons in Heq. injection Heq as -> Heq.
      apply list_elem_of_fmap_2. apply IH. by exists rest.
Qed.

(** *** Symlinks on the way to a key *)

Lemma is_symlinkb_spec fs name : Fs.is_symlinkb fs name = true ↔ Fs.is_symlink fs name.
Proof.
  unfold Fs.is_symlinkb, Fs.is_symlink. split.
  - destruct (fs !! name) as [[info fh]|]; [|done]. eauto.
  - intros (info & fh & -> & Hs). done.
Qed.

Lemma link_target_is_symlink fs name :
  is_Some (Fs.link_target fs name) ↔ Fs.is_symlink fs name.
Proof.
  unfold Fs.link_target, Fs.is_symlink. split.
  - destruct (fs !! name) as [[info fh]|]; [|by intros [? ?]].
    destruct (Tar.issym info) eqn:Hs; [eauto | by intros [? ?]].
  - intros (info & fh & -> & ->). eauto.
Qed.

Lemma targets_canonicalb_sound fs :
  Fs.targets_canonicalb fs = true → Fs.targets_canonical fs.
Proof.
  unfold Fs.targets_canonicalb. rewrite forallb_forall.
  intros Hall name target Ht P HP Hsym.
  assert (is_Some (fs !! name)) as [e He].
  { unfold Fs.link_target in Ht. destruct (fs !! name); [eauto | done]. }
  specialize (Hall (name, e)). simpl in Hall. rewrite Ht in Hall.
  assert (In (name, e) (map_to_list fs)) as Hin.
  { apply list_elem_of_In. by apply elem_of_map_to_list. }
  specialize (Hall Hin). rewrite forallb_forall in Hall.
  specialize (Hall P). rewrite <- list_elem_of_In in Hall.
  specialize (Hall (elem_of_proper_prefixes _ _ HP)).
  apply is_symlinkb_spec in Hsym. rewrite Hsym in Hall. discriminate.
Qed.

Lemma no_new_link_above_keysb_sound fs fs' :
  Fs.no_new_link_above_keysb fs fs' = true → Fs.no_new_link_above_keys fs fs'.
Proof.
  unfold Fs.no_new_link_above_keysb. rewrite forallb_forall.
  intros Hall L N Hnew Hold [e He] HP.
  specialize (Hall (N, e)). simpl in Hall.
  assert (In (N, e) (map_to_list fs)) as Hin.
  { apply list_elem_of_In. by apply elem_of_map_to_list. }
  specialize (Hall Hin). rewrite forallb_forall in Hall.
  specialize (Hall L). rewrite <- list_elem_of_In in Hall.
  specialize (Hall (elem_of_proper_prefixes _ _ HP)).
  apply is_symlinkb_spec in Hnew. rewrite Hnew in Hall.
  destruct (Fs.is_symlinkb fs L) eqn:Hb; [|discriminate].
  apply Hold. by apply is_symlinkb_spec.
Qed.

(** [resolve] on a name whose proper prefixes are free of symlinks returns a
    name all of whose prefixes are. *)
Lemma resolve_no_symlink_prefix fuel fs name r :
  Fs.targets_canonical fs →
  (∀ P, Fs.proper_path_prefix P name → ¬ Fs.is_symlink fs P) →
  Fs.resolve fuel fs name = Some r →
  ∀ P, Fs.path_prefix P r → ¬ Fs.is_symlink fs P.
Proof.
  intros Htc. revert name. induction fuel as [|fuel IH]; intros name Hname;
    rewrite resolve_unfold; destruct (Fs.link_target fs name) as [target|] eqn:Ht;
    intros Hr; try discriminate.
  - injection Hr as <-. intros P [->|HP]; [|by apply Hname].
    rewrite <- link_target_is_symlink, Ht. by intros [? ?].
  - apply (IH target); [|done]. by apply (Htc name).
  - injection Hr as <-. intros P [->|HP]; [|by apply Hname].
    rewrite <- link_target_is_symlink, Ht. by intros [? ?].
Qed.

Lemma build_path_step_no_symlink_prefix fuel fs ret c ret' :
  Fs.targets_canonical fs →
  Py.contains Py.slash c = false →
  (ret = "" ∨ ∀ P, Fs.path_prefix P ret → ¬ Fs.is_symlink fs P) →
  Fs.resolve fuel fs (PosixPath.join ret c) = Some ret' →
  ∀ P, Fs.path_prefix P ret' → ¬ Fs.is_symlink fs P.
Proof.
  intros Htc Hc Hret. apply resolve_no_symlink_prefix; [done|].
  intros P HP. destruct (join_proper_prefix _ _ _ Hc HP) as [Hne Hpre].
  destruct Hret as [->|Hret]; [done|]. by apply Hret.
Qed.

Lemma build_path_loop_no_symlink_prefix fuel fs ret components r :
  Fs.targets_canonical fs →
  Forall (λ c, Py.contains Py.slash c = false) components →
  (∀ P, Fs.path_prefix P ret → ¬ Fs.is_symlink fs P) →
  Fs.build_path_loop fuel fs ret components = Some r →
  ∀ P, Fs.path_prefix P r → ¬ Fs.is_symlink fs P.
Proof.
  intros Htc Hcs. revert ret. induction Hcs as [|c components Hc Hcs IH]; intros ret Hret; simpl.
  - by intros [= <-].
  - destruct (Fs.resolve fuel fs (PosixPath.join ret c)) as [ret'|] eqn:Hr; [|done].
    apply IH. eapply build_path_step_no_symlink_prefix; eauto.
Qed.

(** The name [_build_path] computes runs through no symlink of the state it
    is computed in. *)
Lemma build_path_no_symlink_prefix fuel fs name N :
  Fs.targets_canonical fs →
  Fs._build_path fuel fs name = Some N →
  ∀ P, Fs.path_prefix P N → ¬ Fs.is_symlink fs P.
Proof.
  intros Htc. unfold Fs._build_path.
  pose proof (split_no_sep Py.slash name) as Hcs.
  destruct (Py.split Py.slash name) as [|c components] eqn:Hsplit.
  { by apply split_nonempty in Hsplit. }
  inversion Hcs as [|? ? Hc Hcs']; subst. simpl.
  destruct (Fs.resolve fuel fs (PosixPath.join "" c)) as [ret'|] eqn:Hr; [|done].
  apply build_path_loop_no_symlink_prefix; [done..|].
  eapply build_path_step_no_symlink_prefix; eauto.
Qed.

(** *** Stored keys and later symlinks *)

Lemma orderly_targets_canonical fs : Fs.orderly fs → Fs.targets_canonical fs.
Proof.
  destruct 1 as [|fs fs' fuel o _ _ Htc _]; [|done].
  intros name target Ht. unfold Fs.link_target in Ht. by rewrite lookup_empty in Ht.
Qed.

(** Raising the mtime of a stored entry changes neither the keys nor which
    of them are symlinks. *)
Lemma is_symlink_merge fs n existing fh t P :
  fs !! n = Some (existing, fh) →
  Fs.is_symlink (<[n := (Tar.set_mtime t existing, fh)]> fs) P ↔ Fs.is_symlink fs P.
Proof.
  intros Hl. unfold Fs.is_symlink. destruct (decide (n = P)) as [->|Hne].
  - rewrite lookup_insert_eq. split.
    + intros (info & fh' & [= <- <-] & Hs). eauto.
    + intros (info & fh' & Hl' & Hs). simplify_eq. eauto.
  - by rewrite lookup_insert_ne.
Qed.

Lemma add_keeps_keys_canonical fuel fs ti fileobj fs' :
  Fs.targets_canonical fs →
  Fs.keys_canonical fs →
  Fs.add fuel fs ti fileobj = Some (fs', Fs.Returned) →
  Fs.no_new_link_above_keys fs fs' →
  Fs.keys_canonical fs'.
Proof.
  intros Htc Hkc Hadd Hguard.
  destruct (add_returned _ _ _ _ _ Hadd) as (n & Hn & Hcases).
  destruct Hcases as [(existing & fh & Hl & ->)|[[Hl ->]|[Hl ->]]]; [|done|].
  - intros N P HN HP. rewrite is_symlink_merge by done.
    apply (Hkc N); [|done].
    destruct (decide (n = N)) as [<-|Hne]; [by rewrite Hl|].
    by rewrite lookup_insert_ne in HN.
  - intros N P HN HP Hsym.
    assert (P ≠ n → Fs.is_symlink fs P) as Hold.
    { intros Hne. destruct Hsym as (info & fh & Hl' & Hs).
      rewrite lookup_insert_ne in Hl' by done. by exists info, fh. }
    destruct (decide (n = N)) as [<-|HnN].
    + apply (build_path_no_symlink_prefix _ _ _ _ Htc Hn P).
      * right. exact HP.
      * apply Hold. by apply proper_path_prefix_ne.
    + rewrite lookup_insert_ne in HN by done.
      destruct (decide (P = n)) as [->|HPn].
      * apply (Hguard n N); [done| |done..].
        intros (info & fh & Hl' & _). congruence.
      * apply (Hkc N P); auto.
Qed.

(** C2, as amended.  In every state reached by operations that returned,
    where each symlink was added before any key below its name and
    redirects to a name free of symlink prefixes, no proper path prefix of a
    stored key maps to a symlink entry. *)
Theorem orderly_keys_canonical fs : Fs.orderly fs → Fs.keys_canonical fs.
Proof.
  induction 1 as [|fs fs' fuel o Hfs IH Hrun Htc Hguard].
  - intros N P [e He]. by rewrite lookup_empty in He.
  - destruct (run_is_add fuel fs o) as (ti & fileobj & Heq). rewrite Heq in Hrun.
    apply (add_keeps_keys_canonical fuel fs ti fileobj fs');
      [by apply orderly_targets_canonical | done..].
Qed.

Lemma run_orderly_sound fuel fs ops fs' :
  Fs.orderly fs → Fs.run_orderly fuel fs ops = Some fs' → Fs.orderly fs'.
Proof.
  revert fs. induction ops as [|o ops IH]; intros fs Hfs; simpl.
  - by intros [= <-].
  - destruct (Fs.run fuel fs o) as [[fs1 [[]|e]]|] eqn:Hrun; try done.
    destruct (Fs.targets_canonicalb fs1) eqn:Htc; [|done].
    destruct (Fs.no_new_link_above_keysb fs fs1) eqn:Hg; [|done]. simpl.
    apply IH. eapply Fs.orderly_step; eauto using targets_canonicalb_sound,
      no_new_link_above_keysb_sound.
Qed.

(** The skeleton [create_filesystem] sets up, followed by an entry a package
    installs as [bin/ls] and one it installs as [lib64/ld.so], is such a
    state, and the two entries are stored below [usr]. *)
Lemma preseed_orderly :
  ∃ fs, Fs.run_orderly 1 ∅
          (Fs.preseed "#!/bin/bash"
           ++ [Fs.Add (Tar.set_mode 493 (Tar.new "bin/ls")) (Some "");
               Fs.Add (Tar.new "lib64/ld.so") (Some "")]) = Some fs
    ∧ Fs.orderly fs
    ∧ is_Some (fs !! "usr/bin/ls") ∧ is_Some (fs !! "usr/lib64/ld.so")
    ∧ fs !! "bin/ls" = None.
Proof.
  destruct (Fs.run_orderly 1 ∅
          (Fs.preseed "#!/bin/bash"
           ++ [Fs.Add (Tar.set_mode 493 (Tar.new "bin/ls")) (Some "");
               Fs.Add (Tar.new "lib64/ld.so") (Some "")])) as [fs|] eqn:Hrun;
    [|by vm_compute in Hrun].
  exists fs. split; [done|]. split.
  - eapply run_orderly_sound; [constructor|done].
  - vm_compute in Hrun. injection Hrun as <-. vm_compute. eauto.
Qed.

Lemma seeded_3_orderly : Fs.orderly seeded_3.
Proof.
  apply (Fs.orderly_step seeded_2 seeded_3 1 (Fs.File "bin/ls" "ELF" (Some 493))).
  - apply (Fs.orderly_step seeded_1 seeded_2 0 (Fs.Symlink "bin" "usr/bin")).
    + apply (Fs.orderly_step ∅ seeded_1 0 (Fs.Mkdir "usr/bin")).
      * constructor.
      * vm_compute. reflexivity.
      * apply targets_canonicalb_sound. vm_compute. reflexivity.
      * apply no_new_link_above_keysb_sound. vm_compute. reflexivity.
    + vm_compute. reflexivity.
    + apply targets_canonicalb_sound. vm_compute. reflexivity.
    + apply no_new_link_above_keysb_sound. vm_compute. reflexivity.
  - vm_compute. reflexivity.
  - apply targets_canonicalb_sound. vm_compute. reflexivity.
  - apply no_new_link_above_keysb_sound. vm_compute. reflexivity.
Qed.

Lemma orderly_keys_canonical_witness : Fs.keys_canonical seeded_3.
Proof. exact (orderly_keys_canonical seeded_3 seeded_3_orderly). Defined.

(** C2, counterexample.  Both calls return, the key [a/b] stays as it was
    stored, and its path prefix [a] now maps to a symlink entry. *)
Lemma later_symlink_above_stored_key :
  Fs.file 0 ∅ "a/b" "" None = Some (shadowed_1, Fs.Returned)
  ∧ Fs.symlink 0 shadowed_1 "a" "c" = Some (shadowed_2, Fs.Returned)
  ∧ Fs.reachable shadowed_2
  ∧ is_Some (shadowed_2 !! "a/b")
  ∧ Fs.proper_path_prefix "a" "a/b"
  ∧ Fs.is_symlink shadowed_2 "a".
Proof.
  assert (Fs.file 0 ∅ "a/b" "" None = Some (shadowed_1, Fs.Returned)) as H1
    by (vm_compute; reflexivity).
  assert (Fs.symlink 0 shadowed_1 "a" "c" = Some (shadowed_2, Fs.Returned)) as H2
    by (vm_compute; reflexivity).
  split; [done|]. split; [done|]. split; [|split; [|split]].
  - apply (Fs.reachable_step shadowed_1 _ 0 (Fs.Symlink "a" "c")); [|done].
    apply (Fs.reachable_step ∅ _ 0 (Fs.File "a/b" "" None)); [constructor|done].
  - vm_compute. eauto.
  - by exists "b".
  - eexists _, _. split; vm_compute; reflexivity.
Qed.

(** A symlink whose target runs through another symlink: [x -> bin/foo]
    under [bin -> usr/bin].  [_build_path("x/y")] comes out as [bin/foo/y],
    below the symlink [bin]; this is the case [targets_canonical] rules
    out. *)
Lemma build_path_through_indirect_link :
  Fs.reachable indirect
  ∧ Fs._build_path 1 indirect "x/y" = Some "bin/foo/y"
  ∧ Fs.is_symlink indirect "bin".
Proof.
  split; [|split].
  - apply (Fs.reachable_step seeded_2 _ 0 (Fs.Symlink "x" "bin/foo")); [|vm_compute; reflexivity].
    apply (Fs.reachable_step seeded_1 _ 0 (Fs.Symlink "bin" "usr/bin")); [|vm_compute; reflexivity].
    apply (Fs.reachable_step ∅ _ 0 (Fs.Mkdir "usr/bin")); [constructor|vm_compute; reflexivity].
  - vm_compute. reflexivity.
  - eexists _, _. split; vm_compute; reflexivity.
Qed.

End filesystem.

(** ** Package index parser *)
Section index.

Implicit Types (lines : list string) (pkg : Index.package) (ret : Index.index).

Lemma strip_prefix_app (p s : string) : Index.strip_prefix p (p +:+ s) = Some s.
Proof.
  induction p as [|a p IH]; [by destruct s|].
  rewrite str_app_cons. simpl. by destruct (decide (a = a)).
Qed.

Lemma strip_prefix_inv (p s rest : string) :
  Index.strip_prefix p s = Some rest → s = p +:+ rest.
Proof.
  revert s. induction p as [|a p IH]; intros s; simpl.
  - by intros [= ->].
  - destruct s as [|b s]; [done|]. destruct (decide (a = b)) as [->|]; [|done].
    intros H. rewrite str_app_cons. f_equal. by apply IH.
Qed.

(** The dot-star group captures a newline-free value, with or without the
    line Index.feed that ends the line. *)
Lemma dot_star_eol_inv (s v : string) :
  Index.dot_star_eol s = Some v →
  Py.contains Py.newline v = false ∧ (s = v ∨ s = Py.line v).
Proof.
  revert v. induction s as [|c s IH]; intros v; simpl.
  - intros [= <-]. auto.
  - destruct (decide (c = Py.newline)) as [->|Hc].
    + destruct s; [|done]. intros [= <-]. split; [done|]. by right.
    + destruct (Index.dot_star_eol s) as [v'|]; [|done]. intros [= <-].
      destruct (IH v' eq_refl) as [Hv [->| ->]]; (split; [|by auto]); simpl;
        by destruct (decide (Py.newline = c)) as [<-|].
Qed.

Lemma dot_star_eol_value (v : string) :
  Py.contains Py.newline v = false →
  Index.dot_star_eol v = Some v ∧ Index.dot_star_eol (Py.line v) = Some v.
Proof.
  unfold Py.line. induction v as [|c v IH]; simpl.
  - intros _. split; [done|]. change (Index.dot_star_eol (String Py.newline "") = Some "").
    simpl. by destruct (decide (Py.newline = Py.newline)).
  - destruct (decide (Py.newline = c)) as [<-|Hc]; [done|]. intros Hv.
    destruct (IH Hv) as [H1 H2].
    destruct (decide (c = Py.newline)) as [->|]; [done|]. by rewrite H1, H2.
Qed.

Lemma match_fields_inv (fields : list string) (line key value : string) :
  Index.match_fields fields line = Some (key, value) →
  key ∈ fields ∧ ∃ rest, line = key +:+ ": " +:+ rest ∧ Index.dot_star_eol rest = Some value.
Proof.
  induction fields as [|f fields IH]; simpl; [done|].
  destruct (Index.strip_prefix (f +:+ ": ") line) as [rest|] eqn:Hp.
  - destruct (Index.dot_star_eol rest) as [v|] eqn:Hv.
    + intros [= <- <-]. split; [apply list_elem_of_here|]. exists rest. split; [|done].
      apply strip_prefix_inv in Hp. by rewrite <- str_app_assoc.
    + intros H. destruct (IH H) as [Hin Hrest]. split; [by apply list_elem_of_further|done].
  - intros H. destruct (IH H) as [Hin Hrest]. split; [by apply list_elem_of_further|done].
Qed.

(** Each of the seven field names, followed by a colon, a space and a
    value, is matched under that name. *)
Lemma FIELDS_MATCHER_field (key rest value : string) :
  key ∈ Index.FIELDS →
  Index.dot_star_eol rest = Some value →
  Index.FIELDS_MATCHER (key +:+ ": " +:+ rest) = Some (key, value).
Proof.
  unfold Index.FIELDS, Index.FIELDS_MATCHER. intros Hin Hv.
  repeat (apply elem_of_cons in Hin as [->|Hin]);
    [..|by apply elem_of_nil in Hin];
    cbv -[Index.dot_star_eol]; by rewrite Hv.
Qed.

(** [FIELDS_MATCHER] recognises a line exactly when it is one of the seven
    field names, a colon, a space, and a value on one line. *)
Lemma FIELDS_MATCHER_spec (line key value : string) :
  Index.FIELDS_MATCHER line = Some (key, value) ↔
  key ∈ Index.FIELDS ∧ Py.contains Py.newline value = false
  ∧ (line = key +:+ ": " +:+ value ∨ line = key +:+ ": " +:+ Py.line value).
Proof.
  split.
  - intros H. destruct (match_fields_inv _ _ _ _ H) as (Hin & rest & -> & Hv).
    destruct (dot_star_eol_inv _ _ Hv) as [Hnl [->| ->]]; auto.
  - intros (Hin & Hnl & [->| ->]); apply FIELDS_MATCHER_field; try done;
      by apply dot_star_eol_value.
Qed.

(** One turn of the loop on a blank line and on any other line. *)
Lemma loop_body_blank ret pkg :
  Index.loop_body ret pkg Index.blank =
    if bool_decide (pkg ≠ ∅)
    then match Index.store ret pkg with
         | Py.Return ret' => Py.Return (ret', ∅)
         | Py.Raise e => Py.Raise e
         end
    else Py.Return (ret, ∅).
Proof.
  unfold Index.loop_body. rewrite bool_decide_eq_true_2 by done. cbn [andb].
  case_bool_decide as Hp.
  - by destruct (Index.store ret pkg).
  - by rewrite Hp.
Qed.

Lemma loop_body_line ret pkg line :
  line ≠ Index.blank → Index.loop_body ret pkg line = Py.Return (ret, Index.feed pkg [line]).
Proof.
  intros Hl. unfold Index.loop_body, Index.feed.
  rewrite bool_decide_eq_false_2 by done. cbn [andb foldl].
  by destruct (Index.FIELDS_MATCHER line) as [[key value]|].
Qed.

Lemma packages_loop_app ret pkg pre post :
  Index.packages_loop ret pkg (pre ++ post) =
    match Index.state_after ret pkg pre with
    | Py.Return (ret', pkg') => Index.packages_loop ret' pkg' post
    | Py.Raise e => Py.Raise e
    end.
Proof.
  revert ret pkg. induction pre as [|line pre IH]; intros ret pkg; [done|].
  cbn [app Index.packages_loop Index.state_after].
  by destruct (Index.loop_body ret pkg line) as [[ret0 pkg0]|].
Qed.

Lemma state_after_app ret pkg pre post :
  Index.state_after ret pkg (pre ++ post) =
    match Index.state_after ret pkg pre with
    | Py.Return (ret', pkg') => Index.state_after ret' pkg' post
    | Py.Raise e => Py.Raise e
    end.
Proof.
  revert ret pkg. induction pre as [|line pre IH]; intros ret pkg; [done|].
  cbn [app Index.state_after].
  by destruct (Index.loop_body ret pkg line) as [[ret0 pkg0]|].
Qed.

Lemma feed_app pkg pre post :
  Index.feed pkg (pre ++ post) = Index.feed (Index.feed pkg pre) post.
Proof. apply foldl_app. Qed.

(** Within a stanza the loop only adds fields. *)
Lemma state_after_stanza ret pkg lines :
  Forall (λ line, line ≠ Index.blank) lines →
  Index.state_after ret pkg lines = Py.Return (ret, Index.feed pkg lines).
Proof.
  intros Hl. revert pkg. induction Hl as [|line lines Hline Hl IH]; intros pkg; [done|].
  cbn [Index.state_after]. rewrite loop_body_line by done. by rewrite IH.
Qed.

(** A lookup in the record of a stanza: the last line of the stanza that
    gives the key decides, and a key that no line gives keeps what it had. *)
Lemma feed_lookup lines pkg key value :
  Index.feed pkg lines !! key = Some value ↔
  (∃ (pre : list string) line post, lines = pre ++ line :: post
     ∧ Index.FIELDS_MATCHER line = Some (key, value)
     ∧ Forall (λ l, ∀ v, Index.FIELDS_MATCHER l ≠ Some (key, v)) post)
  ∨ (pkg !! key = Some value
     ∧ Forall (λ l, ∀ v, Index.FIELDS_MATCHER l ≠ Some (key, v)) lines).
Proof.
  revert pkg. induction lines as [|l lines IH]; intros pkg.
  - simpl. split.
    + intros H. right. by split.
    + intros [(pre & line & post & Hl & _)|[H _]]; [|done].
      by destruct pre.
  - cbn [Index.feed foldl]. fold (Index.feed
      (match Index.FIELDS_MATCHER l with
       | Some (k, v) => <[k:=v]> pkg
       | None => pkg
       end) lines).
    rewrite IH. split.
    + intros [(pre & line & post & -> & Hm & Hpost)|[Hk Hl]].
      * left. by exists (l :: pre), line, post.
      * destruct (Index.FIELDS_MATCHER l) as [[k v]|] eqn:Hm.
        -- destruct (decide (k = key)) as [->|Hne].
           ++ rewrite lookup_insert_eq in Hk. injection Hk as ->.
              left. by exists [], l, lines.
           ++ rewrite lookup_insert_ne in Hk by done. right. split; [done|].
              constructor; [|done]. intros v'. congruence.
        -- right. split; [done|]. constructor; [|done]. intros v'. congruence.
    + intros [(pre & line & post & Hl & Hm & Hpost)|[Hk Hl]].
      * destruct pre as [|l' pre]; simpl in Hl; injection Hl as -> ->.
        -- right. split; [|done]. rewrite Hm. apply lookup_insert_eq.
        -- left. by exists pre, line, post.
      * apply Forall_cons in Hl as [Hl Hlines]. right. split; [|done].
        destruct (Index.FIELDS_MATCHER l) as [[k v]|] eqn:Hm; [|done].
        rewrite lookup_insert_ne; [done|]. intros ->. by apply (Hl v).
Qed.

(** Every list of lines is a list of stanzas with blank lines between them. *)
Lemma lines_of_any lines :
  ∃ stanzas, Forall (Forall (λ l, l ≠ Index.blank)) stanzas ∧ lines = Index.lines_of stanzas.
Proof.
  induction lines as [|l lines (stanzas & Hs & ->)].
  - by exists [].
  - destruct (decide (l = Index.blank)) as [->|Hl].
    + destruct stanzas as [|s rest].
      * exists [[]; []]. split; [by repeat constructor|done].
      * exists ([] :: s :: rest). split; [by constructor|done].
    + destruct stanzas as [|s rest].
      * exists [[l]]. split; [by repeat constructor|done].
      * apply Forall_cons in Hs as [Hs Hrest].
        exists ((l :: s) :: rest). split; [by repeat constructor|].
        by destruct rest.
Qed.

(** What the loop does with one stanza and the blank line after it, or with
    the last stanza. *)
Lemma packages_loop_stanza ret stanza rest :
  Forall (λ l, l ≠ Index.blank) stanza →
  Index.packages_loop ret ∅ (Index.lines_of (stanza :: rest)) =
    match (if bool_decide (Index.feed ∅ stanza ≠ ∅)
           then Index.store ret (Index.feed ∅ stanza) else Py.Return ret) with
    | Py.Return ret' => Index.packages_loop ret' ∅ (Index.lines_of rest)
    | Py.Raise e => Py.Raise e
    end.
Proof.
  intros Hs. cbn [Index.lines_of]. destruct rest as [|s rest].
  - rewrite <- (app_nil_r stanza) at 1.
    rewrite packages_loop_app, state_after_stanza by done.
    cbn [Index.packages_loop Index.lines_of].
    case_bool_decide; [|done].
    destruct (Index.store ret (Index.feed ∅ stanza)); [|done].
    by rewrite bool_decide_eq_false_2 by (by intros []).
  - rewrite packages_loop_app, state_after_stanza by done.
    cbn [Index.packages_loop]. rewrite loop_body_blank.
    case_bool_decide; [|done].
    by destruct (Index.store ret (Index.feed ∅ stanza)).
Qed.

(** The index the loop leaves: under each name the record of the last stanza
    of that name, and what was stored before for the names of no stanza. *)
Lemma packages_loop_stanzas stanzas ret0 ret name pkg :
  Forall (Forall (λ l, l ≠ Index.blank)) stanzas →
  Index.packages_loop ret0 ∅ (Index.lines_of stanzas) = Py.Return ret →
  ret !! name = Some pkg ↔
  (∃ (pre : list (list string)) stanza post, stanzas = pre ++ stanza :: post
     ∧ pkg = Index.feed ∅ stanza
     ∧ pkg !! "Package" = Some name
     ∧ Forall (λ s, Index.feed ∅ s !! "Package" ≠ Some name) post)
  ∨ (ret0 !! name = Some pkg
     ∧ Forall (λ s, Index.feed ∅ s !! "Package" ≠ Some name) stanzas).
Proof.
  intros Hs. revert ret0. induction Hs as [|s rest Hs Hrest IH]; intros ret0.
  - cbn [Index.lines_of Index.packages_loop].
    rewrite bool_decide_eq_false_2 by (by intros []). intros [= <-]. split.
    + intros H. right. by split.
    + intros [(pre & stanza & post & Hl & _)|[H _]]; [|done]. by destruct pre.
  - rewrite packages_loop_stanza by done.
    assert (∀ ret1,
      Index.packages_loop ret1 ∅ (Index.lines_of rest) = Py.Return ret →
      (ret1 !! name = Some pkg ↔
         (pkg = Index.feed ∅ s ∧ pkg !! "Package" = Some name)
         ∨ (ret0 !! name = Some pkg ∧ Index.feed ∅ s !! "Package" ≠ Some name)) →
      ret !! name = Some pkg ↔
      (∃ (pre : list (list string)) stanza post, s :: rest = pre ++ stanza :: post
         ∧ pkg = Index.feed ∅ stanza
         ∧ pkg !! "Package" = Some name
         ∧ Forall (λ s, Index.feed ∅ s !! "Package" ≠ Some name) post)
      ∨ (ret0 !! name = Some pkg
         ∧ Forall (λ s, Index.feed ∅ s !! "Package" ≠ Some name) (s :: rest))) as Hstep.
    { intros ret1 Hloop H1. rewrite (IH _ Hloop). split.
      - intros [(pre & stanza & post & -> & Hp & Hn & Hpost)|[Hk Hl]].
        + left. by exists (s :: pre), stanza, post.
        + apply H1 in Hk as [[-> Hn]|[Hk Hne]].
          * left. by exists [], s, rest.
          * right. split; [done|]. by constructor.
      - intros [(pre & stanza & post & Hl & Hp & Hn & Hpost)|[Hk Hl]].
        + destruct pre as [|s' pre]; simpl in Hl; injection Hl as -> ->.
          * right. split; [|done]. apply H1. by left.
          * left. by exists pre, stanza, post.
        + apply Forall_cons in Hl as [Hne Hl]. right. split; [|done].
          apply H1. by right. }
    case_bool_decide as HP.
    + unfold Index.store. destruct (Index.feed ∅ s !! "Package") as [n|] eqn:Hn; [|done].
      intros Hloop. apply (Hstep _ Hloop).
      destruct (decide (n = name)) as [->|Hne].
      * rewrite lookup_insert_eq. split.
        -- intros [= <-]. by left.
        -- intros [[-> _]|[_ Hne]]; [done|]. by destruct Hne.
      * rewrite lookup_insert_ne by done. split.
        -- intros Hk. right. split; [done|]. congruence.
        -- intros [[-> Hn']|[Hk _]]; [congruence|done].
    + intros Hloop. apply (Hstep _ Hloop).
      assert (Index.feed ∅ s = ∅) as -> by (by destruct (decide (Index.feed ∅ s = ∅))).
      split.
      * intros Hk. right. split; [done|]. by rewrite lookup_empty.
      * intros [[-> Hn]|[Hk _]]; [by rewrite lookup_empty in Hn|done].
Qed.

(** C3, as amended.  [packages_dict] keeps exactly the seven fields Package,
    Filename, Version, Priority, SHA256, Depends and Pre-Depends of each
    stanza.  A line is a field line exactly when it is one of these names, a
    colon, a space and a value.  The record of a stanza holds, for each of
    these names that a line of the stanza gives, the value of the last such
    line, and nothing else.  Every index text is a list of stanzas with blank
    lines between them, and the index returned for it holds under each
    package name exactly the record of the last stanza of that name, and
    holds nothing under any other name.  Lines of any other field,
    Multi-Arch and Architecture among them, leave no trace. *)
Theorem packages_dict_keeps_FIELDS :
  (∀ line key value,
     Index.FIELDS_MATCHER line = Some (key, value) ↔
     key ∈ ["Package"; "Filename"; "Version"; "Priority"; "SHA256"; "Depends"; "Pre-Depends"]
     ∧ Py.contains Py.newline value = false
     ∧ (line = key +:+ ": " +:+ value ∨ line = key +:+ ": " +:+ Py.line value))
  ∧ (∀ stanza key value,
       Index.feed ∅ stanza !! key = Some value ↔
       ∃ (pre : list string) line post, stanza = pre ++ line :: post
         ∧ Index.FIELDS_MATCHER line = Some (key, value)
         ∧ Forall (λ l, ∀ v, Index.FIELDS_MATCHER l ≠ Some (key, v)) post)
  ∧ (∀ lines, ∃ stanzas,
       Forall (Forall (λ l, l ≠ Index.blank)) stanzas ∧ lines = Index.lines_of stanzas)
  ∧ (∀ stanzas ret name pkg,
       Forall (Forall (λ l, l ≠ Index.blank)) stanzas →
       Index.packages_dict (Index.lines_of stanzas) = Py.Return ret →
       (ret !! name = Some pkg ↔
        ∃ (pre : list (list string)) stanza post, stanzas = pre ++ stanza :: post
          ∧ pkg = Index.feed ∅ stanza
          ∧ pkg !! "Package" = Some name
          ∧ Forall (λ s, Index.feed ∅ s !! "Package" ≠ Some name) post)).
Proof.
  split; [apply FIELDS_MATCHER_spec|]. split; [|split; [apply lines_of_any|]].
  - intros stanza key value. rewrite feed_lookup. split; [|by left].
    intros [H|[H _]]; [done|]. by rewrite lookup_empty in H.
  - intros stanzas ret name pkg Hs Hret. unfold Index.packages_dict in Hret.
    rewrite (packages_loop_stanzas _ _ _ name pkg Hs Hret). split; [|by left].
    intros [H|[H _]]; [done|]. by rewrite lookup_empty in H.
Qed.

Lemma packages_dict_keeps_FIELDS_witness :
  ∃ (pre : list (list string)) stanza post,
    [[Py.line "Description: a first stanza without a name"];
     [Py.line "Package: apt"; Py.line "Architecture: amd64"; Py.line "Version: 2.6.1"];
     [Py.line "Package: gpgv"; Py.line "Priority: important"];
     [Py.line "Package: apt"; Py.line "Multi-Arch: foreign"; Py.line "Version: 2.7.14"]]
    = pre ++ stanza :: post
    ∧ ({[ "Package" := "apt"; "Version" := "2.7.14" ]} : Index.package) = Index.feed ∅ stanza
    ∧ ({[ "Package" := "apt"; "Version" := "2.7.14" ]} : Index.package) !! "Package"
      = Some "apt"
    ∧ Forall (λ s, Index.feed ∅ s !! "Package" ≠ Some "apt") post.
Proof.
  apply (proj1 (proj2 (proj2 (proj2 packages_dict_keeps_FIELDS))
    [[Py.line "Description: a first stanza without a name"];
     [Py.line "Package: apt"; Py.line "Architecture: amd64"; Py.line "Version: 2.6.1"];
     [Py.line "Package: gpgv"; Py.line "Priority: important"];
     [Py.line "Package: apt"; Py.line "Multi-Arch: foreign"; Py.line "Version: 2.7.14"]]
    {[ "apt" := {[ "Package" := "apt"; "Version" := "2.7.14" ]};
       "gpgv" := {[ "Package" := "gpgv"; "Priority" := "important" ]} ]}
    "apt" {[ "Package" := "apt"; "Version" := "2.7.14" ]}
    ltac:(repeat constructor; discriminate)
    ltac:(vm_compute; reflexivity))).
  vm_compute. reflexivity.
Defined.

(** C3, counterexample.  The Architecture and Multi-Arch lines of the stanza
    leave no trace in the record: it holds Package and Version only. *)
Lemma architecture_and_multi_arch_dropped :
  Index.packages_dict apt_stanza
  = Py.Return {[ "apt" := {[ "Package" := "apt"; "Version" := "2.6.1" ]} ]}
  ∧ Index.FIELDS_MATCHER (Py.line "Architecture: amd64") = None
  ∧ Index.FIELDS_MATCHER (Py.line "Multi-Arch: foreign") = None.
Proof. vm_compute. auto. Qed.

End index.

(** ** HTTP fetcher *)
Section http.

Implicit Types (c : Http.client) (net : list Http.reply) (r : Http.response).








End http.

(** ** Disk cache *)
Section cache.

Variable format_date_time : Z → string.

(** On a 200 response that carries a [Date], [download_cached] returns the
    body and leaves the destination holding the body with the mtime parsed
    from [Date]. *)
Lemma download_cached_200 net c (d : Cache.disk) now netloc path r net' c' :
  Http.fetch_http 1 net c netloc path
    (match d !! Cache.destination netloc path with
     | Some f => [("If-Modified-Since", format_date_time (Cache.st_mtime f))]
     | None => []
     end) = Some (Py.Return r, net', c') →
  Http.status r = 200 →
  ∀ mtime, Http.date r = Some mtime →
  ∃ calls,
    Cache.download_cached format_date_time net c d netloc path
      = Some (Py.Return (Http.body r), calls, net', c')
    ∧ Cache.final now d calls !! Cache.destination netloc path
      = Some (Cache.mkFile (Http.body r) mtime).
Proof.
  intros Hf Hs mtime Hd. unfold Cache.download_cached. rewrite Hf.
  rewrite bool_decide_eq_false_2 by (rewrite Hs; done).
  rewrite bool_decide_eq_false_2 by (rewrite Hs; intros H; by apply H).
  rewrite Hd. eexists. split; [reflexivity|].
  unfold Cache.final. cbn [foldl Cache.apply app].
  rewrite lookup_insert_eq. cbn [Cache.data]. rewrite lookup_insert_eq.
  cbn [Cache.data]. by rewrite lookup_insert_eq.
Qed.

End cache.

(** C5, the code at a failing input.  A 200 response for a cached file:
    [download_cached] opens the destination itself for writing and writes
    the body there; it creates no temporary file and renames nothing.
    Between the two calls the destination is empty, which a reader of that
    path can see; the mtime is set from [Date] at the end. *)
Theorem download_cached_overwrites_in_place :
  ∃ calls,
    Cache.download_cached (λ _, "Thu, 01 Jan 1970 00:00:00 GMT")
      [Http.Response ok_200] Http.new_client stale_cache
      "deb.debian.org" "/debian/dists/stable/Release"
    = Some (Py.Return "Origin: Debian", calls, [],
            Http.send (Http.get_conn Http.new_client "deb.debian.org")
              (Http.mkRequest "deb.debian.org" "/debian/dists/stable/Release"
                 [("If-Modified-Since", "Thu, 01 Jan 1970 00:00:00 GMT")]))
    ∧ calls = [Cache.Mkdir_parents "debs/deb.debian.org/debian/dists/stable";
               Cache.Open_wb release_path;
               Cache.Write release_path "Origin: Debian";
               Cache.Utime release_path 1700000000]
    ∧ map (λ d : Cache.disk, d !! release_path) (Cache.observable 1700000123 stale_cache calls)
      = [Some (Cache.mkFile "Origin: Debian (old)" 1600000000);
         Some (Cache.mkFile "Origin: Debian (old)" 1600000000);
         Some (Cache.mkFile "" 1700000123);
         Some (Cache.mkFile "Origin: Debian" 1700000123);
         Some (Cache.mkFile "Origin: Debian" 1700000000)].
Proof.
  eexists. split; [vm_compute; reflexivity|]. split; [reflexivity|].
  vm_compute. reflexivity.
Qed.

(** ** Signature verifier *)
Section gpg.

Implicit Types (lines pre : list string) (ret A B : Gpg.acc).

(** On a [NEWSIG] line the parser stops exactly when the accumulator is
    good. *)
Lemma body_newsig ret line :
  Gpg.is_newsig line →
  Gpg.body ret line =
    if Gpg.good_to_return ret then Gpg.Stop (Py.Return (Some ret)) else Gpg.Continue ∅.
Proof.
  intros [Hp Hop]. unfold Gpg.body. rewrite Hp, Hop. cbn [negb].
  by rewrite bool_decide_eq_true_2.
Qed.
















Lemma gpg_verify_two_signatures :
  Gpg.gpg_verify two_signatures
  = Py.Return {[ "GOODSIG" := "0E98404D386FA1D9 Debian Archive Automatic Signing Key";
                 "VALIDSIG" := "1F89983E0081FDE018F3CC9673A4F27B8DD47936 2023-06-10" ]}
  ∧ Gpg.gpg_verify (drop 4 two_signatures)
    = Py.Raise (Py.RuntimeError "gpg validation failed")
  ∧ Gpg.gpg_verify [Py.line "[GNUPG:] GOODMDC"] = Py.Raise Py.ValueError.
Proof. vm_compute. auto. Qed.

End gpg.

(** ** Output filter *)
Section filter.

Variable decode : string → option Tar.TarInfo.
Variable tobuf : Tar.TarInfo → string.

Implicit Types (fs : Fs.files) (ti : Tar.TarInfo).

Lemma set_mtime_same ti : Tar.set_mtime (Tar.mtime ti) ti = ti.
Proof. by destruct ti. Qed.

(** [mutate_file] keeps every header but the two dropped names, and leaves
    it with the mtime the model stores for its name, or 0. *)
Lemma mutate_file_spec fs ti :
  Filter.mutate_file fs ti =
    if Filter.dropped (Tar.name ti) then (false, ti)
    else (true, Tar.set_mtime (Filter.stored_mtime fs (Tar.name ti)) ti).
Proof.
  unfold Filter.mutate_file, Filter.dropped, Filter.stored_mtime.
  case_bool_decide; [done|]. case_bool_decide; [done|]. simpl.
  destruct (fs !! Tar.name ti) as [[original fh]|]; [|done]. simpl.
  case_bool_decide as Hm; [done|].
  by rewrite Hm, set_mtime_same.
Qed.

Lemma copy_length_nonneg (n : Z) : 0 ≤ n → Filter.copy_length n = n.
Proof.
  intros Hn. unfold Filter.copy_length.
  pose proof (Z.div_pos n (16 * 1024) Hn ltac:(lia)) as Hd.
  rewrite Z.max_r by done. rewrite Z.mul_comm. symmetry. apply Z.div_mod. lia.
Qed.

Lemma copyfileobj_app (body rest : string) (n : Z) :
  Py.len body = n → Filter.copyfileobj (body +:+ rest) n = Some (body, rest).
Proof.
  intros Hn. unfold Filter.copyfileobj.
  assert (0 ≤ n) as Hpos by (unfold Py.len in Hn; lia).
  rewrite copy_length_nonneg by done.
  rewrite bool_decide_eq_true_2.
  - by rewrite read_app.
  - unfold Py.len in *. rewrite str_length_app. lia.
Qed.

Lemma len_nonempty (s : string) : Py.len s = 512 → Py.is_empty s = false.
Proof. by destruct s. Qed.

Lemma frombuf_header (e : Filter.entry) :
  Filter.well_formed decode e →
  Filter.frombuf decode (Filter.hdr e) = Filter.Header (Filter.info e).
Proof.
  intros (Hlen & Hz & Hd & _). unfold Filter.frombuf.
  rewrite (len_nonempty _ Hlen).
  rewrite bool_decide_eq_false_2 by (unfold Filter.BLOCKSIZE; lia).
  rewrite bool_decide_eq_false_2 by done. by rewrite Hd.
Qed.

Lemma frombuf_eof (b : string) :
  Filter.is_zero_block b → Filter.frombuf decode b = Filter.EOFHeaderError.
Proof.
  intros [Hlen Hz]. unfold Filter.frombuf. rewrite (len_nonempty _ Hlen).
  rewrite bool_decide_eq_false_2 by (unfold Filter.BLOCKSIZE; lia).
  by rewrite bool_decide_eq_true_2.
Qed.

Lemma filter_loop_entries fs (entries : list Filter.entry) (eof rest out : string) (fuel : nat) :
  Forall (Filter.well_formed decode) entries →
  Filter.is_zero_block eof →
  (length entries < fuel)%nat →
  Filter.filter_loop decode tobuf fuel fs
    (Py.concat (map Filter.wire entries) +:+ eof +:+ rest) out
  = Some (Py.Return (out +:+ Py.concat (map (Filter.emitted tobuf fs) entries))).
Proof.
  intros Hwf Heof. revert fuel out.
  induction Hwf as [|e entries He Hwf IH]; intros fuel out Hfuel;
    (destruct fuel as [|fuel]; [simpl in Hfuel; lia|]).
  - cbn [map Py.concat foldr Filter.filter_loop]. rewrite str_app_nil_l.
    rewrite (read_app _ eof rest) by apply Heof.
    rewrite (frombuf_eof _ Heof). by rewrite str_app_nil_r.
  - cbn [map Py.concat foldr Filter.filter_loop]. fold (Py.concat (map Filter.wire entries)).
    unfold Filter.wire at 1. rewrite !str_app_assoc.
    rewrite read_app by apply He. rewrite (frombuf_header _ He).
    rewrite mutate_file_spec.
    destruct He as (_ & _ & _ & Hbody).
    fold (Py.concat (map (Filter.emitted tobuf fs) entries)).
    destruct (Filter.dropped (Tar.name (Filter.info e))) eqn:Hd.
    + rewrite copyfileobj_app by done. rewrite IH by (simpl in Hfuel; lia).
      assert (Filter.emitted tobuf fs e = "") as -> by (unfold Filter.emitted; by rewrite Hd).
      by rewrite str_app_nil_l.
    + rewrite copyfileobj_app by done. rewrite IH by (simpl in Hfuel; lia).
      assert (Filter.emitted tobuf fs e
              = tobuf (Tar.set_mtime (Filter.stored_mtime fs (Tar.name (Filter.info e)))
                         (Filter.info e))
                +:+ Filter.body e) as -> by (unfold Filter.emitted; by rewrite Hd).
      by rewrite !str_app_assoc.
Qed.

Lemma wire_length (e : Filter.entry) :
  Filter.well_formed decode e → (1 ≤ String.length (Filter.wire e))%nat.
Proof.
  intros (Hlen & _). unfold Filter.wire. rewrite str_length_app. unfold Py.len in Hlen. lia.
Qed.

Lemma concat_wire_length (entries : list Filter.entry) :
  Forall (Filter.well_formed decode) entries →
  (length entries ≤ String.length (Py.concat (map Filter.wire entries)))%nat.
Proof.
  induction 1 as [|e entries He Hwf IH]; simpl; [done|].
  fold (Py.concat (map Filter.wire entries)). rewrite str_length_app.
  pose proof (wire_length e He). lia.
Qed.

(** The loop of [output_filter] stops within the fuel [output_filter] gives
    it: a turn that goes round again has read a full block. *)
Lemma filter_loop_total fs (fuel : nat) (in_fh out : string) :
  (String.length in_fh < fuel)%nat →
  is_Some (Filter.filter_loop decode tobuf fuel fs in_fh out).
Proof.
  revert in_fh out. induction fuel as [|fuel IH]; intros in_fh out Hlt; [lia|].
  cbn [Filter.filter_loop].
  destruct (Py.read Filter.BLOCKSIZE in_fh) as [buf in_fh1] eqn:Hbuf.
  apply read_length in Hbuf. unfold Filter.frombuf.
  destruct (Py.is_empty buf) eqn:He; [eauto|]. apply nonempty_length in He.
  case_bool_decide; [eauto|]. case_bool_decide; [eauto|].
  destruct (decode buf) as [ti|]; [|eauto].
  destruct (Filter.mutate_file fs ti) as [keep ti'].
  unfold Filter.copyfileobj. case_bool_decide; [|eauto].
  destruct (Py.read _ in_fh1) as [body in_fh2] eqn:Hbody. apply read_length in Hbody.
  apply IH. lia.
Qed.

Lemma output_filter_total fs (in_fh : string) :
  is_Some (Filter.output_filter decode tobuf fs in_fh).
Proof.
  unfold Filter.output_filter.
  destruct (filter_loop_total fs (S (String.length in_fh)) in_fh "") as [r Hr]; [lia|].
  rewrite Hr. destruct r; eauto.
Qed.

(** C8.  Every header the filter keeps (every name but [.dockerenv] and
    [etc/resolv.conf]) is written back with its mtime set to the mtime the
    model stores for that name, or to 0 when the model has no record of the
    name, and with every other field as it was read; over a whole stream
    the output is, member by member, that header followed by the member's
    body, then the synthesized [etc/resolv.conf] symlink and two zero
    blocks. *)
Theorem output_filter_forces_mtime :
  (∀ fs ti, Filter.dropped (Tar.name ti) = false →
     ∃ ti', Filter.mutate_file fs ti = (true, ti')
       ∧ Tar.mtime ti' = match fs !! Tar.name ti with
                         | Some (original, _) => Tar.mtime original
                         | None => 0
                         end
       ∧ Tar.name ti' = Tar.name ti ∧ Tar.mode ti' = Tar.mode ti
       ∧ Tar.uid ti' = Tar.uid ti ∧ Tar.gid ti' = Tar.gid ti
       ∧ Tar.size ti' = Tar.size ti ∧ Tar.type ti' = Tar.type ti
       ∧ Tar.linkname ti' = Tar.linkname ti
       ∧ Tar.uname ti' = Tar.uname ti ∧ Tar.gname ti' = Tar.gname ti
       ∧ Tar.devmajor ti' = Tar.devmajor ti ∧ Tar.devminor ti' = Tar.devminor ti
       ∧ Tar.pax_headers ti' = Tar.pax_headers ti)
  ∧ (∀ fs (entries : list Filter.entry) (eof rest : string),
       Forall (Filter.well_formed decode) entries →
       Filter.is_zero_block eof →
       Filter.output_filter decode tobuf fs (Py.concat (map Filter.wire entries) +:+ eof +:+ rest)
       = Some (Py.Return (Py.concat (map (Filter.emitted tobuf fs) entries)
                          +:+ tobuf Filter.resolv_conf
                          +:+ Py.repeat_char "000"%char 1024))).
Proof.
  split.
  - intros fs ti Hd. rewrite mutate_file_spec, Hd. eexists. split; [reflexivity|].
    unfold Filter.stored_mtime. simpl. repeat split.
  - intros fs entries eof rest Hwf Heof. unfold Filter.output_filter.
    rewrite (filter_loop_entries fs entries eof rest "") ; [done..|].
    pose proof (concat_wire_length entries Hwf). rewrite str_length_app. lia.
Qed.

End filter.

Lemma output_filter_forces_mtime_witness :
  Filter.output_filter toy_decode toy_tobuf tracked
    (Py.concat (map Filter.wire exported) +:+ padded "" +:+ "")
  = Some (Py.Return ("bin/ls:stored;etc/machine-id:epoch;etc/resolv.conf:epoch;"
                     +:+ Py.repeat_char "000"%char 1024)).
Proof.
  refine (proj2 (output_filter_forces_mtime toy_decode toy_tobuf) tracked exported
    (padded "") "" _ _).
  - repeat constructor; vm_compute; congruence.
  - split; vm_compute; reflexivity.
Defined.

(** ** Archive unpacker *)
Section unpack.

Variable tarfile_open : string → Py.result (list Unpack.member).

(** The loop of [unpack_ar] stops within the fuel [unpack_ar] gives it:
    every turn that goes round again has read a header. *)
Lemma unpack_loop_total (fuel : nat) (fh : string) prefix files out :
  (String.length fh < fuel)%nat →
  is_Some (Unpack.unpack_loop tarfile_open fuel fh prefix files out).
Proof.
  revert fh prefix files out. induction fuel as [|fuel IH]; intros fh prefix files out Hlt;
    [lia|]. cbn [Unpack.unpack_loop].
  destruct (Py.read 60 fh) as [header fh1] eqn:H1. apply read_length in H1.
  destruct (Py.is_empty header) eqn:He.
  { destruct prefix; eauto. }
  apply nonempty_length in He.
  destruct (Unpack.int10 _) as [size|e]; [|eauto].
  destruct (negb _); [eauto|].
  destruct (Py.read size fh1) as [file_contents fh2] eqn:H2. apply read_length in H2.
  destruct (Py.read (size `mod` 2) fh2) as [pad fh3] eqn:H3. apply read_length in H3.
  assert (String.length fh3 < fuel)%nat as Hlt' by lia.
  destruct (Py.startswith "data.tar" _).
  - destruct (tarfile_open file_contents) as [tf|e]; [|eauto].
    destruct (Unpack.data_members tf) as [[items lines] [e|]]; [eauto|].
    destruct (Py.startswith "control.tar" _); [|by apply IH].
    destruct (Unpack.handle_control_tar _ _) as [[prefix' dpkg_files]|e]; [by apply IH|eauto].
  - destruct (Py.startswith "control.tar" _); [|by apply IH].
    destruct (Unpack.handle_control_tar _ _) as [[prefix' dpkg_files]|e]; [by apply IH|eauto].
Qed.

Lemma unpack_ar_total (fh : string) : is_Some (Unpack.unpack_ar tarfile_open fh).
Proof.
  unfold Unpack.unpack_ar. destruct (Py.read 8 fh) as [magic fh1].
  destruct (negb _); [eauto|]. apply unpack_loop_total. lia.
Qed.

Lemma data_member_name (m item : Unpack.member) (line : string) :
  Unpack.data_member m = Py.Return (item, line) →
  Tar.name (fst item) = Py.lstrip "./" (Tar.name (fst m))
  ∧ line = Unpack.transform_name (Py.lstrip "./" (Tar.name (fst m))).
Proof.
  destruct m as [mem extracted]. unfold Unpack.data_member.
  destruct (Tar.isreg mem); [destruct extracted; [|done]|]; by intros [= <- <-].
Qed.

(** When the loop over a data archive runs to its end, it yields every
    member under its name less the leading dots and slashes, and appends one
    manifest line per member, in order. *)
Lemma data_members_names (tf : list Unpack.member) items lines :
  Unpack.data_members tf = (items, lines, None) →
  map (λ m, Tar.name (fst m)) items = map (λ m, Py.lstrip "./" (Tar.name (fst m))) tf
  ∧ lines = map (λ m, Unpack.transform_name (Py.lstrip "./" (Tar.name (fst m)))) tf.
Proof.
  revert items lines. induction tf as [|m tf IH]; intros items lines;
    cbn [Unpack.data_members map].
  - by intros [= <- <-].
  - destruct (Unpack.data_member m) as [[item line]|e] eqn:Hm; [|done].
    destruct (Unpack.data_members tf) as [[items' lines'] e'].
    intros [= <- <- ->]. destruct (IH _ _ eq_refl) as [IH1 IH2].
    destruct (data_member_name _ _ _ Hm) as [Hn Hl].
    cbn [map]. by rewrite Hn, Hl, IH1, <- IH2.
Qed.

(** What [lstrip("./")] removes is every leading dot and slash, so a name
    loses exactly its [./] prefix only when nothing of the kind follows. *)
Lemma lstrip_dot_slash_exact (c : ascii) (s : string) :
  c ≠ "."%char → c ≠ "/"%char →
  Py.lstrip "./" ("./" +:+ String c s) = String c s.
Proof.
  intros Hd Hs. change (Py.lstrip "./" (String c s) = String c s). simpl.
  destruct (decide (c = "."%char)); [done|]. by destruct (decide (c = "/"%char)).
Qed.

Lemma lstrip_dot_slash_more (s : string) :
  Py.lstrip "./" ("./" +:+ s) = Py.lstrip "./" s.
Proof. reflexivity. Qed.

End unpack.

(** C7, the code at a failing input.  The data entry [./.hidden] is yielded
    under the name [hidden] and listed as [/hidden]: [lstrip("./")] took
    the dot of the file name along with the [./] prefix.  The entry
    [./usr/bin/hello] loses the prefix only, the root comes out empty and
    is listed as [/.], and the list file follows the data entries. *)
Theorem unpack_ar_strips_leading_dots :
  Unpack.unpack_ar hello_tarfile_open hello_deb
  = Some {|
      Unpack.yielded :=
        [(Tar.set_size (Py.len (hello_control +:+ Py.line "Status: install ok unpacked"))
            (Tar.new "var/lib/dpkg/info/hello.control"),
          Some (hello_control +:+ Py.line "Status: install ok unpacked"));
         (Tar.set_type Tar.DIRTYPE (Tar.new ""), None);
         (Tar.set_size 3 (Tar.new "hidden"), Some "dot");
         (Tar.set_size 3 (Tar.set_mode 493 (Tar.new "usr/bin/hello")), Some "ELF");
         (Tar.set_size 26 (Tar.new "var/lib/dpkg/info/hello.list"),
          Some (Py.line "/." +:+ Py.line "/hidden" +:+ Py.line "/usr/bin/hello"))];
      Unpack.raised := None |}.
Proof. vm_compute. reflexivity. Qed.

(** * Further properties *)

#[local] Set Warnings "-clear-no-such-hyp".

(** ** Virtual filesystem model: invariants of [add] *)
Section filesystem_invariants.

Implicit Types (fs : Fs.files) (ti existing : Tar.TarInfo) (fh fileobj : option string).

(** What [add] leaves behind, whether it returns or raises. *)
Lemma add_outcome fuel fs ti fileobj fs' r :
  Fs.add fuel fs ti fileobj = Some (fs', r) →
  ∃ n, Fs._build_path fuel fs (Tar.name ti) = Some n ∧
    ((∃ existing fh, fs !! n = Some (existing, fh) ∧
        fs' = <[n := (Tar.set_mtime (Z.max (Tar.mtime existing) (Tar.mtime ti)) existing, fh)]> fs)
     ∨ (fs !! n = None ∧ fs' = fs)
     ∨ (fs !! n = None ∧ n ≠ "" ∧ r = Fs.Returned ∧
        fs' = <[n := (Tar.set_owner_names "" "" (Tar.set_name n ti), fileobj)]> fs)).
Proof.
  unfold Fs.add. destruct (Fs._build_path fuel fs (Tar.name ti)) as [n|]; [|done].
  intros H. exists n. split; [done|].
  destruct (fs !! n) as [[existing fh]|] eqn:Hl.
  - left. exists existing, fh. split; [done|].
    case_bool_decide; by simplify_eq.
  - right. destruct (Py.is_empty n) eqn:He; simplify_eq; [by left|].
    right. repeat split; try done. intros ->. done.
Qed.

Lemma add_entries_named fuel fs ti fileobj fs' r :
  Fs.entries_named fs → Fs.add fuel fs ti fileobj = Some (fs', r) → Fs.entries_named fs'.
Proof.
  intros [Hempty Hall] Hadd.
  destruct (add_outcome _ _ _ _ _ _ Hadd) as (n & _ & Hcases).
  destruct Hcases as [(existing & fh & Hl & ->)|[[Hl ->]|(Hl & Hne & _ & ->)]]; [|done|].
  - split.
    + rewrite lookup_insert_ne; [done|]. intros ->. congruence.
    + intros m info fh'. destruct (decide (n = m)) as [<-|Hnm].
      * rewrite lookup_insert_eq. intros [= <- <-]. apply (Hall _ _ _ Hl).
      * rewrite lookup_insert_ne by done. apply Hall.
  - split.
    + by rewrite lookup_insert_ne.
    + intros m info fh'. destruct (decide (n = m)) as [<-|Hnm].
      * rewrite lookup_insert_eq. by intros [= <- <-].
      * rewrite lookup_insert_ne by done. apply Hall.
Qed.

(** X1.  In every state reached by calls that returned, each stored entry is named
    by the key it is stored under and has empty [uname] and [gname], and the
    empty name is not stored. *)
Theorem reachable_entries_named fs : Fs.reachable fs → Fs.entries_named fs.
Proof.
  induction 1 as [|fs fs' fuel o _ IH Hrun].
  - split; [done|]. intros n info fh. by rewrite lookup_empty.
  - destruct (run_is_add fuel fs o) as (ti & fileobj & Heq). rewrite Heq in Hrun.
    by apply (add_entries_named fuel fs ti fileobj fs' Fs.Returned).
Qed.

Lemma reachable_entries_named_witness : Fs.entries_named self_link.
Proof. exact (reachable_entries_named self_link self_link_reachable). Defined.

(** X2.  An [add], returning or raising, removes no entry and changes none except
    in its mtime, which it never lowers; file objects stay as stored. *)
Theorem add_keeps_entries fuel fs ti fileobj fs' r :
  Fs.add fuel fs ti fileobj = Some (fs', r) → Fs.kept fs fs'.
Proof.
  intros Hadd m info fh' Hm.
  assert (fs !! m = Some (Tar.set_mtime (Tar.mtime info) info, fh')) as Hsame.
  { by rewrite set_mtime_same. }
  destruct (add_outcome _ _ _ _ _ _ Hadd) as (n & _ & Hcases).
  destruct Hcases as [(existing & fh & Hl & ->)|[[Hl ->]|(Hl & Hne & _ & ->)]].
  - destruct (decide (n = m)) as [<-|Hnm].
    + rewrite Hl in Hm. injection Hm as <- <-.
      exists (Z.max (Tar.mtime existing) (Tar.mtime ti)). split; [lia|].
      by rewrite lookup_insert_eq.
    + exists (Tar.mtime info). split; [lia|]. by rewrite lookup_insert_ne.
  - exists (Tar.mtime info). split; [lia|done].
  - exists (Tar.mtime info). split; [lia|]. rewrite lookup_insert_ne; [done|]. congruence.
Qed.

Lemma add_keeps_entries_witness : Fs.kept seeded_2 seeded_3.
Proof.
  apply (add_keeps_entries 1 seeded_2 (Tar.set_mode 493 (Tar.set_size 3 (Tar.new "bin/ls")))
           (Some "ELF") seeded_3 Fs.Returned).
  vm_compute. reflexivity.
Defined.

End filesystem_invariants.

Section filesystem_links.

Implicit Types (fs : Fs.files) (ti existing : Tar.TarInfo) (fh fileobj : option string).

(** The name [resolve] returns is not redirected any further. *)
Lemma resolve_result_not_link fuel fs name r :
  Fs.resolve fuel fs name = Some r → Fs.link_target fs r = None.
Proof.
  revert name. induction fuel as [|fuel IH]; intros name; rewrite resolve_unfold;
    destruct (Fs.link_target fs name) as [target|] eqn:Ht; intros Hr; try discriminate.
  - by injection Hr as <-.
  - by apply (IH target).
  - by injection Hr as <-.
Qed.

Lemma build_path_loop_result_not_link fuel fs ret components r :
  components ≠ [] →
  Fs.build_path_loop fuel fs ret components = Some r → Fs.link_target fs r = None.
Proof.
  revert ret. induction components as [|c components IH]; intros ret Hne; [done|]. simpl.
  destruct (Fs.resolve fuel fs (PosixPath.join ret c)) as [ret'|] eqn:Hr; [|done].
  destruct components as [|c' components].
  - simpl. intros [= <-]. by apply resolve_result_not_link in Hr.
  - by apply IH.
Qed.

Lemma build_path_result_not_link fuel fs name n :
  Fs._build_path fuel fs name = Some n → Fs.link_target fs n = None.
Proof. apply build_path_loop_result_not_link, split_nonempty. Qed.

Lemma not_link_not_symlink fs name : Fs.link_target fs name = None → ¬ Fs.is_symlink fs name.
Proof. intros Hn Hs. apply link_target_is_symlink in Hs as [t Ht]. congruence. Qed.

(** X3.  The names [resolve] and [_build_path] return are no symlinks of the
    model, and [resolve] maps each of them to itself, whatever the fuel:
    resolving twice is resolving once. *)
Theorem resolve_idempotent :
  (∀ fuel fs name r, Fs.resolve fuel fs name = Some r →
     ¬ Fs.is_symlink fs r ∧ ∀ fuel', Fs.resolve fuel' fs r = Some r)
  ∧ (∀ fuel fs name n, Fs._build_path fuel fs name = Some n →
     ¬ Fs.is_symlink fs n ∧ ∀ fuel', Fs.resolve fuel' fs n = Some n).
Proof.
  split; intros fuel fs name r Hr.
  - apply resolve_result_not_link in Hr. split; [by apply not_link_not_symlink|].
    intros fuel'. by rewrite resolve_unfold, Hr.
  - apply build_path_result_not_link in Hr. split; [by apply not_link_not_symlink|].
    intros fuel'. by rewrite resolve_unfold, Hr.
Qed.

(** X4.  An [add], returning or raising, leaves every stored symlink exactly as it
    is: a symlink entry is never merged into, not even in its mtime. *)
Theorem add_leaves_symlinks fuel fs ti fileobj fs' r P :
  Fs.add fuel fs ti fileobj = Some (fs', r) → Fs.is_symlink fs P → fs' !! P = fs !! P.
Proof.
  intros Hadd HP.
  destruct (add_outcome _ _ _ _ _ _ Hadd) as (n & Hn & Hcases).
  apply build_path_result_not_link, not_link_not_symlink in Hn.
  assert (n ≠ P) as Hne by (by intros ->).
  destruct Hcases as [(existing & fh & Hl & ->)|[[Hl ->]|(Hl & _ & _ & ->)]];
    [|done|]; by rewrite lookup_insert_ne.
Qed.

Lemma add_leaves_symlinks_witness : seeded_3 !! "bin" = seeded_2 !! "bin".
Proof.
  apply (add_leaves_symlinks 1 seeded_2 (Tar.set_mode 493 (Tar.set_size 3 (Tar.new "bin/ls")))
           (Some "ELF") seeded_3 Fs.Returned "bin").
  - vm_compute. reflexivity.
  - eexists _, _. split; vm_compute; reflexivity.
Defined.

(** *** Redirection through a stored link *)

Lemma split_component (c : string) :
  Py.contains Py.slash c = false → Py.split Py.slash c = [c].
Proof.
  induction c as [|d c IH]; [done|]. simpl.
  destruct (decide (Py.slash = d)) as [<-|Hd]; [done|]. intros Hc.
  destruct (decide (d = Py.slash)) as [->|_]; [done|]. by rewrite (IH Hc).
Qed.

Lemma split_two (a b : string) :
  Py.contains Py.slash a = false →
  Py.split Py.slash (a +:+ "/" +:+ b) = a :: Py.split Py.slash b.
Proof.
  induction a as [|d a IH].
  - intros _. rewrite str_app_nil_l, str_app_cons, str_app_nil_l. simpl.
    unfold Py.slash at 1. by destruct (decide ("/"%char = Py.slash)).
  - intros Ha. cbn [Py.contains] in Ha.
    destruct (decide (Py.slash = d)) as [<-|Hd]; [done|].
    rewrite str_app_cons. cbn [Py.split].
    destruct (decide (d = Py.slash)) as [->|_]; [done|]. by rewrite (IH Ha).
Qed.

(** X5.  An entry named [L/x], where the single component [L] is a stored symlink
    whose target [t] and the name [join(t, x)] are no symlinks, is given the
    canonical name [join(t, x)]: as [bin/ls] becomes [usr/bin/ls] under the
    pre-seeded link [bin -> usr/bin]. *)
Theorem build_path_follows_link fuel fs L x t :
  Py.contains Py.slash L = false →
  Py.contains Py.slash x = false →
  Fs.link_target fs L = Some t →
  Fs.link_target fs t = None →
  Fs.link_target fs (PosixPath.join t x) = None →
  Fs._build_path (S fuel) fs (L +:+ "/" +:+ x) = Some (PosixPath.join t x).
Proof.
  intros HL Hx Ht Hnt Hntx. unfold Fs._build_path.
  rewrite (split_two _ _ HL), (split_component _ Hx).
  cbn [Fs.build_path_loop].
  assert (PosixPath.join "" L = L) as ->.
  { unfold PosixPath.join. destruct (Py.startswith "/" L) eqn:Hs; [done|]. done. }
  rewrite (resolve_unfold (S fuel) fs L), Ht, (resolve_unfold fuel fs t), Hnt.
  by rewrite (resolve_unfold (S fuel) fs (PosixPath.join t x)), Hntx.
Qed.

Lemma build_path_follows_link_witness :
  Fs._build_path 1 seeded_2 ("bin" +:+ "/" +:+ "ls") = Some (PosixPath.join "usr/bin" "ls").
Proof.
  apply (build_path_follows_link 0 seeded_2 "bin" "ls" "usr/bin"); reflexivity.
Defined.

(** X6.  Adding a symlink under a single-component name [L] that is already a
    stored symlink does not merge with it: the name is resolved through the
    stored link first, and when the link's target [t] is stored as anything
    but a symlink the call raises [RuntimeError(t)].  So a package that ships
    the link [bin -> usr/bin] itself collides with the pre-seeded
    directory [usr/bin]. *)
Theorem add_symlink_again_collides fuel fs ti fileobj L t existing fh :
  Tar.name ti = L →
  Py.contains Py.slash L = false →
  Tar.issym ti = true →
  Fs.link_target fs L = Some t →
  fs !! t = Some (existing, fh) →
  Tar.issym existing = false →
  ∃ fs', Fs.add (S fuel) fs ti fileobj = Some (fs', Py.Raise (Py.RuntimeError t)).
Proof.
  intros Hname HL Hsym Ht Hl Hns.
  assert (Fs.link_target fs t = None) as Hnt.
  { unfold Fs.link_target. by rewrite Hl, Hns. }
  assert (Fs._build_path (S fuel) fs (Tar.name ti) = Some t) as Hn.
  { rewrite Hname. unfold Fs._build_path. rewrite (split_component _ HL).
    cbn [Fs.build_path_loop].
    assert (PosixPath.join "" L = L) as ->.
    { unfold PosixPath.join. by destruct (Py.startswith "/" L). }
    by rewrite (resolve_unfold (S fuel) fs L), Ht, (resolve_unfold fuel fs t), Hnt. }
  rewrite (add_unfold _ _ _ _ _ Hn), Hl. cbv zeta.
  rewrite bool_decide_eq_false_2; [eauto|].
  unfold Fs.extract_useful. simpl. intros Heq.
  unfold Tar.issym in Hsym, Hns.
  apply bool_decide_eq_true in Hsym. apply bool_decide_eq_false in Hns.
  apply Hns. rewrite <- Hsym. congruence.
Qed.

Lemma add_symlink_again_collides_witness :
  ∃ fs', Fs.add 1 seeded_2 (Tar.set_linkname "usr/bin" (Tar.set_type Tar.SYMTYPE (Tar.new "bin")))
           None = Some (fs', Py.Raise (Py.RuntimeError "usr/bin")).
Proof.
  apply (add_symlink_again_collides 0 seeded_2 _ None "bin" "usr/bin"
           (Tar.set_mode 493 (Tar.set_type Tar.DIRTYPE (Tar.new "usr/bin"))) None);
    reflexivity.
Defined.

End filesystem_links.

Section filesystem_again.

Implicit Types (fs : Fs.files) (ti existing : Tar.TarInfo) (fh fileobj : option string).

(** *** Adding the same entry again *)

(** Models with the same redirections resolve names alike. *)
Lemma resolve_ext fuel fs fs' name :
  (∀ x, Fs.link_target fs' x = Fs.link_target fs x) →
  Fs.resolve fuel fs' name = Fs.resolve fuel fs name.
Proof.
  intros Hext. revert name. induction fuel as [|fuel IH]; intros name;
    rewrite (resolve_unfold _ fs'), (resolve_unfold _ fs), Hext;
    destruct (Fs.link_target fs name); try done.
Qed.

Lemma build_path_ext fuel fs fs' name :
  (∀ x, Fs.link_target fs' x = Fs.link_target fs x) →
  Fs._build_path fuel fs' name = Fs._build_path fuel fs name.
Proof.
  intros Hext. unfold Fs._build_path. generalize "" as ret.
  induction (Py.split Py.slash name) as [|c components IH]; intros ret; simpl; [done|].
  rewrite (resolve_ext _ _ _ _ Hext).
  by destruct (Fs.resolve fuel fs (PosixPath.join ret c)).
Qed.

(** Storing an entry that is no symlink under a name that is no symlink
    changes no redirection. *)
Lemma link_target_insert fs n info fh x :
  Tar.issym info = false → Fs.link_target fs n = None →
  Fs.link_target (<[n := (info, fh)]> fs) x = Fs.link_target fs x.
Proof.
  intros Hs Hn. unfold Fs.link_target at 1. destruct (decide (n = x)) as [<-|Hne].
  - by rewrite lookup_insert_eq, Hs.
  - by rewrite lookup_insert_ne.
Qed.

Lemma link_target_none_issym fs n existing fh :
  fs !! n = Some (existing, fh) → Fs.link_target fs n = None → Tar.issym existing = false.
Proof. unfold Fs.link_target. intros ->. by destruct (Tar.issym existing). Qed.

(** X7.  [add] is idempotent on entries that are no symlinks: once an [add] of
    such an entry has returned, adding an entry with the same attributes
    again (with whatever file object) returns and leaves the model as it
    is. *)
Theorem add_again_changes_nothing fuel fs ti fileobj fileobj' fs' :
  Tar.issym ti = false →
  Fs.add fuel fs ti fileobj = Some (fs', Fs.Returned) →
  Fs.add fuel fs' ti fileobj' = Some (fs', Fs.Returned).
Proof.
  intros Hs Hadd.
  destruct (Fs._build_path fuel fs (Tar.name ti)) as [n|] eqn:Hn;
    [|by unfold Fs.add in Hadd; rewrite Hn in Hadd].
  pose proof (build_path_result_not_link _ _ _ _ Hn) as Hnl.
  rewrite (add_unfold _ _ _ _ _ Hn) in Hadd. cbv zeta in Hadd.
  destruct (fs !! n) as [[existing fh]|] eqn:Hl.
  - case_bool_decide as Hu; [|done]. injection Hadd as <-.
    assert (Fs._build_path fuel
              (<[n := (Tar.set_mtime (Z.max (Tar.mtime existing) (Tar.mtime ti)) existing, fh)]> fs)
              (Tar.name ti) = Some n) as Hn'.
    { rewrite <- Hn. apply build_path_ext. intros x. apply link_target_insert; [|done].
      apply (link_target_none_issym _ _ _ _ Hl Hnl). }
    rewrite (add_unfold _ _ _ _ _ Hn'), lookup_insert_eq. cbv zeta.
    rewrite extract_useful_set_mtime in Hu |- *.
    rewrite extract_useful_set_mtime, bool_decide_eq_true_2 by done.
    rewrite insert_insert_eq. do 3 f_equal.
    unfold Tar.set_mtime. simpl. by rewrite <- Z.max_assoc, Z.max_id.
  - destruct (Py.is_empty n) eqn:He.
    + injection Hadd as <-. by rewrite (add_unfold _ _ _ _ _ Hn), Hl, He.
    + injection Hadd as <-.
      assert (Fs._build_path fuel
                (<[n := (Tar.set_owner_names "" "" (Tar.set_name n ti), fileobj)]> fs)
                (Tar.name ti) = Some n) as Hn'.
      { rewrite <- Hn. apply build_path_ext. intros x. by apply link_target_insert. }
      rewrite (add_unfold _ _ _ _ _ Hn'), lookup_insert_eq. cbv zeta.
      rewrite extract_useful_set_mtime, bool_decide_eq_true_2 by done.
      rewrite insert_insert_eq. do 3 f_equal.
      unfold Tar.set_mtime, Tar.set_owner_names, Tar.set_name. simpl. by rewrite Z.max_id.
Qed.

Lemma add_again_changes_nothing_witness :
  Fs.add 1 seeded_3 (Tar.set_mode 493 (Tar.set_size 3 (Tar.new "bin/ls"))) None
  = Some (seeded_3, Fs.Returned).
Proof.
  apply (add_again_changes_nothing 1 seeded_2 _ (Some "ELF") None seeded_3);
    vm_compute; reflexivity.
Defined.

End filesystem_again.

(** ** Package index parser: how the index is keyed *)
Section index_keys.

Implicit Types (ret : Index.index) (pkg : Index.package).

Lemma store_keyed ret pkg ret' :
  (∀ name p, ret !! name = Some p → p !! "Package" = Some name) →
  Index.store ret pkg = Py.Return ret' →
  ∀ name p, ret' !! name = Some p → p !! "Package" = Some name.
Proof.
  intros Hret. unfold Index.store. destruct (pkg !! "Package") as [n|] eqn:Hn; [|done].
  intros [= <-] name p. destruct (decide (n = name)) as [<-|Hne].
  - rewrite lookup_insert_eq. by intros [= <-].
  - rewrite lookup_insert_ne by done. apply Hret.
Qed.

Lemma store_raises ret pkg e :
  Index.store ret pkg = Py.Raise e → e = Py.KeyError "Package".
Proof. unfold Index.store. destruct (pkg !! "Package"); [done|]. by intros [= <-]. Qed.

Lemma packages_loop_keyed lines : ∀ ret pkg,
  (∀ name p, ret !! name = Some p → p !! "Package" = Some name) →
  (∀ ret', Index.packages_loop ret pkg lines = Py.Return ret' →
     ∀ name p, ret' !! name = Some p → p !! "Package" = Some name)
  ∧ (∀ e, Index.packages_loop ret pkg lines = Py.Raise e → e = Py.KeyError "Package").
Proof.
  induction lines as [|line lines IH]; intros ret pkg Hret; cbn [Index.packages_loop].
  - case_bool_decide.
    + split; [intros ret'; by apply store_keyed | apply store_raises].
    + split; [by intros ret' [= <-] | done].
  - unfold Index.loop_body.
    destruct (bool_decide (line = Index.blank) && bool_decide (pkg ≠ ∅)).
    + destruct (Index.store ret pkg) as [ret1|e] eqn:Hstore.
      * pose proof (store_keyed _ _ _ Hret Hstore) as Hret1.
        destruct (Index.FIELDS_MATCHER line) as [[key value]|]; by apply IH.
      * apply store_raises in Hstore as ->. split; [done|]. by intros e [= <-].
    + destruct (Index.FIELDS_MATCHER line) as [[key value]|]; by apply IH.
Qed.

(** X8.  Every record of the index [packages_dict] returns is stored under the
    value of its own [Package] field (so no record is empty, and a stanza
    without that field is never stored); and the only exception
    [packages_dict] raises is [KeyError('Package')]. *)
Theorem packages_dict_keyed_by_package (packages : list string) :
  (∀ ret, Index.packages_dict packages = Py.Return ret →
     ∀ name pkg, ret !! name = Some pkg → pkg !! "Package" = Some name)
  ∧ (∀ e, Index.packages_dict packages = Py.Raise e → e = Py.KeyError "Package").
Proof. apply packages_loop_keyed. intros name p. by rewrite lookup_empty. Qed.

End index_keys.

(** ** Dependency fields *)






















(** ** Dependency resolver *)
Section resolver.

Implicit Types (info : Index.index) (st : Resolver.state) (R U : gset string).

(** What the inner loop leaves in [unprocessed]. *)
Lemma elem_of_add_deps R U deps x :
  x ∈ Resolver.add_deps R U deps ↔ x ∈ U ∨ (x ∈ deps ∧ x ∉ R).
Proof.
  unfold Resolver.add_deps. revert U. induction deps as [|d deps IH]; intros U; simpl.
  - rewrite elem_of_nil. tauto.
  - rewrite IH, elem_of_cons. repeat case_bool_decide; set_solver.
Qed.

Variable pop : Resolver.state → string.
Hypothesis pop_in : ∀ st, Resolver.unprocessed st ≠ ∅ → pop st ∈ Resolver.unprocessed st.

(** *** Termination *)

Lemma loop_S fuel info st :
  Resolver.unprocessed st ≠ ∅ →
  Resolver.loop pop (S fuel) info st
  = match Resolver.body pop info st with
    | Resolver.Raised e => Some (Resolver.Raised e)
    | Resolver.Returned st' => Resolver.loop pop fuel info st'
    end.
Proof. intros Hne. simpl. by rewrite bool_decide_eq_false_2. Qed.

Lemma body_unfold info st :
  Resolver.body pop info st
  = match info !! pop st with
    | None => Resolver.Returned
                (Resolver.mkState (Resolver.required st) (Resolver.unprocessed st ∖ {[pop st]}))
    | Some rec =>
        match Resolver.get_dependencies rec with
        | Resolver.Raised e => Resolver.Raised e
        | Resolver.Returned deps =>
            Resolver.Returned
              (Resolver.mkState ({[pop st]} ∪ Resolver.required st)
                 (Resolver.add_deps ({[pop st]} ∪ Resolver.required st)
                    (Resolver.unprocessed st ∖ {[pop st]}) deps))
        end
    end.
Proof. reflexivity. Qed.

Lemma loop_terminates info n : ∀ m st,
  Resolver.required st ## Resolver.unprocessed st →
  (size (dom info ∖ Resolver.required st) ≤ n)%nat →
  (size (Resolver.unprocessed st) ≤ m)%nat →
  ∃ fuel r, Resolver.loop pop fuel info st = Some r.
Proof.
  induction n as [n IHn] using lt_wf_ind.
  induction m as [m IHm] using lt_wf_ind. intros [R U] Hdisj Hn Hm. simpl in *.
  destruct (decide (U = ∅)) as [->|Hne].
  { exists O. eexists. simpl. by rewrite bool_decide_eq_true_2. }
  pose proof (pop_in (Resolver.mkState R U) Hne) as Hpop. simpl in Hpop.
  set (name := pop (Resolver.mkState R U)) in *.
  assert (∀ fuel, Resolver.loop pop (S fuel) info (Resolver.mkState R U)
            = match Resolver.body pop info (Resolver.mkState R U) with
              | Resolver.Raised e => Some (Resolver.Raised e)
              | Resolver.Returned st' => Resolver.loop pop fuel info st'
              end) as Hstep by (intros fuel; by apply loop_S).
  rewrite body_unfold in Hstep. fold name in Hstep. cbn [Resolver.required Resolver.unprocessed] in Hstep.
  destruct (info !! name) as [rec|] eqn:Hrec.
  - destruct (Resolver.get_dependencies rec) as [deps|e] eqn:Hdeps.
    + destruct (IHn (size (dom info ∖ ({[name]} ∪ R)))) with
        (m := size (Resolver.add_deps ({[name]} ∪ R) (U ∖ {[name]}) deps))
        (st := Resolver.mkState ({[name]} ∪ R) (Resolver.add_deps ({[name]} ∪ R) (U ∖ {[name]}) deps))
        as (fuel & r & Hr); simpl; try done.
      * eapply Nat.lt_le_trans; [|exact Hn]. apply subset_size.
        assert (name ∈ dom info) by (apply elem_of_dom; eauto).
        assert (name ∉ R) by set_solver. set_solver.
      * intros x Hx1 Hx2. apply elem_of_add_deps in Hx2. set_solver.
      * exists (S fuel), r. by rewrite Hstep.
    + exists 1%nat. eexists. by rewrite Hstep.
  - destruct (IHm (size (U ∖ {[name]}))) with (st := Resolver.mkState R (U ∖ {[name]}))
      as (fuel & r & Hr); simpl; try done.
    + eapply Nat.lt_le_trans; [|exact Hm]. apply subset_size. set_solver.
    + set_solver.
    + exists (S fuel), r. by rewrite Hstep.
Qed.

End resolver.

Lemma needed_step (info : Index.index) seeds a b :
  Resolver.needed info seeds a → Resolver.depends_on info a b → Resolver.needed info seeds b.
Proof.
  intros (s & Hs & Hk & Hrtc) Hab. exists s. split; [done|]. split; [done|].
  by eapply rtc_r.
Qed.

Lemma initial_invariant (info : Index.index) seeds :
  Resolver.invariant info seeds (Resolver.mkState ∅ seeds).
Proof.
  split; [|split; [|split]]; simpl.
  - set_solver.
  - intros u Hu Hk. exists u. split; [done|]. split; [done|]. constructor.
  - auto.
  - set_solver.
Qed.

Lemma initial_seeds (info : Index.index) seeds :
  Resolver.initial info = Resolver.Returned seeds →
  ∀ s, s ∈ seeds ↔ Resolver.is_seed info s.
Proof.
  unfold Resolver.initial. case_bool_decide; [|done]. intros Heq s. injection Heq as <-.
  unfold Resolver.is_seed. rewrite elem_of_union, elem_of_dom.
  assert (∀ l : list string, s ∈ (list_to_set l : gset string) ↔ s ∈ l) as Hl
    by (intros l; apply elem_of_list_to_set).
  apply Morphisms_Prop.or_iff_morphism;
    [|exact (Hl ["apt"; "gpgv"; "systemd"; "linux-image-virtual"; "udev"])]. split.
  - intros [rec [Hrec Hp]%map_lookup_filter_Some]. eauto.
  - intros (rec & Hrec & Hp). exists rec. by apply map_lookup_filter_Some.
Qed.

Lemma records_spec (info : Index.index) names ret :
  Resolver.records info names = Resolver.Returned ret →
  Forall2 (λ name rec, info !! name = Some rec) names ret.
Proof.
  revert ret. induction names as [|name names IH]; intros ret; simpl.
  - intros [= <-]. constructor.
  - destruct (info !! name) as [rec|] eqn:Hrec; [|done].
    destruct (Resolver.records info names) as [ret'|e]; [|done].
    intros [= <-]. constructor; auto.
Qed.

Section resolver_closure.

Implicit Types (info : Index.index) (st : Resolver.state) (R U : gset string).

Variable pop : Resolver.state → string.
Hypothesis pop_in : ∀ st, Resolver.unprocessed st ≠ ∅ → pop st ∈ Resolver.unprocessed st.


Lemma body_invariant info seeds st st' :
  Resolver.unprocessed st ≠ ∅ →
  Resolver.invariant info seeds st →
  Resolver.body pop info st = Resolver.Returned st' →
  Resolver.invariant info seeds st'.
Proof.
  intros Hne (I1 & I2 & I3 & I4). rewrite body_unfold.
  pose proof (pop_in st Hne) as Hpop. set (name := pop st) in *.
  destruct (info !! name) as [rec|] eqn:Hrec.
  - destruct (Resolver.get_dependencies rec) as [deps|e] eqn:Hdeps; [|done].
    intros [= <-]. unfold Resolver.invariant. simpl.
    assert (Resolver.needed info seeds name) as Hname by (apply I2; eauto).
    split; [|split; [|split]].
    + intros x [->%elem_of_singleton|Hx]%elem_of_union; auto.
    + intros u [Hu|[Hu Hnew]]%elem_of_add_deps Hk.
      * apply I2; [|done]. set_solver.
      * apply (needed_step _ _ name); [done|]. by exists rec, deps.
    + intros s Hs Hk. destruct (decide (s = name)) as [->|Hsn].
      * left. set_solver.
      * destruct (I3 s Hs Hk) as [HR|HU]; [left; set_solver|].
        right. apply elem_of_add_deps. left. set_solver.
    + intros a b Ha Hab.
      destruct (decide (b ∈ ({[name]} ∪ Resolver.required st : gset string))) as [Hb|Hb];
        [by left|]. right. apply elem_of_add_deps.
      apply elem_of_union in Ha as [->%elem_of_singleton|Ha].
      * right. split; [|done]. destruct Hab as (rec' & deps' & Hrec' & Hdeps' & Hin & _).
        rewrite Hrec in Hrec'. injection Hrec' as <-. rewrite Hdeps in Hdeps'.
        by injection Hdeps' as <-.
      * left. destruct (I4 a b Ha Hab) as [HR|HU]; set_solver.
  - intros [= <-]. unfold Resolver.invariant. simpl.
    split; [done|]. split; [|split].
    + intros u Hu. apply I2. set_solver.
    + intros s Hs Hk. destruct (I3 s Hs Hk) as [HR|HU]; [by left|].
      right. apply elem_of_difference. split; [done|].
      intros ->%elem_of_singleton. rewrite Hrec in Hk. by destruct Hk.
    + intros a b Ha Hab. destruct (I4 a b Ha Hab) as [HR|HU]; [by left|].
      right. apply elem_of_difference. split; [done|].
      intros ->%elem_of_singleton. destruct Hab as (_ & _ & _ & _ & _ & Hk).
      rewrite Hrec in Hk. by destruct Hk.
Qed.

Lemma loop_invariant info seeds fuel : ∀ st required,
  Resolver.invariant info seeds st →
  Resolver.loop pop fuel info st = Some (Resolver.Returned required) →
  ∀ x, x ∈ required ↔ Resolver.needed info seeds x.
Proof.
  induction fuel as [|fuel IH]; intros st required Hinv.
  - simpl. case_bool_decide as Hu; [|done]. intros [= <-] x.
    destruct Hinv as (I1 & I2 & I3 & I4). split; [apply I1|].
    intros (s & Hs & Hk & Hrtc).
    assert (s ∈ Resolver.required st) as Hsr.
    { destruct (I3 s Hs Hk) as [|HU]; [done|]. rewrite Hu in HU. set_solver. }
    clear Hs Hk. induction Hrtc as [|a b c Hab _ IHr]; [done|].
    apply IHr. destruct (I4 a b Hsr Hab) as [|HU]; [done|]. rewrite Hu in HU. set_solver.
  - destruct (decide (Resolver.unprocessed st = ∅)) as [Hu|Hu].
    + simpl. rewrite bool_decide_eq_true_2 by done. intros [= <-] x.
      destruct Hinv as (I1 & I2 & I3 & I4). split; [apply I1|].
      intros (s & Hs & Hk & Hrtc).
      assert (s ∈ Resolver.required st) as Hsr.
      { destruct (I3 s Hs Hk) as [|HU]; [done|]. rewrite Hu in HU. set_solver. }
      clear Hs Hk. induction Hrtc as [|a b c Hab _ IHr]; [done|].
      apply IHr. destruct (I4 a b Hsr Hab) as [|HU]; [done|]. rewrite Hu in HU. set_solver.
    + rewrite loop_S by done.
      destruct (Resolver.body pop info st) as [st'|e] eqn:Hbody; [|done].
      apply IH. by apply (body_invariant info seeds st st').
Qed.




End resolver_closure.

Lemma pop_first_in (st : Resolver.state) :
  Resolver.unprocessed st ≠ ∅ → Resolver.pop_first st ∈ Resolver.unprocessed st.
Proof.
  intros Hne. unfold Resolver.pop_first.
  destruct (elements (Resolver.unprocessed st)) as [|x l] eqn:Hel.
  - by apply elements_empty_inv, leibniz_equiv in Hel.
  - simpl. apply elem_of_elements. rewrite Hel. apply list_elem_of_here.
Qed.

(** X11.  Whatever element [pop] hands out, the loop of [get_needed_packages]
    comes to an end: the call returns or raises. *)
Theorem get_needed_packages_terminates
    (pop : Resolver.state → string) (shuffle : list Index.package → list Index.package)
    (packages_info : Index.index) :
  (∀ st, Resolver.unprocessed st ≠ ∅ → pop st ∈ Resolver.unprocessed st) →
  ∃ fuel r, Resolver.get_needed_packages pop shuffle fuel packages_info = Some r.
Proof.
  intros pop_in. unfold Resolver.get_needed_packages.
  destruct (Resolver.initial packages_info) as [seeds|e]; [|by exists O; eauto].
  destruct (loop_terminates pop pop_in packages_info
              (size (dom packages_info ∖ (∅ : gset string))) (size seeds)
              (Resolver.mkState ∅ seeds)) as (fuel & r & Hr); simpl; [set_solver|done..|].
  exists fuel. rewrite Hr. destruct r as [required|e]; [|eauto].
  destruct (Resolver.records packages_info (elements required)); eauto.
Qed.

Lemma get_needed_packages_terminates_witness :
  ∃ fuel r, Resolver.get_needed_packages Resolver.pop_first (λ l, l) fuel toy_index = Some r.
Proof. exact (get_needed_packages_terminates _ _ toy_index pop_first_in). Defined.

(** X12.  Whatever element [pop] hands out and however the result is shuffled,
    what [get_needed_packages] returns is the records of exactly the packages
    of the index that a chain of first-named dependencies links to a seed
    (a package of priority [required], or one of [apt], [gpgv], [systemd],
    [linux-image-virtual], [udev]), each once. *)
Theorem get_needed_packages_closure
    (pop : Resolver.state → string) (shuffle : list Index.package → list Index.package)
    (fuel : nat) (packages_info : Index.index) (ret : list Index.package) :
  (∀ st, Resolver.unprocessed st ≠ ∅ → pop st ∈ Resolver.unprocessed st) →
  (∀ l, shuffle l ≡ₚ l) →
  Resolver.get_needed_packages pop shuffle fuel packages_info = Some (Resolver.Returned ret) →
  ∃ seeds names ret',
    (∀ s, s ∈ seeds ↔ Resolver.is_seed packages_info s)
    ∧ NoDup names
    ∧ (∀ x, x ∈ names ↔ Resolver.needed packages_info seeds x)
    ∧ Forall2 (λ name info, packages_info !! name = Some info) names ret'
    ∧ ret ≡ₚ ret'.
Proof.
  intros pop_in shuffle_perm. unfold Resolver.get_needed_packages.
  destruct (Resolver.initial packages_info) as [seeds|e] eqn:Hinit; [|done].
  destruct (Resolver.loop pop fuel packages_info (Resolver.mkState ∅ seeds))
    as [[required|e]|] eqn:Hloop; [|done..].
  destruct (Resolver.records packages_info (elements required)) as [ret'|e] eqn:Hrec; [|done].
  intros [= <-]. exists seeds, (elements required), ret'.
  split; [by apply initial_seeds|]. split; [apply NoDup_elements|].
  split; [|split; [by apply records_spec | apply shuffle_perm]].
  intros x. rewrite elem_of_elements.
  apply (loop_invariant pop pop_in packages_info seeds fuel (Resolver.mkState ∅ seeds));
    [apply initial_invariant | done].
Qed.

Lemma get_needed_packages_closure_witness :
  ∃ seeds names ret',
    (∀ s, s ∈ seeds ↔ Resolver.is_seed toy_index s)
    ∧ NoDup names
    ∧ (∀ x, x ∈ names ↔ Resolver.needed toy_index seeds x)
    ∧ Forall2 (λ name info, toy_index !! name = Some info) names ret'
    ∧ toy_needed ≡ₚ ret'.
Proof.
  apply (get_needed_packages_closure Resolver.pop_first (λ l, l) 16 toy_index toy_needed
           pop_first_in); [done|]. vm_compute. reflexivity.
Defined.

(** ** Release manifest *)
















(** ** Checked downloads *)
Section fetcher.

Variable format_date_time : Z → string.
Variable sha256 : string → string.
Variable gpgv : string → string → string → list string.
Variable now : Z.

(** A response that is no redirect is returned as it comes. *)
Lemma fetch_http_direct n r rest c netloc path headers :
  Http.status r ≠ 302 →
  Http.fetch_http n (Http.Response r :: rest) c netloc path headers
  = Some (Py.Return r, rest,
          Http.send (Http.get_conn c netloc) (Http.mkRequest netloc path headers)).
Proof.
  intros Hs. destruct n; cbn [Http.fetch_http Http.fetch_loop];
    by rewrite bool_decide_eq_false_2.
Qed.

(** The only exception [fetch_http] raises itself is the [TypeError] of a
    redirect without a target. *)
Lemma fetch_http_raises n : ∀ net c netloc path headers e net' c',
  Http.fetch_http n net c netloc path headers = Some (Py.Raise e, net', c') →
  e = Py.TypeError.
Proof.
  induction n as [|n IH]; intros net c netloc path headers e net' c';
    cbn [Http.fetch_http];
    destruct (Http.fetch_loop net c netloc path headers) as [[[r net1] c1]|]; try done.
  - by case_bool_decide.
  - case_bool_decide; [|done]. destruct (Http.location r) as [[netloc' path']|].
    + apply IH.
    + by intros [= <-].
Qed.

Lemma download_cached_no_KeyError net c (d : Cache.disk) netloc path k calls net' c' :
  Cache.download_cached format_date_time net c d netloc path
  ≠ Some (Py.Raise (Py.KeyError k), calls, net', c').
Proof.
  unfold Cache.download_cached.
  destruct (Http.fetch_http 1 net c netloc path _) as [[[[r|e] net1] c1]|] eqn:Hf; [| |done].
  - repeat case_bool_decide; repeat case_match; congruence.
  - apply fetch_http_raises in Hf as ->. congruence.
Qed.

Lemma repo_fetch_returned sums netloc dist_path w path contents w' :
  Release.repo_fetch format_date_time sha256 now sums netloc dist_path w path
  = Some (Release.Returned contents, w') →
  sums !! path = Some (sha256 contents).
Proof.
  unfold Release.repo_fetch. destruct (sums !! path) as [expected|]; [|done].
  destruct (Release.download _ _ _ _ _) as [[[contents'|e] w1]|]; [|done..].
  case_bool_decide as Hne; [done|]. intros [= <- <-]. congruence.
Qed.

Lemma repo_fetch_KeyError sums netloc dist_path w path k w' :
  Release.repo_fetch format_date_time sha256 now sums netloc dist_path w path
  = Some (Release.Raised (Release.Other (Py.KeyError k)), w') →
  sums !! path = None ∧ w' = w.
Proof.
  unfold Release.repo_fetch. destruct (sums !! path) as [expected|]; [|by intros [= <- <-]].
  unfold Release.download.
  destruct (Cache.download_cached _ _ _ _ _ _) as [[[[[contents|e] calls] net1] c1]|] eqn:Hd;
    [| |done].
  - by case_bool_decide.
  - intros [= -> <-]. by apply download_cached_no_KeyError in Hd.
Qed.

Lemma prefs_loop_returned sums netloc dist_path architecture prefs : ∀ w pref contents w',
  Release.prefs_loop format_date_time sha256 now sums netloc dist_path architecture w prefs
  = Some (Release.Returned (Some (pref, contents)), w') →
  ∃ before after, prefs = before ++ pref :: after
    ∧ sums !! ("main/binary-" +:+ architecture +:+ "/Packages" +:+ pref)
      = Some (sha256 contents)
    ∧ Forall (λ p, sums !! ("main/binary-" +:+ architecture +:+ "/Packages" +:+ p) = None)
        before.
Proof.
  induction prefs as [|p prefs IH]; intros w pref contents w'; cbn [Release.prefs_loop]; [done|].
  destruct (Release.repo_fetch _ _ _ _ _ _ _ _) as [[[contents'|e] w1]|] eqn:Hfetch; [| |done].
  - intros [= <- <- <-]. exists [], prefs. split; [done|]. split; [|constructor].
    by apply repo_fetch_returned in Hfetch.
  - destruct e as [expected actual|e]; [done|]. destruct e; try done.
    apply repo_fetch_KeyError in Hfetch as [Hnone ->].
    intros (before & after & -> & Hsum & Hbefore)%IH.
    exists (p :: before), after. split; [done|]. split; [done|]. by constructor.
Qed.

End fetcher.

(** X14.  Whenever [_get_packages] returns an index file, the [Release] file it
    downloaded passed [gpg_verify] against the downloaded [Release.gpg], the
    file returned is [Packages] with one of the suffixes of
    [PACKAGES_PREFERENCE], its SHA-256 digest is the one the [Release] file
    lists for it, and the [Release] file lists no [Packages] file with a
    suffix that comes earlier in the preference. *)
Theorem get_packages_is_verified
    (format_date_time : Z → string) (sha256 : string → string)
    (gpgv : string → string → string → list string) (now : Z)
    (architecture keyring netloc archive_path suite : string) (w w' : Release.world)
    (pref contents : string) :
  Release._get_packages format_date_time sha256 gpgv now
    architecture keyring netloc archive_path suite w
  = Some (Release.Returned (Some (pref, contents)), w') →
  let dist_path := archive_path +:+ "dists/" +:+ suite +:+ "/" in
  let packages p := "main/binary-" +:+ architecture +:+ "/Packages" +:+ p in
  ∃ release w1 release_gpg w2 sig_info sha256sums before after,
    Release.download format_date_time now w netloc (dist_path +:+ "Release")
      = Some (Py.Return release, w1)
    ∧ Release.download format_date_time now w1 netloc (dist_path +:+ "Release.gpg")
      = Some (Py.Return release_gpg, w2)
    ∧ Gpg.gpg_verify (gpgv keyring release_gpg release) = Py.Return sig_info
    ∧ Release.get_sha256sums release = Py.Return sha256sums
    ∧ Release.PACKAGES_PREFERENCE = before ++ pref :: after
    ∧ sha256sums !! packages pref = Some (sha256 contents)
    ∧ Forall (λ p, sha256sums !! packages p = None) before.
Proof.
  intros Hget dist_path packages. unfold Release._get_packages in Hget. fold dist_path in Hget.
  unfold Release.get_release_fetcher in Hget.
  destruct (Release.download format_date_time now w netloc (dist_path +:+ "Release"))
    as [[[release|e] w1]|] eqn:H1; [|done..].
  destruct (Release.download format_date_time now w1 netloc (dist_path +:+ "Release.gpg"))
    as [[[release_gpg|e] w2]|] eqn:H2; [|done..].
  destruct (Gpg.gpg_verify (gpgv keyring release_gpg release)) as [sig_info|e] eqn:Hgpg; [|done].
  destruct (Release.get_sha256sums release) as [sha256sums|e] eqn:Hsums; [|done].
  apply prefs_loop_returned in Hget as (before & after & Hpref & Hsum & Hbefore).
  exists release, w1, release_gpg, w2, sig_info, sha256sums, before, after. done.
Qed.

Lemma get_packages_is_verified_witness :
  ∃ release w1 release_gpg w2 sig_info sha256sums before after,
    Release.download (λ _, "Thu, 01 Jan 1970 00:00:00 GMT") 1700000123 toy_world
      "deb.debian.org" (("/debian/" +:+ "dists/" +:+ "stable" +:+ "/") +:+ "Release")
      = Some (Py.Return release, w1)
    ∧ Release.download (λ _, "Thu, 01 Jan 1970 00:00:00 GMT") 1700000123 w1
        "deb.debian.org" (("/debian/" +:+ "dists/" +:+ "stable" +:+ "/") +:+ "Release.gpg")
      = Some (Py.Return release_gpg, w2)
    ∧ Gpg.gpg_verify (toy_gpgv "debian-archive-keyring" release_gpg release) = Py.Return sig_info
    ∧ Release.get_sha256sums release = Py.Return sha256sums
    ∧ Release.PACKAGES_PREFERENCE = before ++ ".gz" :: after
    ∧ sha256sums !! ("main/binary-" +:+ "amd64" +:+ "/Packages" +:+ ".gz")
      = Some (toy_sha256 "PKG")
    ∧ Forall (λ p, sha256sums !! ("main/binary-" +:+ "amd64" +:+ "/Packages" +:+ p) = None)
        before.
Proof.
  apply (get_packages_is_verified (λ _, "Thu, 01 Jan 1970 00:00:00 GMT") toy_sha256 toy_gpgv
           1700000123 "amd64" "debian-archive-keyring" "deb.debian.org" "/debian/" "stable"
           toy_world toy_world_after ".gz" "PKG").
  vm_compute. reflexivity.
Defined.

Section cached_before_check.

Variable format_date_time : Z → string.
Variable sha256 : string → string.
Variable now : Z.

Lemma download_200 r rest c (d : Cache.disk) netloc path mtime :
  Http.status r = 200 → Http.date r = Some mtime →
  ∃ w', Release.download format_date_time now (Release.mkWorld (Http.Response r :: rest) c d)
          netloc path = Some (Py.Return (Http.body r), w')
    ∧ Release.net w' = rest
    ∧ Release.disk w' !! Cache.destination netloc path = Some (Cache.mkFile (Http.body r) mtime).
Proof.
  intros Hs Hd. unfold Release.download. cbn [Release.net Release.client Release.disk].
  destruct (download_cached_200 format_date_time (Http.Response r :: rest) c d now netloc path r
              rest (Http.send (Http.get_conn c netloc) (Http.mkRequest netloc path
                 match d !! Cache.destination netloc path with
                 | Some f => [("If-Modified-Since", format_date_time (Cache.st_mtime f))]
                 | None => []
                 end))) with (mtime := mtime) as (calls & -> & Hfinal); try done.
  - apply fetch_http_direct. by rewrite Hs.
  - eexists. split; [reflexivity|]. done.
Qed.

Lemma download_304 r rest c (d : Cache.disk) netloc path f :
  Http.status r = 304 → d !! Cache.destination netloc path = Some f →
  ∃ c', Release.download format_date_time now (Release.mkWorld (Http.Response r :: rest) c d)
          netloc path = Some (Py.Return (Cache.data f), Release.mkWorld rest c' d).
Proof.
  intros Hs Hf. unfold Release.download, Cache.download_cached.
  cbn [Release.net Release.client Release.disk]. rewrite Hf.
  rewrite fetch_http_direct by (by rewrite Hs).
  rewrite bool_decide_eq_true_2 by done. eauto.
Qed.

(** X15.  A download whose digest is not the one the manifest lists is rejected
    only after it was stored: on a 200 response [repo_fetch] raises
    [RuntimeError(expected, actual)] and leaves the cache holding the rejected
    bytes under the response's date; and when the server then answers 304 to
    the revalidation, the next [repo_fetch] takes those bytes from the cache
    and raises the same error again. *)
Theorem repo_fetch_caches_before_check
    (sha256sums : gmap string string) (netloc dist_path path expected : string)
    (r : Http.response) (mtime : Z) (rest : list Http.reply) (c : Http.client) (d : Cache.disk) :
  sha256sums !! path = Some expected →
  Http.status r = 200 → Http.date r = Some mtime →
  expected ≠ sha256 (Http.body r) →
  ∃ w', Release.repo_fetch format_date_time sha256 now sha256sums netloc dist_path
          (Release.mkWorld (Http.Response r :: rest) c d) path
        = Some (Release.Raised (Release.Mismatch expected (sha256 (Http.body r))), w')
    ∧ Release.disk w' !! Cache.destination netloc (dist_path +:+ path)
      = Some (Cache.mkFile (Http.body r) mtime)
    ∧ ∀ r' rest' c', Http.status r' = 304 →
        ∃ w'', Release.repo_fetch format_date_time sha256 now sha256sums netloc dist_path
                 (Release.mkWorld (Http.Response r' :: rest') c' (Release.disk w')) path
               = Some (Release.Raised (Release.Mismatch expected (sha256 (Http.body r))), w'')
          ∧ Release.disk w'' = Release.disk w'.
Proof.
  intros Hsum Hs Hd Hne.
  destruct (download_200 r rest c d netloc (dist_path +:+ path) mtime Hs Hd)
    as (w' & Hdl & _ & Hdisk).
  exists w'. unfold Release.repo_fetch. rewrite Hsum, Hdl.
  rewrite bool_decide_eq_true_2 by done. split; [done|]. split; [done|].
  intros r' rest' c' Hs'.
  destruct (download_304 r' rest' c' (Release.disk w') netloc (dist_path +:+ path) _ Hs' Hdisk)
    as (c'' & ->). cbn [Cache.data]. rewrite bool_decide_eq_true_2 by done. eauto.
Qed.

End cached_before_check.

Lemma repo_fetch_caches_before_check_witness :
  ∃ w', Release.repo_fetch (λ _, "Thu, 01 Jan 1970 00:00:00 GMT") toy_sha256 1700000123
          {[ "main/binary-amd64/Packages.gz" := "sha256:PKG" ]} "deb.debian.org"
          "/debian/dists/stable/"
          (Release.mkWorld [reply_200 "PKX"] Http.new_client ∅) "main/binary-amd64/Packages.gz"
        = Some (Release.Raised (Release.Mismatch "sha256:PKG" (toy_sha256 "PKX")), w')
    ∧ Release.disk w' !! Cache.destination "deb.debian.org"
                           ("/debian/dists/stable/" +:+ "main/binary-amd64/Packages.gz")
      = Some (Cache.mkFile "PKX" 1700000000)
    ∧ ∀ r' rest' c', Http.status r' = 304 →
        ∃ w'', Release.repo_fetch (λ _, "Thu, 01 Jan 1970 00:00:00 GMT") toy_sha256 1700000123
                 {[ "main/binary-amd64/Packages.gz" := "sha256:PKG" ]} "deb.debian.org"
                 "/debian/dists/stable/"
                 (Release.mkWorld (Http.Response r' :: rest') c' (Release.disk w'))
                 "main/binary-amd64/Packages.gz"
               = Some (Release.Raised (Release.Mismatch "sha256:PKG" (toy_sha256 "PKX")), w'')
          ∧ Release.disk w'' = Release.disk w'.
Proof.
  apply (repo_fetch_caches_before_check (λ _, "Thu, 01 Jan 1970 00:00:00 GMT") toy_sha256
           1700000123 {[ "main/binary-amd64/Packages.gz" := "sha256:PKG" ]} "deb.debian.org"
           "/debian/dists/stable/" "main/binary-amd64/Packages.gz" "sha256:PKG"
           (Http.mkResponse 200 None (Some 1700000000) "PKX") 1700000000 [] Http.new_client ∅);
    [reflexivity | reflexivity | reflexivity | discriminate].
Defined.

(** ** HTTP fetcher: what a fetch sends *)
Section http_requests.

Implicit Types (c : Http.client) (net : list Http.reply) (r : Http.response).

Lemma requests_send_get_conn c netloc rq :
  Http.requests (Http.send (Http.get_conn c netloc) rq) = Http.requests c ++ [rq].
Proof. unfold Http.get_conn. by case_bool_decide. Qed.

(** A turn of the loop of [fetch_http] consumes replies up to the first
    response and sends one request, to the host asked for and with the
    caller's headers, for each. *)
Lemma fetch_loop_log net : ∀ c netloc path headers r net' c',
  Http.fetch_loop net c netloc path headers = Some (r, net', c') →
  ∃ k, net = replicate k Http.RemoteDisconnected ++ Http.Response r :: net'
    ∧ Http.requests c'
      = Http.requests c ++ replicate (S k) (Http.mkRequest netloc path headers).
Proof.
  induction net as [|rep net IH]; intros c netloc path headers r net' c'; [done|].
  cbn [Http.fetch_loop]. destruct rep as [|r0].
  - intros (k & -> & ->)%IH. exists (S k). split; [done|].
    rewrite requests_send_get_conn, <- List.app_assoc. done.
  - intros [= <- <- <-]. exists O. split; [done|]. apply requests_send_get_conn.
Qed.

Lemma filter_disconnects (k : nat) :
  filter (λ rep, HttpLog.is_response rep = true) (replicate k Http.RemoteDisconnected) = [].
Proof. induction k as [|k IH]; [done|]. exact IH. Qed.

(** The log of a fetch that ends with the first response. *)
Lemma log_first_response k r net1 c c1 netloc path headers n :
  Http.requests c1
  = Http.requests c ++ replicate (S k) (Http.mkRequest netloc path headers) →
  ∃ consumed sent,
    replicate k Http.RemoteDisconnected ++ Http.Response r :: net1 = consumed ++ net1
    ∧ Http.requests c1 = Http.requests c ++ sent
    ∧ length sent = length consumed
    ∧ Forall (λ rq, Http.req_headers rq = headers) sent
    ∧ head sent = Some (Http.mkRequest netloc path headers)
    ∧ (1 ≤ length (filter (λ rep, HttpLog.is_response rep = true) consumed) ≤ S n)%nat.
Proof.
  intros Hreq.
  exists (replicate k Http.RemoteDisconnected ++ [Http.Response r]),
    (replicate (S k) (Http.mkRequest netloc path headers)).
  split; [by rewrite <- List.app_assoc|]. split; [done|].
  split; [by rewrite length_app, !length_replicate, Nat.add_1_r|].
  split; [by apply Forall_replicate|]. split; [done|].
  rewrite filter_app, filter_disconnects. simpl. lia.
Qed.

(** Every request of a fetch carries the caller's headers, the first goes
    to the host and path asked for, one request is sent for each reply
    consumed, and at most [follow_redirects + 1] responses are consumed. *)
Lemma fetch_http_log n : ∀ net c netloc path headers res net' c',
  Http.fetch_http n net c netloc path headers = Some (res, net', c') →
  ∃ consumed sent,
    net = consumed ++ net'
    ∧ Http.requests c' = Http.requests c ++ sent
    ∧ length sent = length consumed
    ∧ Forall (λ rq, Http.req_headers rq = headers) sent
    ∧ head sent = Some (Http.mkRequest netloc path headers)
    ∧ (1 ≤ length (filter (λ rep, HttpLog.is_response rep = true) consumed) ≤ S n)%nat.
Proof.
  induction n as [|n IH]; intros net c netloc path headers res net' c';
    cbn [Http.fetch_http];
    destruct (Http.fetch_loop net c netloc path headers) as [[[r net1] c1]|] eqn:Hloop;
    try done; apply fetch_loop_log in Hloop as (k & -> & Hreq).
  - case_bool_decide; intros [= <- <- <-]; by apply log_first_response.
  - case_bool_decide as H302; [|intros [= <- <- <-]; by apply log_first_response].
    destruct (Http.location r) as [[netloc' path']|];
      [|intros [= <- <- <-]; by apply log_first_response].
    intros (consumed & sent & -> & Hreq' & Hlen & Hall & Hhead & Hresp)%IH.
    exists (replicate k Http.RemoteDisconnected ++ Http.Response r :: consumed),
      (replicate (S k) (Http.mkRequest netloc path headers) ++ sent).
    split; [by rewrite <- List.app_assoc|].
    split; [by rewrite Hreq', Hreq, <- List.app_assoc|].
    split; [rewrite !length_app, !length_replicate; simpl; lia|].
    split; [apply Forall_app; split; [by apply Forall_replicate|done]|].
    split; [done|].
    rewrite filter_app, length_app, filter_disconnects.
    rewrite filter_cons_True by done. simpl. lia.
Qed.

End http_requests.

(** X16.  Every request of a [fetch_http] call, also the one to the target of a
    redirect and the ones repeated after a disconnect, carries the headers
    the caller passed; the first goes to the host and path asked for; one
    request is sent for each reply consumed; and at least one and at most
    [follow_redirects + 1] responses are consumed. *)
Theorem fetch_http_request_log (follow_redirects : nat) (net net' : list Http.reply)
    (c c' : Http.client) (netloc path : string) (headers : list (string * string))
    (res : Py.result Http.response) :
  Http.fetch_http follow_redirects net c netloc path headers = Some (res, net', c') →
  ∃ consumed sent,
    net = consumed ++ net'
    ∧ Http.requests c' = Http.requests c ++ sent
    ∧ length sent = length consumed
    ∧ Forall (λ rq, Http.req_headers rq = headers) sent
    ∧ head sent = Some (Http.mkRequest netloc path headers)
    ∧ (1 ≤ length (filter (λ rep, HttpLog.is_response rep = true) consumed)
         ≤ S follow_redirects)%nat.
Proof. apply fetch_http_log. Qed.

Lemma fetch_http_request_log_witness :
  ∃ consumed sent,
    [Http.RemoteDisconnected; Http.Response (Http.mkResponse 302 (Some ("cdn.debian.org", "/r")) None "");
     Http.Response ok_200; Http.Response ok_200] = consumed ++ [Http.Response ok_200]
    ∧ Http.requests
        (Http.send (Http.get_conn
           (Http.send (Http.get_conn
              (Http.send (Http.get_conn Http.new_client "deb.debian.org")
                 (Http.mkRequest "deb.debian.org" "/r" [("If-Modified-Since", "x")]))
              "deb.debian.org") (Http.mkRequest "deb.debian.org" "/r" [("If-Modified-Since", "x")]))
           "cdn.debian.org") (Http.mkRequest "cdn.debian.org" "/r" [("If-Modified-Since", "x")]))
      = Http.requests Http.new_client ++ sent
    ∧ length sent = length consumed
    ∧ Forall (λ rq, Http.req_headers rq = [("If-Modified-Since", "x")]) sent
    ∧ head sent = Some (Http.mkRequest "deb.debian.org" "/r" [("If-Modified-Since", "x")])
    ∧ (1 ≤ length (filter (λ rep, HttpLog.is_response rep = true) consumed) ≤ 2)%nat.
Proof.
  apply (fetch_http_request_log 1 _ _ Http.new_client _ "deb.debian.org" "/r"
           [("If-Modified-Since", "x")] (Py.Return ok_200)).
  vm_compute. reflexivity.
Defined.

(** ** One connection per host *)

Lemma get_conn_one_connection (c : Http.client) (netloc : string) :
  HttpLog.one_connection_per_host c → HttpLog.one_connection_per_host (Http.get_conn c netloc).
Proof.
  intros [Hnd Hiff]. unfold Http.get_conn. case_bool_decide as Hin; [done|].
  split; simpl.
  - apply NoDup_app. split; [done|]. split; [|apply NoDup_singleton].
    intros x Hx ->%list_elem_of_singleton. apply Hin. by apply Hiff.
  - intros host. rewrite elem_of_union, elem_of_singleton, elem_of_app, list_elem_of_singleton.
    rewrite Hiff. tauto.
Qed.

Lemma fetch_loop_one_connection net : ∀ c netloc path headers r net' c',
  HttpLog.one_connection_per_host c →
  Http.fetch_loop net c netloc path headers = Some (r, net', c') →
  HttpLog.one_connection_per_host c'.
Proof.
  induction net as [|rep net IH]; intros c netloc path headers r net' c' Hc; [done|].
  cbn [Http.fetch_loop].
  assert (HttpLog.one_connection_per_host
            (Http.send (Http.get_conn c netloc) (Http.mkRequest netloc path headers))) as Hc1
    by (by apply (get_conn_one_connection c netloc)).
  destruct rep as [|r0]; [by apply IH|]. by intros [= <- <- <-].
Qed.

(** [fetch_http] builds at most one [HTTPConnection] for a host, however
    many requests, retries and redirects go to it: if the connection objects
    built before a call are those of [conns], one for each host, the same
    holds after it, and it holds of a thread's first call. *)
Theorem fetch_http_one_connection_per_host :
  HttpLog.one_connection_per_host Http.new_client
  ∧ ∀ follow_redirects net c netloc path headers res net' c',
      HttpLog.one_connection_per_host c →
      Http.fetch_http follow_redirects net c netloc path headers = Some (res, net', c') →
      HttpLog.one_connection_per_host c'.
Proof.
  split.
  - split; [constructor|]. intros host. simpl. rewrite elem_of_empty, elem_of_nil. tauto.
  - induction follow_redirects as [|n IH]; intros net c netloc path headers res net' c' Hc;
      cbn [Http.fetch_http];
      destruct (Http.fetch_loop net c netloc path headers) as [[[r net1] c1]|] eqn:Hloop;
      try done; apply fetch_loop_one_connection in Hloop; try done.
    + by case_bool_decide; intros [= <- <- <-].
    + case_bool_decide; [|by intros [= <- <- <-]].
      destruct (Http.location r) as [[netloc' path']|]; [by apply IH|by intros [= <- <- <-]].
Qed.

(** ** Disk cache: what a download leaves behind *)
Section cache_more.

Variable format_date_time : Z → string.

Implicit Types (c : Http.client) (net : list Http.reply) (d : Cache.disk).

(** The cases of [download_cached], by the response [fetch_http] hands it. *)
Lemma download_cached_cases net c d netloc path res calls net' c' :
  Cache.download_cached format_date_time net c d netloc path = Some (res, calls, net', c') →
  let dest := Cache.destination netloc path in
  let headers :=
    match d !! dest with
    | Some f => [("If-Modified-Since", format_date_time (Cache.st_mtime f))]
    | None => []
    end in
  ∃ fetched, Http.fetch_http 1 net c netloc path headers = Some (fetched, net', c')
    ∧ ((fetched = Py.Raise Py.TypeError ∧ res = Py.Raise Py.TypeError ∧ calls = [])
       ∨ ∃ r, fetched = Py.Return r
           ∧ ((Http.status r = 304 ∧ calls = []
               ∧ ((∃ f, d !! dest = Some f ∧ res = Py.Return (Cache.data f))
                  ∨ (d !! dest = None ∧ res = Py.Raise Py.OSError)))
              ∨ (Http.status r ≠ 304 ∧ Http.status r ≠ 200 ∧ calls = []
                 ∧ res = Py.Raise (Py.HTTPStatus (Http.status r)))
              ∨ (Http.status r = 200
                 ∧ ((∃ mtime, Http.date r = Some mtime ∧ res = Py.Return (Http.body r)
                       ∧ calls = [Cache.Mkdir_parents (PosixPath.dirname dest);
                                  Cache.Open_wb dest; Cache.Write dest (Http.body r);
                                  Cache.Utime dest mtime])
                    ∨ (Http.date r = None ∧ res = Py.Raise Py.TypeError
                       ∧ calls = [Cache.Mkdir_parents (PosixPath.dirname dest);
                                  Cache.Open_wb dest; Cache.Write dest (Http.body r)]))))).
Proof.
  intros Hdl dest headers. unfold Cache.download_cached in Hdl. fold dest headers in Hdl.
  destruct (Http.fetch_http 1 net c netloc path headers) as [[[[r|e] net1] c1]|] eqn:Hf;
    [| |done].
  - case_bool_decide as H304.
    + destruct (d !! dest) as [f|] eqn:Hd; injection Hdl as <- <- <- <-;
        eexists; (split; [reflexivity|]); right; exists r; (split; [done|]); left; eauto 10.
    + case_bool_decide as H200.
      * injection Hdl as <- <- <- <-. eexists. split; [reflexivity|]. right. exists r.
        split; [done|]. right. left. done.
      * destruct (Http.date r) as [mtime|] eqn:Hdate; injection Hdl as <- <- <- <-;
          eexists; (split; [reflexivity|]); right; exists r; (split; [done|]); right; right;
          (split; [done|]); eauto 10.
  - injection Hdl as <- <- <- <-. pose proof (fetch_http_raises _ _ _ _ _ _ _ _ _ Hf) as ->.
    eexists. split; [reflexivity|]. by left.
Qed.

Lemma final_200 now d dest body mtime :
  Cache.final now d [Cache.Mkdir_parents (PosixPath.dirname dest); Cache.Open_wb dest;
                     Cache.Write dest body; Cache.Utime dest mtime] !! dest
  = Some (Cache.mkFile body mtime).
Proof.
  unfold Cache.final. cbn [foldl Cache.apply].
  rewrite lookup_insert_eq. cbn [Cache.data]. rewrite lookup_insert_eq.
  cbn [Cache.data]. by rewrite lookup_insert_eq.
Qed.

(** What a call leaves of files other than its destination. *)
Lemma final_other now d dest calls p :
  p ≠ dest →
  Forall (λ s, s = Cache.Mkdir_parents (PosixPath.dirname dest) ∨ s = Cache.Open_wb dest
               ∨ (∃ b, s = Cache.Write dest b) ∨ ∃ t, s = Cache.Utime dest t) calls →
  Cache.final now d calls !! p = d !! p.
Proof.
  intros Hne Hall. unfold Cache.final. revert d.
  induction Hall as [|s calls Hs _ IH]; intros d; [done|]. cbn [foldl]. rewrite IH.
  destruct Hs as [->|[->|[[b ->]|[t ->]]]]; cbn [Cache.apply]; [done| | |].
  - by rewrite lookup_insert_ne.
  - destruct (d !! dest); [by rewrite lookup_insert_ne|done].
  - destruct (d !! dest); [by rewrite lookup_insert_ne|done].
Qed.

End cache_more.

(** X17.  Whatever [download_cached] returns is what the cache holds for that URL
    when the call is over: the stored bytes on a 304 answer, the body just
    written on a 200 answer. *)
Theorem download_cached_returns_cached_bytes
    (format_date_time : Z → string) (now : Z) (net net' : list Http.reply)
    (c c' : Http.client) (d : Cache.disk) (netloc path bytes : string)
    (calls : list Cache.syscall) :
  Cache.download_cached format_date_time net c d netloc path
  = Some (Py.Return bytes, calls, net', c') →
  ∃ f, Cache.final now d calls !! Cache.destination netloc path = Some f
    ∧ Cache.data f = bytes.
Proof.
  intros Hdl. apply download_cached_cases in Hdl as (fetched & _ & Hcases).
  destruct Hcases as [(_ & [=] & _)|(r & _ & Hcases)].
  destruct Hcases as [(_ & -> & [(f & Hf & [= ->])|(_ & [=])])
                     |[(_ & _ & _ & [=])|(_ & [(mtime & _ & [= ->] & ->)|(_ & [=] & _)])]].
  - by exists f.
  - rewrite final_200. by eexists.
Qed.

Lemma download_cached_returns_cached_bytes_witness :
  ∃ f, Cache.final 1700000123 stale_cache
         [Cache.Mkdir_parents "debs/deb.debian.org/debian/dists/stable";
          Cache.Open_wb release_path; Cache.Write release_path "Origin: Debian";
          Cache.Utime release_path 1700000000]
       !! Cache.destination "deb.debian.org" "/debian/dists/stable/Release" = Some f
    ∧ Cache.data f = "Origin: Debian".
Proof.
  apply (download_cached_returns_cached_bytes (λ _, "Thu, 01 Jan 1970 00:00:00 GMT")
           1700000123 [Http.Response ok_200] [] Http.new_client
           (Http.send (Http.get_conn Http.new_client "deb.debian.org")
              (Http.mkRequest "deb.debian.org" "/debian/dists/stable/Release"
                 [("If-Modified-Since", "Thu, 01 Jan 1970 00:00:00 GMT")]))
           stale_cache "deb.debian.org" "/debian/dists/stable/Release").
  vm_compute. reflexivity.
Defined.

(** X18.  [download_cached] changes no cached file other than its own
    destination; and either it makes no disk call at all, or its calls begin
    with the [mkdir] of the parent directory, the opening of the destination
    for writing and the write of a body, and it then returns that body or
    raises [TypeError] (for a response without a date). *)
Theorem download_cached_frame
    (format_date_time : Z → string) (now : Z) (net net' : list Http.reply)
    (c c' : Http.client) (d : Cache.disk) (netloc path : string)
    (res : Py.result string) (calls : list Cache.syscall) :
  Cache.download_cached format_date_time net c d netloc path = Some (res, calls, net', c') →
  (∀ p, p ≠ Cache.destination netloc path → Cache.final now d calls !! p = d !! p)
  ∧ (calls = []
     ∨ ∃ body rest, calls = Cache.Mkdir_parents (PosixPath.dirname (Cache.destination netloc path))
                            :: Cache.Open_wb (Cache.destination netloc path)
                            :: Cache.Write (Cache.destination netloc path) body :: rest
         ∧ (res = Py.Return body ∨ res = Py.Raise Py.TypeError)).
Proof.
  intros Hdl. apply download_cached_cases in Hdl as (fetched & _ & Hcases).
  assert (calls = []
     ∨ ∃ body rest, calls = Cache.Mkdir_parents (PosixPath.dirname (Cache.destination netloc path))
                            :: Cache.Open_wb (Cache.destination netloc path)
                            :: Cache.Write (Cache.destination netloc path) body :: rest
         ∧ (rest = [] ∨ ∃ t, rest = [Cache.Utime (Cache.destination netloc path) t])
         ∧ (res = Py.Return body ∨ res = Py.Raise Py.TypeError)) as Hcalls.
  { destruct Hcases as [(_ & _ & ->)|(r & _ & Hcases)]; [by left|].
    destruct Hcases as [(_ & -> & _)|[(_ & _ & -> & _)|(_ & [(mtime & _ & -> & ->)|(_ & -> & ->)])]];
      [by left|by left| |]; right; eexists _, _; eauto 10. }
  split.
  - intros p Hp. apply (final_other now d (Cache.destination netloc path)); [done|].
    destruct Hcalls as [->|(body & rest & -> & Hrest & _)]; [constructor|].
    apply Forall_cons; split; [by left|]. apply Forall_cons; split; [right; by left|].
    apply Forall_cons; split; [right; right; left; eauto|].
    destruct Hrest as [->|[t ->]]; [constructor|].
    apply Forall_cons; split; [right; right; right; eauto|constructor].
  - destruct Hcalls as [->|(body & rest & -> & _ & Hres)]; [by left|]. right. eauto.
Qed.

Lemma download_cached_frame_witness :
  (∀ p, p ≠ Cache.destination "deb.debian.org" "/debian/dists/stable/Release" →
     Cache.final 1700000123 stale_cache
       [Cache.Mkdir_parents "debs/deb.debian.org/debian/dists/stable";
        Cache.Open_wb release_path; Cache.Write release_path "Origin: Debian";
        Cache.Utime release_path 1700000000] !! p = stale_cache !! p)
  ∧ ([Cache.Mkdir_parents "debs/deb.debian.org/debian/dists/stable";
      Cache.Open_wb release_path; Cache.Write release_path "Origin: Debian";
      Cache.Utime release_path 1700000000] = []
     ∨ ∃ body rest,
         [Cache.Mkdir_parents "debs/deb.debian.org/debian/dists/stable";
          Cache.Open_wb release_path; Cache.Write release_path "Origin: Debian";
          Cache.Utime release_path 1700000000]
         = Cache.Mkdir_parents
             (PosixPath.dirname (Cache.destination "deb.debian.org" "/debian/dists/stable/Release"))
           :: Cache.Open_wb (Cache.destination "deb.debian.org" "/debian/dists/stable/Release")
           :: Cache.Write (Cache.destination "deb.debian.org" "/debian/dists/stable/Release") body
           :: rest
         ∧ (Py.Return "Origin: Debian" = Py.Return body
            ∨ Py.Return "Origin: Debian" = Py.Raise Py.TypeError)).
Proof.
  apply (download_cached_frame (λ _, "Thu, 01 Jan 1970 00:00:00 GMT") 1700000123
           [Http.Response ok_200] [] Http.new_client
           (Http.send (Http.get_conn Http.new_client "deb.debian.org")
              (Http.mkRequest "deb.debian.org" "/debian/dists/stable/Release"
                 [("If-Modified-Since", "Thu, 01 Jan 1970 00:00:00 GMT")]))
           stale_cache "deb.debian.org" "/debian/dists/stable/Release").
  vm_compute. reflexivity.
Defined.

(** X19.  Every request [download_cached] sends, retries and the redirect target
    included, is conditional exactly when the destination is cached: it
    carries [If-Modified-Since] with the cached file's mtime, and no header
    when there is no cached file. *)
Theorem download_cached_conditional_request
    (format_date_time : Z → string) (net net' : list Http.reply)
    (c c' : Http.client) (d : Cache.disk) (netloc path : string)
    (res : Py.result string) (calls : list Cache.syscall) :
  Cache.download_cached format_date_time net c d netloc path = Some (res, calls, net', c') →
  ∃ sent, Http.requests c' = Http.requests c ++ sent
    ∧ sent ≠ []
    ∧ Forall (λ rq, Http.req_headers rq =
                match d !! Cache.destination netloc path with
                | Some f => [("If-Modified-Since", format_date_time (Cache.st_mtime f))]
                | None => []
                end) sent.
Proof.
  intros Hdl. apply download_cached_cases in Hdl as (fetched & Hf & _).
  apply fetch_http_log in Hf as (consumed & sent & _ & Hreq & _ & Hall & Hhead & _).
  exists sent. split; [done|]. split; [by destruct sent|done].
Qed.

Lemma download_cached_conditional_request_witness :
  ∃ sent,
    Http.requests (Http.send (Http.get_conn Http.new_client "deb.debian.org")
                     (Http.mkRequest "deb.debian.org" "/debian/dists/stable/Release"
                        [("If-Modified-Since", "Thu, 01 Jan 1970 00:00:00 GMT")]))
    = Http.requests Http.new_client ++ sent
    ∧ sent ≠ []
    ∧ Forall (λ rq, Http.req_headers rq =
                match stale_cache !! Cache.destination "deb.debian.org" "/debian/dists/stable/Release" with
                | Some f => [("If-Modified-Since",
                              (λ _ : Z, "Thu, 01 Jan 1970 00:00:00 GMT") (Cache.st_mtime f))]
                | None => []
                end) sent.
Proof.
  apply (download_cached_conditional_request (λ _, "Thu, 01 Jan 1970 00:00:00 GMT")
           [Http.Response (Http.mkResponse 404 None None "")] [] Http.new_client _
           stale_cache "deb.debian.org" "/debian/dists/stable/Release"
           (Py.Raise (Py.HTTPStatus 404)) []).
  vm_compute. reflexivity.
Defined.

(** A redirect is followed once: when the target of a 302 response answers
    with a 302 itself, [download_cached] does not go after it but raises
    [RuntimeError(302)], having sent two requests and written nothing. *)
Theorem download_cached_second_redirect_raises
    (format_date_time : Z → string) (net : list Http.reply) (c : Http.client)
    (d : Cache.disk) (netloc path netloc' path' : string) (r1 r2 : Http.response) :
  Http.status r1 = 302 → Http.location r1 = Some (netloc', path') →
  Http.status r2 = 302 →
  ∃ c', Cache.download_cached format_date_time
          (Http.Response r1 :: Http.Response r2 :: net) c d netloc path
        = Some (Py.Raise (Py.HTTPStatus 302), [], net, c')
    ∧ length (Http.requests c') = S (S (length (Http.requests c))).
Proof.
  intros H1 Hloc H2. unfold Cache.download_cached.
  cbn [Http.fetch_http Http.fetch_loop].
  rewrite (bool_decide_eq_true_2 _ H1), Hloc, (bool_decide_eq_true_2 _ H2), H2.
  rewrite bool_decide_eq_false_2 by done. rewrite bool_decide_eq_true_2 by done.
  eexists. split; [reflexivity|].
  rewrite !requests_send_get_conn, !length_app. simpl. lia.
Qed.

Lemma download_cached_second_redirect_raises_witness :
  ∃ c', Cache.download_cached (λ _, "Thu, 01 Jan 1970 00:00:00 GMT")
          [Http.Response (Http.mkResponse 302 (Some ("cdn.debian.org", "/a")) None "");
           Http.Response (Http.mkResponse 302 (Some ("deb.debian.org", "/b")) None "")]
          Http.new_client ∅ "deb.debian.org" "/b"
        = Some (Py.Raise (Py.HTTPStatus 302), [], [], c')
    ∧ length (Http.requests c') = S (S (length (Http.requests Http.new_client))).
Proof.
  apply (download_cached_second_redirect_raises (λ _, "Thu, 01 Jan 1970 00:00:00 GMT") []
           Http.new_client ∅ "deb.debian.org" "/b" "cdn.debian.org" "/a"
           (Http.mkResponse 302 (Some ("cdn.debian.org", "/a")) None "")
           (Http.mkResponse 302 (Some ("deb.debian.org", "/b")) None "")); reflexivity.
Defined.

(** X20.  What a 200 answer stored is what a later 304 answer serves: after a
    [download_cached] that returned the body of a 200 response dated [mtime],
    a call for the same URL sends [If-Modified-Since] with that date, and
    when the answer is 304 it returns the same bytes and leaves the disk
    alone. *)
Theorem download_cached_revalidates
    (format_date_time : Z → string) (now : Z) (rest net2 : list Http.reply)
    (c c2 : Http.client) (d : Cache.disk) (netloc path : string)
    (r r' : Http.response) (mtime : Z) :
  Http.status r = 200 → Http.date r = Some mtime → Http.status r' = 304 →
  ∃ calls c',
    Cache.download_cached format_date_time (Http.Response r :: rest) c d netloc path
    = Some (Py.Return (Http.body r), calls, rest, c')
    ∧ Cache.download_cached format_date_time (Http.Response r' :: net2) c2
        (Cache.final now d calls) netloc path
      = Some (Py.Return (Http.body r), [], net2,
              Http.send (Http.get_conn c2 netloc)
                (Http.mkRequest netloc path [("If-Modified-Since", format_date_time mtime)])).
Proof.
  intros Hs Hd Hs'.
  destruct (download_cached_200 format_date_time (Http.Response r :: rest) c d now netloc path r
              rest (Http.send (Http.get_conn c netloc) (Http.mkRequest netloc path
                 match d !! Cache.destination netloc path with
                 | Some f => [("If-Modified-Since", format_date_time (Cache.st_mtime f))]
                 | None => []
                 end))) with (mtime := mtime) as (calls & Hdl & Hfinal); try done.
  { apply fetch_http_direct. by rewrite Hs. }
  exists calls. eexists. split; [exact Hdl|].
  unfold Cache.download_cached. rewrite Hfinal. cbn [Cache.st_mtime Cache.data].
  rewrite fetch_http_direct by (by rewrite Hs').
  by rewrite bool_decide_eq_true_2.
Qed.

Lemma download_cached_revalidates_witness :
  ∃ calls c',
    Cache.download_cached (λ _, "Thu, 01 Jan 1970 00:00:00 GMT") [Http.Response ok_200]
      Http.new_client ∅ "deb.debian.org" "/debian/dists/stable/Release"
    = Some (Py.Return (Http.body ok_200), calls, [], c')
    ∧ Cache.download_cached (λ _, "Thu, 01 Jan 1970 00:00:00 GMT")
        [Http.Response (Http.mkResponse 304 None None "")] Http.new_client
        (Cache.final 1700000123 ∅ calls) "deb.debian.org" "/debian/dists/stable/Release"
      = Some (Py.Return (Http.body ok_200), [], [],
              Http.send (Http.get_conn Http.new_client "deb.debian.org")
                (Http.mkRequest "deb.debian.org" "/debian/dists/stable/Release"
                   [("If-Modified-Since", (λ _ : Z, "Thu, 01 Jan 1970 00:00:00 GMT") 1700000000)])).
Proof.
  apply (download_cached_revalidates (λ _, "Thu, 01 Jan 1970 00:00:00 GMT") 1700000123 [] []
           Http.new_client Http.new_client ∅ "deb.debian.org" "/debian/dists/stable/Release"
           ok_200 (Http.mkResponse 304 None None "") 1700000000); reflexivity.
Defined.

(** ** Signature verifier: lines that do not count, signatures that follow *)
Section gpg_more.

Implicit Types (lines pre post : list string) (ret A : Gpg.acc).

Lemma verify_loop_skips ret lines :
  Gpg.verify_loop ret (filter (λ line, Py.startswith Gpg.GNUPG_PREFIX line = true) lines)
  = Gpg.verify_loop ret lines.
Proof.
  revert ret. induction lines as [|line lines IH]; intros ret; [done|].
  destruct (Py.startswith Gpg.GNUPG_PREFIX line) eqn:Hp.
  - rewrite filter_cons_True by done. cbn [Gpg.verify_loop].
    destruct (Gpg.body ret line); [apply IH|done].
  - rewrite filter_cons_False by (by rewrite Hp). cbn [Gpg.verify_loop].
    unfold Gpg.body. rewrite Hp. cbn [negb]. apply IH.
Qed.

(** The verdict of [gpg_verify] depends on the status lines only: what the
    child writes without the [[GNUPG:] ] prefix can be struck from its
    output, wherever it stands, and the call returns or raises the same. *)
Theorem gpg_verify_ignores_other_lines (stdout : list string) :
  Gpg.gpg_verify (filter (λ line, Py.startswith Gpg.GNUPG_PREFIX line = true) stdout)
  = Gpg.gpg_verify stdout.
Proof. unfold Gpg.gpg_verify, Gpg._gpg_verify. by rewrite verify_loop_skips. Qed.

Lemma verify_loop_accepts_before_newsig pre newsig post ret A :
  Gpg.is_newsig newsig →
  Gpg.verify_loop ret pre = Py.Return (Some A) →
  Gpg.verify_loop ret (pre ++ newsig :: post) = Py.Return (Some A).
Proof.
  intros Hn. revert ret. induction pre as [|line pre IH]; intros ret; cbn [app Gpg.verify_loop].
  - rewrite (body_newsig _ _ Hn). by destruct (Gpg.good_to_return ret).
  - destruct (Gpg.body ret line) as [ret'|r]; [apply IH|done].
Qed.

(** X21.  A signature that verifies stays accepted whatever follows it: when
    [gpg_verify] returns an accumulator on a stream, it returns the same one
    on that stream continued by a [NEWSIG] line and any further lines, those
    of a bad signature included. *)
Theorem gpg_verify_accepts_first_good_signature (pre post : list string) (newsig : string)
    (A : Gpg.acc) :
  Gpg.is_newsig newsig →
  Gpg.gpg_verify pre = Py.Return A →
  Gpg.gpg_verify (pre ++ newsig :: post) = Py.Return A.
Proof.
  intros Hn. unfold Gpg.gpg_verify, Gpg._gpg_verify.
  destruct (Gpg.verify_loop ∅ pre) as [[B|]|e] eqn:Hpre; try done.
  intros [= <-]. by rewrite (verify_loop_accepts_before_newsig _ _ _ _ _ Hn Hpre).
Qed.

End gpg_more.

Lemma gpg_verify_accepts_first_good_signature_witness :
  Gpg.gpg_verify
    (take 4 two_signatures
     ++ Py.line "[GNUPG:] NEWSIG"
     :: [Py.line "[GNUPG:] BADSIG 6ED0E7B82643E131 Debian Archive Automatic Signing Key"])
  = Py.Return {[ "GOODSIG" := "0E98404D386FA1D9 Debian Archive Automatic Signing Key";
                 "VALIDSIG" := "1F89983E0081FDE018F3CC9673A4F27B8DD47936 2023-06-10" ]}.
Proof.
  apply (gpg_verify_accepts_first_good_signature (take 4 two_signatures)
           [Py.line "[GNUPG:] BADSIG 6ED0E7B82643E131 Debian Archive Automatic Signing Key"]
           (Py.line "[GNUPG:] NEWSIG")).
  - split; reflexivity.
  - vm_compute. reflexivity.
Defined.

(** ** Archive unpacker: the control file and the end of the archive *)

(** [splitlines(True)] cuts a text into pieces that make it up again. *)
Lemma concat_splitlines (s : string) : Py.concat (Unpack.splitlines s) = s.
Proof.
  unfold Py.concat. induction s as [|c s IH]; [done|]. cbn [Unpack.splitlines].
  destruct (Unpack.is_linebreak c).
  - destruct (Unpack.splitlines s) as [|h t] eqn:Hs.
    + cbn [foldr] in *. by rewrite <- IH.
    + destruct (bool_decide (c = "013"%char) && Py.startswith (String Py.newline "") s);
        cbn [foldr] in *; by rewrite ?str_app_cons, ?str_app_nil_l, IH.
  - destruct s as [|d s]; [done|].
    destruct (Unpack.splitlines (String d s)) as [|h t] eqn:Hs.
    + cbn [foldr] in IH. discriminate.
    + cbn [foldr] in *. by rewrite str_app_cons, IH.
Qed.

Lemma concat_app (l k : list string) : Py.concat (l ++ k) = Py.concat l +:+ Py.concat k.
Proof.
  unfold Py.concat. induction l as [|x l IH]; [done|]. cbn [app foldr].
  by rewrite IH, str_app_assoc.
Qed.

(** X22.  The control text [parse_control_data] returns is the text it was given,
    byte for byte, with the line [Status: install ok unpacked] appended
    (directly after the last character, also when the text does not end with
    a line feed); the prefix it returns is [var/lib/dpkg/info/], the value
    of [_get_dpkg_name] on the fields it parsed, and a dot. *)
Theorem parse_control_data_appends_status (data prefix text : string) :
  Unpack.parse_control_data data = Py.Return (prefix, text) →
  text = data +:+ Py.line "Status: install ok unpacked"
  ∧ ∃ name, Unpack._get_dpkg_name (Unpack.wanted ∅ (Unpack.splitlines data)) = Py.Return name
      ∧ prefix = "var/lib/dpkg/info/" +:+ name +:+ ".".
Proof.
  unfold Unpack.parse_control_data.
  destruct (Unpack._get_dpkg_name (Unpack.wanted ∅ (Unpack.splitlines data))) as [name|e];
    [|done].
  intros [= <- <-]. split; [|eauto].
  rewrite concat_app, concat_splitlines. unfold Py.concat. cbn [foldr].
  by rewrite str_app_nil_r.
Qed.

Lemma parse_control_data_appends_status_witness :
  hello_control +:+ Py.line "Status: install ok unpacked"
  = hello_control +:+ Py.line "Status: install ok unpacked"
  ∧ ∃ name, Unpack._get_dpkg_name (Unpack.wanted ∅ (Unpack.splitlines hello_control))
            = Py.Return name
      ∧ "var/lib/dpkg/info/hello." = "var/lib/dpkg/info/" +:+ name +:+ ".".
Proof.
  apply (parse_control_data_appends_status hello_control "var/lib/dpkg/info/hello."
           (hello_control +:+ Py.line "Status: install ok unpacked")).
  vm_compute. reflexivity.
Defined.

Lemma parse_control_data_prefix (data prefix text : string) :
  Unpack.parse_control_data data = Py.Return (prefix, text) →
  Py.startswith "var/lib/dpkg/info/" prefix = true.
Proof.
  unfold Unpack.parse_control_data.
  destruct (Unpack._get_dpkg_name _) as [name|e]; [|done]. by intros [= <- <-].
Qed.

Section unpack_more.

Variable tarfile_open : string → Py.result (list Unpack.member).

(** X23.  What [handle_control_tar] hands on: first the amended control file
    under the name [<prefix>control], its size being the length of its text,
    then the regular files of the control archive other than [control],
    each renamed to [<prefix><name>]; and the prefix lies in
    [var/lib/dpkg/info/]. *)
Theorem handle_control_tar_items (contents prefix : string) (items : list Unpack.member) :
  Unpack.handle_control_tar tarfile_open contents = Py.Return (prefix, items) →
  Py.startswith "var/lib/dpkg/info/" prefix = true
  ∧ ∃ text rest,
      items = (Tar.set_size (Py.len text) (Tar.new (prefix +:+ "control")), Some text) :: rest
      ∧ Forall (λ m : Unpack.member,
                  Tar.isreg (fst m) = true
                  ∧ ∃ name, Tar.name (fst m) = prefix +:+ name ∧ name ≠ "control") rest.
Proof.
  unfold Unpack.handle_control_tar.
  destruct (Unpack.extract_whole_tar tarfile_open contents) as [data|e]; [|done].
  destruct (Unpack.dict_get "./control" data) as [[ti [control_data|]]|]; [|done..].
  destruct (Unpack.parse_control_data control_data) as [[prefix' text]|e] eqn:Hparse; [|done].
  intros [= <- <-]. split; [by apply parse_control_data_prefix in Hparse|]. exists text. eexists. split; [reflexivity|].
  apply Forall_forall. intros m Hm.
  apply list_elem_of_In, in_flat_map in Hm as ([mem file_contents] & _ & Hm).
  destruct (Tar.isreg mem) eqn:Hreg; [|by destruct Hm].
  cbn [negb] in Hm. case_bool_decide as Hname; [by destruct Hm|].
  destruct Hm as [<-|[]]. split; [done|].
  by exists (Py.lstrip "./" (Tar.name mem)).
Qed.

End unpack_more.

Lemma handle_control_tar_items_witness :
  Py.startswith "var/lib/dpkg/info/" "var/lib/dpkg/info/hello." = true
  ∧ ∃ text rest,
      [(Tar.set_size (Py.len (hello_control +:+ Py.line "Status: install ok unpacked"))
          (Tar.new "var/lib/dpkg/info/hello.control"),
        Some (hello_control +:+ Py.line "Status: install ok unpacked"));
       (Tar.set_size 10 (Tar.set_mode 493 (Tar.new "var/lib/dpkg/info/hello.postinst")),
        Some (Py.line "#!/bin/sh"));
       (Tar.set_size 0 (Tar.new "var/lib/dpkg/info/hello.md5sums"), Some "")]
      = (Tar.set_size (Py.len text) (Tar.new ("var/lib/dpkg/info/hello." +:+ "control")),
         Some text) :: rest
      ∧ Forall (λ m : Unpack.member,
                  Tar.isreg (fst m) = true
                  ∧ ∃ name, Tar.name (fst m) = "var/lib/dpkg/info/hello." +:+ name
                            ∧ name ≠ "control") rest.
Proof.
  apply (handle_control_tar_items scripts_tarfile_open "CTRL" "var/lib/dpkg/info/hello.").
  vm_compute. reflexivity.
Defined.

Lemma startswith_app (p s t : string) :
  Py.startswith p s = true → Py.startswith p (s +:+ t) = true.
Proof.
  revert s. induction p as [|a p IH]; intros s; [done|].
  destruct s as [|b s]; [done|]. rewrite str_app_cons. cbn [Py.startswith].
  destruct (decide (a = b)); [apply IH|done].
Qed.

Lemma listed_app (items items' : list Unpack.member) (lines lines' : list string) :
  Unpack.listed items lines → Unpack.listed items' lines' →
  Unpack.listed (items ++ items') (lines ++ lines').
Proof.
  intros H H'. induction H as [|m items lines H IH|m items lines Hm H IH]; [done|..].
  - by apply Unpack.listed_line.
  - by apply Unpack.listed_info.
Qed.

Lemma listed_infos (items : list Unpack.member) :
  Forall (λ m, Py.startswith "var/lib/dpkg/info/" (Tar.name (fst m)) = true) items →
  Unpack.listed items [].
Proof.
  induction 1 as [|m items Hm _ IH]; [constructor|]. by apply Unpack.listed_info.
Qed.

(** Every member of a data archive that is yielded has its line. *)
Lemma data_members_listed (tf items : list Unpack.member) (lines : list string)
    (e : option Py.exn) :
  Unpack.data_members tf = (items, lines, e) → Unpack.listed items lines.
Proof.
  revert items lines e. induction tf as [|[mem extracted] tf IH]; intros items lines e.
  - intros [= <- <- <-]. constructor.
  - cbn [Unpack.data_members]. unfold Unpack.data_member.
    destruct (if Tar.isreg mem then _ else _) as [contents|e']; [|intros [= <- <- <-]; constructor].
    destruct (Unpack.data_members tf) as [[items' lines'] e'].
    intros [= <- <- <-].
    exact (Unpack.listed_line (Tar.set_name (Py.lstrip "./" (Tar.name mem)) mem, contents)
             items' lines' (IH _ _ _ eq_refl)).
Qed.

Section unpack_end.

Variable tarfile_open : string → Py.result (list Unpack.member).

(** What [handle_control_tar] hands on are info files. *)
Lemma handle_control_tar_infos (contents prefix : string) (items : list Unpack.member) :
  Unpack.handle_control_tar tarfile_open contents = Py.Return (prefix, items) →
  Py.startswith "var/lib/dpkg/info/" prefix = true
  ∧ Forall (λ m, Py.startswith "var/lib/dpkg/info/" (Tar.name (fst m)) = true) items.
Proof.
  unfold Unpack.handle_control_tar.
  destruct (Unpack.extract_whole_tar tarfile_open contents) as [data|e]; [|done].
  destruct (Unpack.dict_get "./control" data) as [[ti [control_data|]]|]; [|done..].
  destruct (Unpack.parse_control_data control_data) as [[prefix' text]|e] eqn:Hparse; [|done].
  intros [= <- <-]. apply parse_control_data_prefix in Hparse. split; [done|].
  unfold Unpack._dpkg_info_files. apply Forall_cons. split; [by apply startswith_app|].
  apply Forall_forall. intros m Hm.
  apply list_elem_of_In, in_flat_map in Hm as ([mem file_contents] & _ & Hm).
  destruct (Tar.isreg mem); [|by destruct Hm].
  cbn [negb] in Hm. case_bool_decide as Hname; [by destruct Hm|].
  destruct Hm as [<-|[]]. by apply startswith_app.
Qed.

Lemma unpack_loop_ends (fuel : nat) : ∀ fh prefix files out g,
  (∀ p, prefix = Some p → Py.startswith "var/lib/dpkg/info/" p = true) →
  Unpack.unpack_loop tarfile_open fuel fh prefix files out = Some g →
  Unpack.raised g = None →
  ∃ p more lines,
    Py.startswith "var/lib/dpkg/info/" p = true
    ∧ Unpack.yielded g
      = out ++ more
        ++ [(Tar.set_size (Py.len (Py.concat (files ++ lines))) (Tar.new (p +:+ "list")),
             Some (Py.concat (files ++ lines)))]
    ∧ Unpack.listed more lines.
Proof.
  induction fuel as [|fuel IH]; intros fh prefix files out g Hprefix; [done|].
  cbn [Unpack.unpack_loop].
  destruct (Py.read 60 fh) as [header fh1].
  destruct (Py.is_empty header).
  { destruct prefix as [p|]; intros [= <-]; [|done]. intros _.
    exists p, [], []. split; [by apply Hprefix|]. split; [by rewrite !app_nil_r|constructor]. }
  destruct (Unpack.int10 _) as [size|e]; [|by intros [= <-]].
  destruct (negb _); [by intros [= <-]|].
  destruct (Py.read size fh1) as [file_contents fh2].
  destruct (Py.read (size `mod` 2) fh2) as [pad fh3].
  assert (∀ out' files' g,
    (if Py.startswith "control.tar" (Py.take 16 header)
     then match Unpack.handle_control_tar tarfile_open file_contents with
          | Py.Raise e => Some (Unpack.mkGenerated out' (Some e))
          | Py.Return (prefix', dpkg_files) =>
              Unpack.unpack_loop tarfile_open fuel fh3 (Some prefix') files' (out' ++ dpkg_files)
          end
     else Unpack.unpack_loop tarfile_open fuel fh3 prefix files' out') = Some g →
    Unpack.raised g = None →
    ∃ p more lines,
      Py.startswith "var/lib/dpkg/info/" p = true
      ∧ Unpack.yielded g
        = out' ++ more
          ++ [(Tar.set_size (Py.len (Py.concat (files' ++ lines))) (Tar.new (p +:+ "list")),
               Some (Py.concat (files' ++ lines)))]
      ∧ Unpack.listed more lines) as Hcontrol.
  { intros out' files' g'. destruct (Py.startswith "control.tar" _); [|by apply IH].
    destruct (Unpack.handle_control_tar _ _) as [[prefix' dpkg_files]|e] eqn:Hh;
      [|by intros [= <-]].
    apply handle_control_tar_infos in Hh as [Hp' Hinfos]. intros Hloop Hraised.
    assert (∀ p, Some prefix' = Some p → Py.startswith "var/lib/dpkg/info/" p = true)
      as Hprefix' by (by intros p [= <-]).
    destruct (IH _ _ _ _ _ Hprefix' Hloop Hraised) as (p & more & lines & Hp & -> & Hlisted).
    exists p, (dpkg_files ++ more), lines. split; [done|].
    split; [by rewrite <- !List.app_assoc|].
    apply (listed_app dpkg_files more [] lines); [by apply listed_infos|done]. }
  destruct (Py.startswith "data.tar" _).
  - destruct (tarfile_open file_contents) as [tf|e]; [|by intros [= <-]].
    destruct (Unpack.data_members tf) as [[items lines] [e|]] eqn:Hdata; [by intros [= <-]|].
    apply data_members_listed in Hdata.
    intros Hloop Hraised.
    destruct (Hcontrol _ _ _ Hloop Hraised) as (p & more & lines' & Hp & -> & Hlisted).
    exists p, (items ++ more), (lines ++ lines'). split; [done|].
    split; [by rewrite <- !List.app_assoc|]. by apply listed_app.
  - apply Hcontrol.
Qed.

(** X24.  When [unpack_ar] comes to its end without raising, the last item it has
    yielded is the package's [.list] file: it is named [<prefix>list] for a
    prefix in [var/lib/dpkg/info/], and its size is the length of its body.
    The body is the manifest of the items yielded before it: every such
    item is a dpkg info file, named under [var/lib/dpkg/info/], or has its
    own line in the body, a slash, the item's name and a line feed (a slash
    and a dot for the empty name); the lines stand in the order of the
    yields, and the body holds nothing else. *)
Theorem unpack_ar_ends_with_list (fh : string) (g : Unpack.generated) :
  Unpack.unpack_ar tarfile_open fh = Some g →
  Unpack.raised g = None →
  ∃ prefix items lines,
    Py.startswith "var/lib/dpkg/info/" prefix = true
    ∧ Unpack.yielded g
      = items ++ [(Tar.set_size (Py.len (Py.concat lines)) (Tar.new (prefix +:+ "list")),
                   Some (Py.concat lines))]
    ∧ Unpack.listed items lines.
Proof.
  unfold Unpack.unpack_ar. destruct (Py.read 8 fh) as [magic fh1].
  destruct (negb _); [by intros [= <-]|]. intros Hloop Hraised.
  assert (∀ p, @None string = Some p → Py.startswith "var/lib/dpkg/info/" p = true)
    as Hprefix by done.
  destruct (unpack_loop_ends _ _ _ _ _ _ Hprefix Hloop Hraised)
    as (p & more & lines & Hp & -> & Hlisted).
  exists p, more, lines. done.
Qed.

End unpack_end.

Lemma unpack_ar_ends_with_list_witness :
  ∃ prefix items lines,
    Py.startswith "var/lib/dpkg/info/" prefix = true
    ∧ Unpack.yielded
        (default (Unpack.mkGenerated [] None) (Unpack.unpack_ar hello_tarfile_open hello_deb))
      = items ++ [(Tar.set_size (Py.len (Py.concat lines)) (Tar.new (prefix +:+ "list")),
                   Some (Py.concat lines))]
    ∧ Unpack.listed items lines.
Proof.
  apply (unpack_ar_ends_with_list hello_tarfile_open hello_deb); vm_compute; reflexivity.
Defined.

(** ** Output filter: block arithmetic, the end of the archive, a second pass *)

(** X25.  [roundup_block(size)] is the least multiple of 512 that is not below
    [size]; it is [size] plus the padding [write_file] appends. *)
Theorem roundup_block_least_multiple (size : Z) :
  (∃ blocks, Filter.roundup_block size = 512 * blocks)
  ∧ size ≤ Filter.roundup_block size < size + 512
  ∧ Filter.roundup_block size
    = size + (if bool_decide (size `mod` 512 = 0) then 0 else 512 - size `mod` 512).
Proof.
  unfold Filter.roundup_block. cbv zeta.
  rewrite Z.shiftl_mul_pow2, Z.shiftr_div_pow2 by lia.
  change (2 ^ 9) with 512.
  pose proof (Z.div_mod (size + 511) 512 ltac:(lia)) as Hdm.
  pose proof (Z.mod_pos_bound (size + 511) 512 ltac:(lia)) as Hb.
  pose proof (Z.div_mod size 512 ltac:(lia)) as Hdm'.
  pose proof (Z.mod_pos_bound size 512 ltac:(lia)) as Hb'.
  split; [exists ((size + 511) `div` 512); lia|]. split; [lia|].
  case_bool_decide as Hm.
  - assert ((size + 511) `div` 512 = size `div` 512) as ->; [|lia].
    symmetry. apply (Z.div_unique _ _ _ 511); lia.
  - assert ((size + 511) `div` 512 = size `div` 512 + 1) as ->; [|lia].
    symmetry. apply (Z.div_unique _ _ _ (size `mod` 512 - 1)); lia.
Qed.

Lemma take_drop (n : nat) (s : string) : Py.take n s +:+ Py.drop n s = s.
Proof.
  revert s. induction n as [|n IH]; intros [|c s]; try done.
  cbn [Py.take Py.drop]. by rewrite str_app_cons, IH.
Qed.

(** [read] splits the stream. *)
Lemma read_split (n : Z) (s a b : string) : Py.read n s = (a, b) → s = a +:+ b.
Proof.
  unfold Py.read. destruct (n <? 0); intros [= <- <-].
  - by rewrite str_app_nil_r.
  - by rewrite take_drop.
Qed.

Section filter_more.

Variable decode : string → option Tar.TarInfo.
Variable tobuf : Tar.TarInfo → string.

Implicit Types (fs : Fs.files) (ti : Tar.TarInfo).

Lemma filter_loop_met_eof fs (fuel : nat) : ∀ in_fh out out',
  Filter.filter_loop decode tobuf fuel fs in_fh out = Some (Py.Return out') →
  ∃ pre eof rest, in_fh = pre +:+ eof +:+ rest ∧ Filter.is_zero_block eof.
Proof.
  induction fuel as [|fuel IH]; intros in_fh out out'; [done|]. cbn [Filter.filter_loop].
  destruct (Py.read Filter.BLOCKSIZE in_fh) as [buf in_fh1] eqn:Hbuf.
  apply read_split in Hbuf as ->.
  destruct (Filter.frombuf decode buf) as [ti| |] eqn:Hfrom; [| |done].
  - destruct (Filter.mutate_file fs ti) as [keep ti'].
    unfold Filter.copyfileobj. case_bool_decide; [|done].
    destruct (Py.read _ in_fh1) as [body in_fh2] eqn:Hbody.
    apply read_split in Hbody as ->.
    intros (pre & eof & rest & -> & Heof)%IH.
    exists (buf +:+ body +:+ pre), eof, rest. by rewrite !str_app_assoc.
  - intros _. exists "", buf, in_fh1. split; [done|].
    unfold Filter.frombuf in Hfrom.
    destruct (Py.is_empty buf); [done|].
    case_bool_decide as Hlen; [done|].
    case_bool_decide as Hz; [|by destruct (decode buf)].
    split; [done|]. exact Hz.
Qed.

(** X26.  [output_filter] completes only on a stream that holds an end-of-archive
    block, 512 zero bytes: on a stream without one it does not return,
    whether the stream ends at a member boundary or inside a member. *)
Theorem output_filter_needs_end_block fs (in_fh out : string) :
  Filter.output_filter decode tobuf fs in_fh = Some (Py.Return out) →
  ∃ pre eof rest, in_fh = pre +:+ eof +:+ rest ∧ Filter.is_zero_block eof.
Proof.
  unfold Filter.output_filter.
  destruct (Filter.filter_loop _ _ _ _ _ _) as [[out'|e]|] eqn:Hloop; [|done..].
  intros _. by apply filter_loop_met_eof in Hloop.
Qed.

End filter_more.

Lemma output_filter_needs_end_block_witness :
  ∃ pre eof rest,
    Py.concat (map Filter.wire exported) +:+ padded "" +:+ "" = pre +:+ eof +:+ rest
    ∧ Filter.is_zero_block eof.
Proof.
  apply (output_filter_needs_end_block toy_decode toy_tobuf tracked _
           ("bin/ls:stored;etc/machine-id:epoch;etc/resolv.conf:epoch;"
            +:+ Py.repeat_char "000"%char 1024)).
  vm_compute. reflexivity.
Defined.

Section filter_again.

Variable decode : string → option Tar.TarInfo.
Variable tobuf : Tar.TarInfo → string.

Implicit Types (fs : Fs.files) (ti : Tar.TarInfo) (entries : list Filter.entry).

(** The filter on a well-formed stream. *)
Lemma output_filter_entries fs entries (eof rest : string) :
  Forall (Filter.well_formed decode) entries →
  Filter.is_zero_block eof →
  Filter.output_filter decode tobuf fs (Py.concat (map Filter.wire entries) +:+ eof +:+ rest)
  = Some (Py.Return (Py.concat (map (Filter.emitted tobuf fs) entries)
                     +:+ tobuf Filter.resolv_conf +:+ Py.repeat_char "000"%char 1024)).
Proof.
  intros Hwf Heof. unfold Filter.output_filter.
  rewrite (filter_loop_entries decode tobuf fs entries eof rest ""); [done..|].
  pose proof (concat_wire_length decode entries Hwf). rewrite str_length_app. lia.
Qed.

Lemma zero_blocks :
  Py.repeat_char "000"%char 1024
  = Py.repeat_char "000"%char 512 +:+ Py.repeat_char "000"%char 512 +:+ ""
  ∧ Filter.is_zero_block (Py.repeat_char "000"%char 512).
Proof. split; [|split]; vm_compute; reflexivity. Qed.

Lemma stored_mtime_written fs (e : Filter.entry) :
  Tar.set_mtime (Filter.stored_mtime fs (Tar.name (Codec.written fs e))) (Codec.written fs e)
  = Codec.written fs e.
Proof. reflexivity. Qed.

Lemma concat_cons (x : string) (l : list string) : Py.concat (x :: l) = x +:+ Py.concat l.
Proof. reflexivity. Qed.

Lemma emitted_dropped fs (e : Filter.entry) :
  Filter.dropped (Tar.name (Filter.info e)) = true → Filter.emitted tobuf fs e = "".
Proof. intros Hd. unfold Filter.emitted. by rewrite Hd. Qed.

Lemma emitted_kept fs (e : Filter.entry) :
  Filter.dropped (Tar.name (Filter.info e)) = false →
  Filter.emitted tobuf fs e = tobuf (Codec.written fs e) +:+ Filter.body e.
Proof. intros Hd. unfold Filter.emitted. by rewrite Hd. Qed.

Lemma passed_wire fs entries :
  Py.concat (map Filter.wire (Codec.passed tobuf fs entries))
  = Py.concat (map (Filter.emitted tobuf fs) entries) +:+ tobuf Filter.resolv_conf.
Proof.
  unfold Codec.passed. rewrite map_app, concat_app.
  assert (Py.concat (map Filter.wire [Filter.mkEntry (tobuf Filter.resolv_conf)
                                        Filter.resolv_conf ""])
          = tobuf Filter.resolv_conf) as ->.
  { unfold Py.concat, Filter.wire. cbn [map foldr Filter.hdr Filter.body].
    by rewrite !str_app_nil_r. }
  f_equal. induction entries as [|e entries IH]; [done|].
  cbn [map]. rewrite (concat_cons (Filter.emitted tobuf fs e)).
  destruct (Filter.dropped (Tar.name (Filter.info e))) eqn:Hd.
  - rewrite filter_cons_False by (by rewrite Hd).
    by rewrite IH, emitted_dropped, str_app_nil_l.
  - rewrite filter_cons_True by done. cbn [map]. rewrite concat_cons, IH.
    by rewrite emitted_kept.
Qed.

Lemma passed_emitted fs entries :
  Py.concat (map (Filter.emitted tobuf fs) (Codec.passed tobuf fs entries))
  = Py.concat (map (Filter.emitted tobuf fs) entries).
Proof.
  unfold Codec.passed. rewrite map_app, concat_app.
  assert (Py.concat (map (Filter.emitted tobuf fs)
                       [Filter.mkEntry (tobuf Filter.resolv_conf) Filter.resolv_conf ""]) = "")
    as -> by reflexivity.
  rewrite str_app_nil_r. induction entries as [|e entries IH]; [done|].
  cbn [map]. rewrite (concat_cons (Filter.emitted tobuf fs e)).
  destruct (Filter.dropped (Tar.name (Filter.info e))) eqn:Hd.
  - rewrite filter_cons_False by (by rewrite Hd).
    by rewrite IH, emitted_dropped, str_app_nil_l.
  - rewrite filter_cons_True by done. cbn [map]. rewrite concat_cons, IH.
    rewrite (emitted_kept fs e) by done. by rewrite emitted_kept.
Qed.

Lemma passed_well_formed fs entries :
  Forall (Filter.well_formed decode) entries →
  Forall (λ e, Codec.round_trips decode tobuf (Codec.written fs e)) entries →
  Codec.round_trips decode tobuf Filter.resolv_conf →
  Forall (Filter.well_formed decode) (Codec.passed tobuf fs entries).
Proof.
  intros Hwf Hrt (R1 & R2 & R3). unfold Codec.passed. apply Forall_app. split.
  - induction Hwf as [|e entries He Hwf IH]; [constructor|].
    inversion Hrt as [|? ? (E1 & E2 & E3) Hrt']; subst.
    destruct (Filter.dropped (Tar.name (Filter.info e))) eqn:Hd.
    + rewrite filter_cons_False by (by rewrite Hd). by apply IH.
    + rewrite filter_cons_True by done. cbn [map]. constructor; [|by apply IH].
      destruct He as (_ & _ & _ & Hbody). by repeat split.
  - by repeat constructor.
Qed.

(** X27.  Filtering the filter's own output gives that output again: on a
    well-formed stream whose kept headers, and the [etc/resolv.conf] entry
    the filter adds, are written by [tobuf] as blocks that [frombuf] reads
    back, the second pass drops the added entry, adds it again, and leaves
    every other byte as the first pass wrote it. *)
Theorem output_filter_idempotent fs entries (eof rest : string) :
  Forall (Filter.well_formed decode) entries →
  Filter.is_zero_block eof →
  Forall (λ e, Codec.round_trips decode tobuf (Codec.written fs e)) entries →
  Codec.round_trips decode tobuf Filter.resolv_conf →
  ∃ out,
    Filter.output_filter decode tobuf fs (Py.concat (map Filter.wire entries) +:+ eof +:+ rest)
    = Some (Py.Return out)
    ∧ Filter.output_filter decode tobuf fs out = Some (Py.Return out).
Proof.
  intros Hwf Heof Hrt Hresolv. eexists. split; [by apply output_filter_entries|].
  destruct zero_blocks as [-> Hz].
  rewrite <- (str_app_assoc _ (tobuf Filter.resolv_conf)), <- passed_wire.
  rewrite output_filter_entries; [|by apply passed_well_formed|done].
  by rewrite passed_emitted, passed_wire, !str_app_assoc.
Qed.

End filter_again.

Lemma output_filter_idempotent_witness :
  ∃ out,
    Filter.output_filter (block_decode exported_headers) block_tobuf tracked
      (Py.concat (map Filter.wire exported_blocks) +:+ padded "" +:+ "")
    = Some (Py.Return out)
    ∧ Filter.output_filter (block_decode exported_headers) block_tobuf tracked out
      = Some (Py.Return out).
Proof.
  apply (output_filter_idempotent (block_decode exported_headers) block_tobuf tracked
           exported_blocks (padded "") "").
  - repeat constructor; vm_compute; congruence.
  - split; vm_compute; reflexivity.
  - repeat constructor; vm_compute; congruence.
  - repeat split; vm_compute; congruence.
Defined.

(** ** Image writer: the names left out *)

Lemma startswith_spec (p s : string) : Py.startswith p s = true ↔ ∃ t, s = p +:+ t.
Proof.
  revert s. induction p as [|a p IH]; intros s.
  - split; [by exists s|done].
  - destruct s as [|b s]; cbn [Py.startswith].
    + split; [done|]. by intros [t Ht].
    + destruct (decide (a = b)) as [<-|Hne].
      * rewrite IH. split; intros [t Ht]; exists t.
        -- by rewrite str_app_cons, Ht.
        -- rewrite str_app_cons in Ht. by injection Ht.
      * split; [done|]. intros [t Ht]. rewrite str_app_cons in Ht. by injection Ht.
Qed.

Lemma strip_prefix_spec (p s rest : string) :
  Index.strip_prefix p s = Some rest ↔ s = p +:+ rest.
Proof.
  split; [apply strip_prefix_inv|]. intros ->. apply strip_prefix_app.
Qed.

Lemma endswith_spec (suffix s : string) :
  PyText.endswith suffix s = true ↔ ∃ u, s = u +:+ suffix.
Proof.
  induction s as [|c s IH]; cbn [PyText.endswith].
  - rewrite orb_false_r, bool_decide_eq_true. split.
    + intros <-. by exists "".
    + intros [[|d u] Hu]; [done|]. by rewrite str_app_cons in Hu.
  - rewrite orb_true_iff, bool_decide_eq_true, IH. split.
    + intros [<-|[u ->]]; [by exists ""|]. by exists (String c u).
    + intros [[|d u] Hu]; [by left|]. right. rewrite str_app_cons in Hu.
      injection Hu as -> ->. by exists u.
Qed.

(** Of two ways to cut one string, the one with the shorter head has the
    longer tail. *)
Lemma app_eq_suffix (a b c d : string) :
  a +:+ b = c +:+ d → (String.length a ≤ String.length c)%nat → ∃ u, b = u +:+ d.
Proof.
  revert c. induction a as [|x a IH]; intros c Heq Hlen.
  - exists c. by rewrite str_app_nil_l in Heq.
  - destruct c as [|y c]; [simpl in Hlen; lia|].
    rewrite !str_app_cons in Heq. injection Heq as _ Heq.
    apply (IH c Heq). simpl in Hlen. lia.
Qed.

Lemma after_first_inv (sep s tail : string) :
  PyText.after_first sep s = Some tail → ∃ x, s = x +:+ sep +:+ tail.
Proof.
  induction s as [|c s IH]; cbn [PyText.after_first].
  - destruct (Index.strip_prefix sep "") as [rest|] eqn:Hs; [|done].
    intros [= ->]. apply strip_prefix_spec in Hs. by exists "".
  - destruct (Index.strip_prefix sep (String c s)) as [rest|] eqn:Hs.
    + intros [= ->]. apply strip_prefix_spec in Hs. by exists "".
    + intros [x ->]%IH. by exists (String c x).
Qed.

(** Where the separator occurs at all, [after_first] finds it, and what it
    returns ends with whatever follows any occurrence. *)
Lemma after_first_occurs (sep x t : string) :
  ∃ tail u, PyText.after_first sep (x +:+ sep +:+ t) = Some tail ∧ tail = u +:+ t.
Proof.
  induction x as [|c x IH].
  - rewrite str_app_nil_l. exists t, "". split; [|done].
    destruct (sep +:+ t) as [|d s] eqn:Heq; cbn [PyText.after_first];
      by rewrite <- Heq, strip_prefix_app.
  - rewrite str_app_cons. cbn [PyText.after_first].
    destruct (Index.strip_prefix sep (String c (x +:+ sep +:+ t))) as [rest|] eqn:Hs.
    + apply strip_prefix_spec in Hs. exists rest.
      assert (sep +:+ rest = (String c x +:+ sep) +:+ t) as Heq.
      { by rewrite <- Hs, str_app_assoc, str_app_cons. }
      destruct (app_eq_suffix sep rest (String c x +:+ sep) t Heq) as [u Hu].
      * rewrite str_length_app. lia.
      * by exists u.
    + exact IH.
Qed.

(** X28.  [is_excluded] holds of exactly the names below [usr/share/doc/], the
    names below [usr/share/man/], and the names made of
    [usr/share/locale/], anything, [/LC_MESSAGES/], anything, and [.mo]
    (where "anything" may be empty and may hold slashes). *)
Theorem is_excluded_names (name : string) :
  Image.is_excluded name = true
  ↔ (∃ t, name = "usr/share/doc/" +:+ t)
    ∨ (∃ t, name = "usr/share/man/" +:+ t)
    ∨ ∃ x y, name = "usr/share/locale/" +:+ x +:+ "/LC_MESSAGES/" +:+ y +:+ ".mo".
Proof.
  unfold Image.is_excluded.
  destruct (Py.startswith "usr/share/doc/" name) eqn:Hdoc.
  { apply startswith_spec in Hdoc. tauto. }
  destruct (Py.startswith "usr/share/man/" name) eqn:Hman.
  { apply startswith_spec in Hman. tauto. }
  assert (¬ ∃ t, name = "usr/share/doc/" +:+ t) as Hnd.
  { intros H. apply startswith_spec in H. congruence. }
  assert (¬ ∃ t, name = "usr/share/man/" +:+ t) as Hnm.
  { intros H. apply startswith_spec in H. congruence. }
  unfold Image.LOCALE_MATCHER. split.
  - destruct (Index.strip_prefix "usr/share/locale/" name) as [rest|] eqn:Hp; [|done].
    apply strip_prefix_spec in Hp as ->.
    destruct (PyText.after_first "/LC_MESSAGES/" rest) as [tail|] eqn:Ha; [|done].
    apply after_first_inv in Ha as [x ->]. intros [y ->]%endswith_spec.
    right. right. by exists x, y.
  - intros [H|[H|(x & y & ->)]]; [done..|]. rewrite strip_prefix_app.
    destruct (after_first_occurs "/LC_MESSAGES/" x (y +:+ ".mo")) as (tail & u & -> & ->).
    apply endswith_spec. exists (u +:+ y). by rewrite str_app_assoc.
Qed.

(** ** Image writer: blocks, and the way back through the filter *)

Lemma len_repeat_char (c : ascii) (n : nat) : Py.len (Py.repeat_char c n) = Z.of_nat n.
Proof. unfold Py.len. induction n as [|n IH]; [done|]. simpl. lia. Qed.

Lemma len_app (s t : string) : Py.len (s +:+ t) = Py.len s + Py.len t.
Proof. unfold Py.len. rewrite str_length_app. lia. Qed.

Lemma len_zero (s : string) : Py.len s = 0 → s = "".
Proof. by destruct s. Qed.

(** Contents and padding fill the blocks [roundup_block] counts. *)
Lemma len_padding (size : Z) : size + Py.len (Archive.padding size) = Filter.roundup_block size.
Proof.
  unfold Archive.padding, Filter.roundup_block, Filter.BLOCKSIZE. cbv zeta.
  rewrite Z.shiftl_mul_pow2, Z.shiftr_div_pow2 by lia. change (2 ^ 9) with 512.
  pose proof (Z.div_mod size 512 ltac:(lia)) as Hdm.
  pose proof (Z.mod_pos_bound size 512 ltac:(lia)) as Hb.
  case_bool_decide as Hm.
  - assert ((size + 511) `div` 512 = size `div` 512) as ->; [|unfold Py.len; simpl; lia].
    symmetry. apply (Z.div_unique _ _ _ 511); lia.
  - rewrite len_repeat_char.
    assert ((size + 511) `div` 512 = size `div` 512 + 1) as ->; [|lia].
    symmetry. apply (Z.div_unique _ _ _ (size `mod` 512 - 1)); lia.
Qed.

Section image.

Variable decode : string → option Tar.TarInfo.
Variable tobuf : Tar.TarInfo → string.

Implicit Types (fs : Fs.files) (info : Tar.TarInfo) (fh : option string).

Lemma write_file_excluded (out : string) info fh :
  Archive.kept (info, fh) = false → Image.write_file tobuf out info fh = Py.Return out.
Proof.
  unfold Archive.kept, Image.write_file. cbn [fst].
  intros [Hd He]%orb_false_iff. apply negb_false_iff in He. by rewrite Hd, He.
Qed.

Lemma write_file_kept (out : string) info fh :
  Archive.kept (info, fh) = true →
  Py.len (default "" fh) = Tar.size info →
  Image.write_file tobuf out info fh
  = Py.Return (out +:+ Filter.wire (Archive.member tobuf (info, fh))).
Proof.
  unfold Archive.kept, Image.write_file, Filter.wire, Archive.member, Archive.padding.
  cbn [fst snd Filter.hdr Filter.body]. intros Hk Hlen.
  assert (negb (Tar.isdir info) && Image.is_excluded (Tar.name info) = false) as ->.
  { destruct (Tar.isdir info); [done|]. simpl in *. by apply negb_true_iff. }
  assert ((if bool_decide (Tar.size info = 0) then Py.Return ""
           else match fh with
                | None => Py.Raise Py.AttributeError
                | Some contents =>
                    match Filter.copyfileobj contents (Tar.size info) with
                    | Some (bytes, _) => Py.Return bytes
                    | None => Py.Raise Py.OSError
                    end
                end) = Py.Return (default "" fh)) as ->.
  { case_bool_decide as Hz.
    - rewrite Hz in Hlen. by rewrite (len_zero _ Hlen).
    - destruct fh as [contents|]; [|by cbn in Hlen].
      cbn [default] in *. rewrite <- (str_app_nil_r contents) at 1.
      by rewrite (copyfileobj_app contents "" _ Hlen). }
  case_bool_decide; by rewrite ?str_app_nil_r, !str_app_assoc.
Qed.

Lemma write_loop_members fs (names : list string) : ∀ out,
  Archive.sized fs →
  Forall (λ name, is_Some (fs !! name)) names →
  Image.write_loop tobuf fs out names
  = Py.Return (out +:+ Py.concat (map Filter.wire (Archive.members tobuf fs names))).
Proof.
  intros out Hsized Hall. revert out. unfold Archive.members.
  induction Hall as [|name names [[info fh] Hname] _ IH]; intros out;
    cbn [Image.write_loop omap list_omap].
  - by rewrite str_app_nil_r.
  - rewrite Hname. cbn [list_omap]. fold (omap (λ name, fs !! name) names) in *.
    destruct (Archive.kept (info, fh)) eqn:Hk.
    + rewrite write_file_kept by eauto using Hsized.
      rewrite filter_cons_True by done. cbn [map]. by rewrite IH, concat_cons, str_app_assoc.
    + rewrite write_file_excluded by done.
      rewrite filter_cons_False by (by rewrite Hk). apply IH.
Qed.

Lemma sorted_stored fs : Forall (λ name, is_Some (fs !! name)) (Image.sorted fs).
Proof.
  apply Forall_forall. intros name Hin. unfold Image.sorted in Hin.
  rewrite merge_sort_Permutation in Hin. by apply elem_of_elements, elem_of_dom in Hin.
Qed.

(** [write_image] writes, for each stored name in sorted order that is a
    directory or not excluded, the header block of its entry and then the
    contents padded with zero bytes, and nothing else. *)
Lemma write_image_members fs :
  Archive.sized fs →
  Image.write_image tobuf fs
  = Py.Return (Py.concat (map Filter.wire (Archive.members tobuf fs (Image.sorted fs)))).
Proof.
  intros Hsized. unfold Image.write_image.
  rewrite write_loop_members by (done || apply sorted_stored). by rewrite str_app_nil_l.
Qed.

Lemma members_stored fs names (e : Filter.entry) :
  e ∈ Archive.members tobuf fs names →
  ∃ name fh, fs !! name = Some (Filter.info e, fh)
    ∧ e = Archive.member tobuf (Filter.info e, fh).
Proof.
  unfold Archive.members. intros [[info fh] [-> Hin]]%list_elem_of_fmap_1.
  apply list_elem_of_filter in Hin as [_ Hin].
  apply list_elem_of_omap in Hin as (name & _ & Hname). by exists name, fh.
Qed.

End image.

(** [write_file] writes nothing for an excluded name that is no directory;
    for any other entry it writes the header, the [size] bytes of contents,
    and zero bytes up to the next multiple of 512, so that the bytes after
    the header are as many as [roundup_block(size)], the count the output
    filter reads on the way back. *)
Theorem write_file_pads_to_blocks (tobuf : Tar.TarInfo → string) :
  (∀ out info fh,
     Tar.isdir info = false → Image.is_excluded (Tar.name info) = true →
     Image.write_file tobuf out info fh = Py.Return out)
  ∧ (∀ out info contents,
       Tar.isdir info = true ∨ Image.is_excluded (Tar.name info) = false →
       Py.len contents = Tar.size info →
       Image.write_file tobuf out info (Some contents)
       = Py.Return (out +:+ tobuf info +:+ contents +:+ Archive.padding (Tar.size info))
       ∧ Py.len (contents +:+ Archive.padding (Tar.size info))
         = Filter.roundup_block (Tar.size info)).
Proof.
  split.
  - intros out info fh Hd He. apply write_file_excluded.
    unfold Archive.kept. cbn [fst]. by rewrite Hd, He.
  - intros out info contents Hk Hlen. split.
    + rewrite write_file_kept; [done| |done].
      unfold Archive.kept. cbn [fst]. destruct Hk as [->| ->]; [done|apply orb_true_r].
    + by rewrite len_app, Hlen, len_padding.
Qed.

Section round_trip.

Variable decode : string → option Tar.TarInfo.
Variable tobuf : Tar.TarInfo → string.

Lemma member_well_formed (fs : Fs.files) (e : Filter.entry) names :
  Archive.sized fs →
  (∀ name info fh, fs !! name = Some (info, fh) → Codec.round_trips decode tobuf info) →
  e ∈ Archive.members tobuf fs names →
  Filter.well_formed decode e.
Proof.
  intros Hsized Hcodec (name & fh & Hname & ->)%members_stored.
  destruct (Hcodec _ _ _ Hname) as (H1 & H2 & H3).
  unfold Filter.well_formed, Archive.member. cbn [Filter.hdr Filter.info Filter.body fst snd].
  repeat split; try done.
  by rewrite len_app, (Hsized _ _ _ Hname), len_padding.
Qed.

Lemma member_emitted (fs : Fs.files) (e : Filter.entry) names :
  Fs.entries_named fs →
  fs !! ".dockerenv" = None → fs !! "etc/resolv.conf" = None →
  e ∈ Archive.members tobuf fs names →
  Filter.emitted tobuf fs e = Filter.wire e.
Proof.
  intros [_ Hnamed] Hd1 Hd2 (name & fh & Hname & He)%members_stored.
  destruct (Hnamed _ _ _ Hname) as (Hn & _).
  unfold Filter.emitted, Filter.dropped, Filter.stored_mtime. rewrite Hn.
  rewrite !bool_decide_eq_false_2 by (intros ->; congruence). cbn [orb].
  rewrite Hname, set_mtime_same. rewrite He. reflexivity.
Qed.

End round_trip.

(** X29.  The image of a model comes back from the output filter as it was
    written.  For a model whose entries have contents as long as their size
    fields say, are named by their keys, are written by [tobuf] as blocks
    that [frombuf] reads back, and include neither [.dockerenv] nor
    [etc/resolv.conf]: [write_image] returns, and the filter run on that
    image followed by an end-of-archive block writes the same bytes, then
    the [etc/resolv.conf] entry and two zero blocks. *)
Theorem write_image_passes_filter
    (decode : string → option Tar.TarInfo) (tobuf : Tar.TarInfo → string)
    (fs : Fs.files) (eof rest : string) :
  Archive.sized fs →
  Fs.entries_named fs →
  (∀ name info fh, fs !! name = Some (info, fh) → Codec.round_trips decode tobuf info) →
  fs !! ".dockerenv" = None → fs !! "etc/resolv.conf" = None →
  Filter.is_zero_block eof →
  ∃ image,
    Image.write_image tobuf fs = Py.Return image
    ∧ Filter.output_filter decode tobuf fs (image +:+ eof +:+ rest)
      = Some (Py.Return (image +:+ tobuf Filter.resolv_conf
                         +:+ Py.repeat_char "000"%char 1024)).
Proof.
  intros Hsized Hnamed Hcodec Hd1 Hd2 Heof. eexists. split; [by apply write_image_members|].
  rewrite output_filter_entries; [|apply Forall_forall; intros e He|done].
  - do 3 f_equal.
    assert (∀ l, (∀ e, e ∈ l → Filter.emitted tobuf fs e = Filter.wire e) →
              map (Filter.emitted tobuf fs) l = map Filter.wire l) as Hmap.
    { induction l as [|e l IH]; [done|]. intros Hl. cbn [map].
      rewrite Hl by apply list_elem_of_here. rewrite IH; [done|].
      intros e' He'. apply Hl. by apply list_elem_of_further. }
    rewrite Hmap; [done|]. intros e He. by eapply member_emitted.
  - by eapply member_well_formed.
Qed.

Lemma write_image_passes_filter_witness :
  ∃ image,
    Image.write_image block_tobuf seeded_3 = Py.Return image
    ∧ Filter.output_filter (block_decode (map fst (map snd (map_to_list seeded_3))))
        block_tobuf seeded_3 (image +:+ padded "" +:+ "")
      = Some (Py.Return (image +:+ block_tobuf Filter.resolv_conf
                         +:+ Py.repeat_char "000"%char 1024)).
Proof.
  apply (write_image_passes_filter (block_decode (map fst (map snd (map_to_list seeded_3))))
           block_tobuf seeded_3 (padded "") "").
  - intros name info fh Hl. unfold seeded_3, seeded_2, seeded_1 in Hl.
    repeat (apply lookup_insert_Some in Hl as [[_ [= <- <-]]|[_ Hl]]; [reflexivity|]).
    apply lookup_singleton_Some in Hl as [_ [= <- <-]]. reflexivity.
  - split; [reflexivity|]. intros name info fh Hl. unfold seeded_3, seeded_2, seeded_1 in Hl.
    repeat (apply lookup_insert_Some in Hl as [[<- [= <- <-]]|[_ Hl]]; [by repeat split|]).
    apply lookup_singleton_Some in Hl as [<- [= <- <-]]. by repeat split.
  - intros name info fh Hl. unfold seeded_3, seeded_2, seeded_1 in Hl.
    repeat (apply lookup_insert_Some in Hl as [[_ [= <- <-]]|[_ Hl]];
            [repeat split; vm_compute; congruence|]).
    apply lookup_singleton_Some in Hl as [_ [= <- <-]]. repeat split; vm_compute; congruence.
  - reflexivity.
  - reflexivity.
  - split; vm_compute; reflexivity.
Defined.

(** ** Package download *)
Section copy.

Variable sha256 : string → string.

Lemma read_nothing (n : Z) (s rest : string) :
  0 < n → Py.read n s = ("", rest) → s = "".
Proof.
  intros Hn. unfold Py.read. destruct (Z.ltb_spec n 0); [lia|].
  destruct (Z.to_nat n) as [|k] eqn:Hk; [lia|]. by destruct s.
Qed.

Lemma copy_loop_copies (len : nat) : ∀ src hashed dst,
  (String.length src < len)%nat →
  ∃ fuel, Download.copy_loop sha256 fuel src hashed dst
          = Some (sha256 (hashed +:+ src), dst +:+ src).
Proof.
  induction len as [|len IH]; intros src hashed dst Hlen; [lia|].
  destruct (Py.read (1024 * 1024) src) as [buf rest] eqn:Hread.
  pose proof (read_split _ _ _ _ Hread) as Hsplit.
  destruct buf as [|c buf].
  - apply read_nothing in Hread as ->; [|lia]. exists 1%nat.
    cbn [Download.copy_loop].
    assert (Py.read (1024 * 1024) "" = ("", "")) as -> by reflexivity.
    cbn [Py.is_empty]. by rewrite !str_app_nil_r.
  - destruct (IH rest (hashed +:+ String c buf) (dst +:+ String c buf)) as [fuel Hfuel].
    { rewrite Hsplit, str_length_app in Hlen. simpl in Hlen. lia. }
    exists (S fuel). cbn [Download.copy_loop]. rewrite Hread. cbn [Py.is_empty].
    by rewrite Hfuel, Hsplit, !str_app_assoc.
Qed.

(** X30.  [copy_file_sha256] comes to an end on every source, with [dst] holding
    the bytes of the source, all of them and in order, and with the digest
    of exactly those bytes as its value. *)
Theorem copy_file_sha256_copies_all (src : string) :
  ∃ fuel, Download.copy_file_sha256 sha256 fuel src = Some (sha256 src, src).
Proof.
  destruct (copy_loop_copies (S (String.length src)) src "" "") as [fuel Hfuel]; [lia|].
  exists fuel. unfold Download.copy_file_sha256. by rewrite Hfuel, !str_app_nil_l.
Qed.

End copy.

